(** * Financial market crew: the staged content pipeline and the document assembler

    A shallow embedding of the agents of [src/agents] (search, summary,
    formatting, translating, send) and of [src/utils/pdf_generator.py], with
    the properties of the pipeline stated over it.

    Conventions of the embedding:
    - a Python [str] is a [string]; its characters are the bytes of the text,
      so [lower], the slices and [len] agree with Python on ASCII text;
    - a Python value of unknown shape (an upstream context, a decoded JSON
      body) is a [PyVal];
    - code that may raise returns a [result]; [try ... except Exception] is a
      match on it;
    - every external collaborator (environment variables, the clock, the HTTP
      endpoints, the language model, the PDF backend, [urlparse]) is a field
      of the record [World]. *)

From Stdlib Require Import List String Ascii Bool Arith ZArith Lia.
From Stdlib Require Import Numbers.DecimalString.
From Stdlib Require Numbers.DecimalNat Numbers.DecimalFacts.
Import ListNotations.

Open Scope list_scope.
Open Scope string_scope.
Open Scope nat_scope.

(** ** Python strings *)

Module PyStr.

(** The two-character newline pair and friends, written without escapes. *)
Definition nl : ascii := Ascii.ascii_of_nat 10.
Definition NL : string := String nl "".
Definition NLNL : string := String nl (String nl "").

(** [str.isspace] on one ASCII character: tab to carriage return, the four
    separators 28..31 and the space. *)
Definition is_space (c : ascii) : bool :=
  let n := Ascii.nat_of_ascii c in
  ((9 <=? n) && (n <=? 13)) || ((28 <=? n) && (n <=? 31)) || (n =? 32).

Definition lower_char (c : ascii) : ascii :=
  let n := Ascii.nat_of_ascii c in
  if (65 <=? n) && (n <=? 90) then Ascii.ascii_of_nat (n + 32) else c.

(** [s.lower()] *)
Fixpoint lower (s : string) : string :=
  match s with
  | "" => ""
  | String c s' => String (lower_char c) (lower s')
  end.

(** [s.startswith(p)] *)
Fixpoint startswith (p s : string) : bool :=
  match p, s with
  | "", _ => true
  | String a p', String b s' => Ascii.eqb a b && startswith p' s'
  | String _ _, "" => false
  end.

(** [p in s] *)
Fixpoint contains (p s : string) : bool :=
  startswith p s ||
  match s with
  | "" => false
  | String _ s' => contains p s'
  end.

(** [s.endswith(p)] *)
Fixpoint endswith (p s : string) : bool :=
  String.eqb p s ||
  match s with
  | "" => false
  | String _ s' => endswith p s'
  end.

(** [s[n:]] and [s[:n]] for [0 <= n] *)
Fixpoint drop (n : nat) (s : string) : string :=
  match n, s with
  | 0, _ => s
  | S n', String _ s' => drop n' s'
  | S _, "" => ""
  end.

Fixpoint take (n : nat) (s : string) : string :=
  match n, s with
  | 0, _ => ""
  | S n', String c s' => String c (take n' s')
  | S _, "" => ""
  end.

(** [s.lstrip()], [s.rstrip()], [s.strip()] *)
Fixpoint lstrip (s : string) : string :=
  match s with
  | "" => ""
  | String c s' => if is_space c then lstrip s' else s
  end.

Fixpoint rstrip (s : string) : string :=
  match s with
  | "" => ""
  | String c s' =>
      match rstrip s' with
      | "" => if is_space c then "" else String c ""
      | r => String c r
      end
  end.

Definition strip (s : string) : string := rstrip (lstrip s).

(** [sep.join(parts)] *)
Fixpoint join (sep : string) (parts : list string) : string :=
  match parts with
  | [] => ""
  | [p] => p
  | p :: ps => p ++ sep ++ join sep ps
  end.

(** [s.split()]: the maximal runs of non-space characters. [cur] is the word
    being read, [None] between words. *)
Fixpoint split_ws_aux (cur : option string) (s : string) : list string :=
  match s with
  | "" => match cur with Some w => [w] | None => [] end
  | String c s' =>
      if is_space c
      then match cur with
           | Some w => w :: split_ws_aux None s'
           | None => split_ws_aux None s'
           end
      else split_ws_aux
             (Some (match cur with Some w => w ++ String c "" | None => String c "" end))
             s'
  end.

Definition split_ws (s : string) : list string := split_ws_aux None s.

(** [s.split(sep)] for a non-empty separator: scan left to right, cut at each
    occurrence, resume after it. [skip] counts the characters of a separator
    still to be passed over. *)
Fixpoint split_aux (sep : string) (skip : nat) (cur : string) (s : string)
  : list string :=
  match s with
  | "" => [cur]
  | String c s' =>
      match skip with
      | S k => split_aux sep k cur s'
      | 0 =>
          if startswith sep s
          then cur :: split_aux sep (String.length sep - 1) "" s'
          else split_aux sep 0 (cur ++ String c "") s'
      end
  end.

Definition split (sep s : string) : list string := split_aux sep 0 "" s.

End PyStr.

(** ** Python values, exceptions and the operations the agents use on them *)

Set Warnings "-register-all".

Inductive PyVal : Type :=
| PNone
| PBool (b : bool)
| PInt (z : Z)
| PStr (s : string)
| PList (l : list PyVal)
| PDict (d : list (string * PyVal)).

(** The exceptions that can occur; all of them are subclasses of
    [Exception]. [ExternalError] is anything raised by a collaborator: a
    transport error, a bad HTTP status, an undecodable body, a PDF backend
    failure. *)
Inductive exn : Type :=
| AttributeError (type_name attr : string)
| TypeError (what : string)
| KeyError (key : string)
| IndexError
| ExternalError (msg : string).

Inductive result (A : Type) : Type :=
| Ok (a : A)
| Raise (e : exn).

Arguments Ok {A} a.
Arguments Raise {A} e.

Definition bind {A B : Type} (m : result A) (k : A -> result B) : result B :=
  match m with
  | Ok a => k a
  | Raise e => Raise e
  end.

Notation "x <- m ;; k" := (bind m (fun x => k))
  (at level 61, m at next level, right associativity).

(** [try: m  except Exception as e: h e] *)
Definition try_except {A : Type} (m : result A) (h : exn -> A) : A :=
  match m with
  | Ok a => a
  | Raise e => h e
  end.

Module Py.

Definition type_name (v : PyVal) : string :=
  match v with
  | PNone => "NoneType"
  | PBool _ => "bool"
  | PInt _ => "int"
  | PStr _ => "str"
  | PList _ => "list"
  | PDict _ => "dict"
  end.

(** [bool(v)], as used by [if v] and [not v] *)
Definition truthy (v : PyVal) : bool :=
  match v with
  | PNone => false
  | PBool b => b
  | PInt z => negb (Z.eqb z 0)
  | PStr s => negb (String.eqb s "")
  | PList l => match l with [] => false | _ => true end
  | PDict d => match d with [] => false | _ => true end
  end.

Definition isinstance_dict (v : PyVal) : bool :=
  match v with PDict _ => true | _ => false end.

Definition isinstance_list (v : PyVal) : bool :=
  match v with PList _ => true | _ => false end.

Fixpoint lookup (k : string) (d : list (string * PyVal)) : option PyVal :=
  match d with
  | [] => None
  | (k', v) :: d' => if String.eqb k k' then Some v else lookup k d'
  end.

(** [k in d] for a dict [d] *)
Definition has_key (k : string) (v : PyVal) : bool :=
  match v with
  | PDict d => match lookup k d with Some _ => true | None => false end
  | _ => false
  end.

(** [v.get(k, default)] *)
Definition get (v : PyVal) (k : string) (default : PyVal) : result PyVal :=
  match v with
  | PDict d => Ok (match lookup k d with Some x => x | None => default end)
  | _ => Raise (AttributeError (type_name v) "get")
  end.

(** [v[k]] for a string key [k] *)
Definition subscript (v : PyVal) (k : string) : result PyVal :=
  match v with
  | PDict d => match lookup k d with Some x => Ok x | None => Raise (KeyError k) end
  | PStr _ => Raise (TypeError "string indices must be integers")
  | PList _ => Raise (TypeError "list indices must be integers or slices")
  | _ => Raise (TypeError "object is not subscriptable")
  end.

(** [v[0]] *)
Definition index0 (v : PyVal) : result PyVal :=
  match v with
  | PList (x :: _) => Ok x
  | PList [] => Raise IndexError
  | PStr (String c _) => Ok (PStr (String c ""))
  | PStr "" => Raise IndexError
  | PDict _ => Raise (KeyError "0")
  | _ => Raise (TypeError "object is not subscriptable")
  end.

(** [v[:n]] *)
Definition slice_to (n : nat) (v : PyVal) : result PyVal :=
  match v with
  | PList l => Ok (PList (firstn n l))
  | PStr s => Ok (PStr (PyStr.take n s))
  | PDict _ => Raise (TypeError "unhashable type: slice")
  | _ => Raise (TypeError "object is not subscriptable")
  end.

(** [len(v)] *)
Definition len (v : PyVal) : result nat :=
  match v with
  | PList l => Ok (List.length l)
  | PStr s => Ok (String.length s)
  | PDict d => Ok (List.length d)
  | _ => Raise (TypeError "object has no len()")
  end.

Fixpoint chars (s : string) : list PyVal :=
  match s with
  | "" => []
  | String c s' => PStr (String c "") :: chars s'
  end.

(** The elements visited by [for x in v] *)
Definition iter (v : PyVal) : result (list PyVal) :=
  match v with
  | PList l => Ok l
  | PStr s => Ok (chars s)
  | PDict d => Ok (map (fun kv => PStr (fst kv)) d)
  | _ => Raise (TypeError "object is not iterable")
  end.

Definition as_int (v : PyVal) : option Z :=
  match v with
  | PInt z => Some z
  | PBool b => Some (if b then 1%Z else 0%Z)
  | _ => None
  end.

(** [a + b] *)
Definition add (a b : PyVal) : result PyVal :=
  match a, b with
  | PStr x, PStr y => Ok (PStr (x ++ y))
  | PList x, PList y => Ok (PList (x ++ y)%list)
  | _, _ =>
      match as_int a, as_int b with
      | Some x, Some y => Ok (PInt (x + y))
      | _, _ => Raise (TypeError "unsupported operand type(s) for +")
      end
  end.

(** [v.lower()], [v.strip()], [v.split(sep)]: methods of [str] only *)
Definition lower (v : PyVal) : result string :=
  match v with
  | PStr s => Ok (PyStr.lower s)
  | _ => Raise (AttributeError (type_name v) "lower")
  end.

Definition strip (v : PyVal) : result string :=
  match v with
  | PStr s => Ok (PyStr.strip s)
  | _ => Raise (AttributeError (type_name v) "strip")
  end.

Definition split (v : PyVal) (sep : string) : result (list string) :=
  match v with
  | PStr s => Ok (PyStr.split sep s)
  | _ => Raise (AttributeError (type_name v) "split")
  end.

(** [l.insert(n, x)] *)
Definition insert {A : Type} (n : nat) (x : A) (l : list A) : list A :=
  (firstn n l ++ x :: skipn n l)%list.

Definition str_of_nat (n : nat) : string :=
  NilEmpty.string_of_uint (Nat.to_uint n).

Definition str_of_Z (z : Z) : string :=
  match z with
  | Z0 => "0"
  | Zpos p => NilEmpty.string_of_uint (Pos.to_uint p)
  | Zneg p => "-" ++ NilEmpty.string_of_uint (Pos.to_uint p)
  end.

End Py.

(** ** Documents *)

Inductive Style : Type :=
| TitleStyle      (* self.title_style *)
| HeadingStyle    (* self.heading_style *)
| NormalStyle     (* self.normal_style *)
| SheetNormal     (* self.styles['Normal'] *)
| SheetItalic.    (* self.styles['Italic'] *)

Inductive Flowable : Type :=
| Paragraph (text : string) (style : Style)
| Spacer (width height : Z)
| Image (width height : Z).

(** ** The world outside the pipeline *)

Record World : Type := {
  (* os.getenv *)
  serper_api_key : option string;
  tavily_api_key : option string;
  telegram_token : option string;
  telegram_chat_id : option string;
  (* datetime.now(), in the four renderings used *)
  now_isoformat : string;        (* .isoformat() *)
  now_long_date : string;        (* .strftime('%B %d, %Y') *)
  now_file_stamp : string;       (* .strftime("%Y%m%d_%H%M%S") *)
  now_generated : string;        (* .strftime('%B %d, %Y at %I:%M %p') *)
  (* the interpreter *)
  str_exn : exn -> string;       (* str(e) *)
  repr_container : PyVal -> string;   (* str(v) for a list or a dict *)
  (* urllib.parse.urlparse: the scheme and the netloc *)
  urlparse : string -> result (string * string);
  (* POST google.serper.dev/images with "q", raise_for_status, .json() *)
  serper_images : string -> result PyVal;
  (* POST api.tavily.com/search with "query", raise_for_status, .json() *)
  tavily_search : string -> result PyVal;
  (* completion(...) on the summary prompt built around the news content,
     then .choices[0].message.content *)
  llm_summary : string -> result PyVal;
  (* completion(...) on the translation prompt built from the content, the
     language code and the language name, then .choices[0].message.content *)
  llm_translate : string -> string -> string -> result PyVal;
  (* POST .../sendMessage with the text, raise_for_status, .json() *)
  telegram_sendMessage : string -> result PyVal;
  (* POST .../sendPhoto with photo and caption, raise_for_status, .json() *)
  telegram_sendPhoto : PyVal -> PyVal -> result PyVal;
  (* requests.get, raise_for_status, PIL open: the size of the picture *)
  fetch_image : string -> result (Z * Z);
  (* PIL thumbnail to a bounding box, then PNG encoding *)
  thumbnail : Z * Z -> Z * Z -> result (Z * Z);
  (* SimpleDocTemplate(filepath, ...).build(story) *)
  doc_build : string -> list Flowable -> result unit
}.

(** [bool(os.getenv(...))] *)
Definition configured (k : option string) : bool :=
  match k with
  | Some s => negb (String.eqb s "")
  | None => false
  end.

(** [str(v)], as an f-string renders a value *)
Definition py_str (W : World) (v : PyVal) : string :=
  match v with
  | PNone => "None"
  | PBool true => "True"
  | PBool false => "False"
  | PInt z => Py.str_of_Z z
  | PStr s => s
  | PList _ | PDict _ => repr_container W v
  end.

(** ** src/agents/formatting_agent.py *)

Module FormattingAgent.

Import PyStr.

Definition _create_fallback_formatted_content (W : World) : PyVal :=
  PDict [ ("formatted_summary", PStr "Unable to format content due to missing summary data.");
          ("images", PList []);
          ("timestamp", PStr (now_isoformat W));
          ("original_summary", PStr "");
          ("status", PStr "fallback") ].

Definition _create_error_formatted_content (W : World) (error_message : string) : PyVal :=
  PDict [ ("formatted_summary", PStr ("Error formatting content: " ++ error_message));
          ("images", PList []);
          ("timestamp", PStr (now_isoformat W));
          ("original_summary", PStr "");
          ("status", PStr "error");
          ("error", PStr error_message) ].

(** The value returned is the record found, or [PNone]. *)
Definition _extract_summary_data (context : PyVal) : PyVal :=
  if negb (Py.truthy context) then PNone
  else match context with
       | PDict _ => context
       | PList items =>
           match find (fun item => Py.isinstance_dict item && Py.has_key "summary" item) items with
           | Some item => item
           | None => PNone
           end
       | _ => PNone
       end.

Definition financial_terms : list string :=
  [ "stock market"; "trading"; "earnings"; "S&P 500"; "Dow Jones";
    "NASDAQ"; "NYSE"; "futures"; "commodities"; "bonds"; "forex";
    "cryptocurrency"; "bitcoin"; "market chart"; "financial graph" ].

Definition _extract_search_terms (summary_text : PyVal) : result (list string) :=
  summary_lower <- Py.lower summary_text ;;
  let found_terms := filter (fun term => contains term summary_lower) financial_terms in
  let found_terms :=
    match found_terms with
    | [] => [ "stock market chart"; "financial market graph" ]
    | _ => found_terms
    end in
  Ok (firstn 3 found_terms).

Definition image_extensions : list string :=
  [ ".jpg"; ".jpeg"; ".png"; ".gif"; ".svg"; ".webp" ].

(** [urlparse] applied to a value: anything but a string has no [decode]. *)
Definition urlparse_val (W : World) (url : PyVal) : result (string * string) :=
  match url with
  | PStr s => urlparse W s
  | _ => Raise (AttributeError (Py.type_name url) "decode")
  end.

Definition _is_valid_image_url (W : World) (url : PyVal) : bool :=
  if negb (Py.truthy url) then false
  else
    try_except
      (parsed <- urlparse_val W url ;;
       let '(scheme, netloc) := parsed in
       if String.eqb scheme "" || String.eqb netloc "" then Ok false
       else
         lowered <- Py.lower url ;;
         Ok (existsb (fun ext => endswith ext lowered) image_extensions
             || contains "image" lowered))
      (fun _ => false).

(** The inner loop of [_search_images_serper]: the candidates of one term. *)
Fixpoint serper_harvest (W : World) (term : string) (candidates images : list PyVal)
  : result (list PyVal) :=
  match candidates with
  | [] => Ok images
  | img :: rest =>
      candidate <- Py.get img "imageUrl" (PStr "") ;;
      if _is_valid_image_url W candidate
      then
        url <- Py.get img "imageUrl" PNone ;;
        title <- Py.get img "title" (PStr term) ;;
        serper_harvest W term rest
          (images ++ [ PDict [ ("url", url); ("title", title);
                               ("source", PStr "Serper");
                               ("search_term", PStr term) ] ])%list
      else serper_harvest W term rest images
  end.

(** The outer loop of [_search_images_serper], over the terms. *)
Fixpoint serper_terms (W : World) (terms : list string) (images : list PyVal)
  : result (list PyVal) :=
  match terms with
  | [] => Ok images
  | term :: rest =>
      data <- serper_images W (term ++ " financial chart") ;;
      found <- Py.get data "images" (PList []) ;;
      first <- Py.slice_to 1 found ;;
      candidates <- Py.iter first ;;
      images <- serper_harvest W term candidates images ;;
      serper_terms W rest images
  end.

Definition _search_images_serper (W : World) (search_terms : list string) : list PyVal :=
  try_except (serper_terms W (firstn 2 search_terms) []) (fun _ => []).

(** The inner loop of [_search_images_tavily]: the results of one term. *)
Fixpoint tavily_harvest (W : World) (term : string) (results images : list PyVal)
  : result (list PyVal) :=
  match results with
  | [] => Ok images
  | res :: rest =>
      images_list <- Py.get res "images" (PList []) ;;
      if Py.truthy images_list
      then
        img_url <- Py.index0 images_list ;;
        if _is_valid_image_url W img_url
        then tavily_harvest W term rest
               (images ++ [ PDict [ ("url", img_url);
                                    ("title", PStr ("Financial Chart - " ++ term));
                                    ("source", PStr "Tavily");
                                    ("search_term", PStr term) ] ])%list
        else tavily_harvest W term rest images
      else tavily_harvest W term rest images
  end.

Fixpoint tavily_terms (W : World) (terms : list string) (images : list PyVal)
  : result (list PyVal) :=
  match terms with
  | [] => Ok images
  | term :: rest =>
      data <- tavily_search W (term ++ " financial chart graph") ;;
      found <- Py.get data "results" (PList []) ;;
      first <- Py.slice_to 1 found ;;
      results <- Py.iter first ;;
      images <- tavily_harvest W term results images ;;
      tavily_terms W rest images
  end.

Definition _search_images_tavily (W : World) (search_terms : list string) : list PyVal :=
  try_except (tavily_terms W (firstn 2 search_terms) []) (fun _ => []).

Definition _get_fallback_images : list PyVal :=
  [ PDict [ ("url", PStr "https://via.placeholder.com/600x400/0066cc/ffffff?text=Stock+Market+Chart");
            ("title", PStr "Stock Market Performance Chart");
            ("source", PStr "Fallback");
            ("search_term", PStr "stock market") ];
    PDict [ ("url", PStr "https://via.placeholder.com/600x400/009900/ffffff?text=Trading+Volume+Graph");
            ("title", PStr "Trading Volume Analysis");
            ("source", PStr "Fallback");
            ("search_term", PStr "trading volume") ] ].

Definition _find_financial_images (W : World) (summary_text : PyVal) : list PyVal :=
  try_except
    (search_terms <- _extract_search_terms summary_text ;;
     let images := [] in
     let images :=
       if configured (serper_api_key W)
       then (images ++ _search_images_serper W search_terms)%list
       else images in
     let images :=
       if configured (tavily_api_key W) && (List.length images <? 2)
       then (images ++ _search_images_tavily W search_terms)%list
       else images in
     let images :=
       if List.length images <? 2
       then (images ++ _get_fallback_images)%list
       else images in
     Ok (firstn 2 images))
    (fun _ => firstn 2 _get_fallback_images).

(** The marker text built for one image:
    [f"\n\n[Chart: {image['title']}]\n{image['url']}\n"]. *)
Definition chart_marker (W : World) (image : PyVal) : result string :=
  title <- Py.subscript image "title" ;;
  url <- Py.subscript image "url" ;;
  Ok (NLNL ++ "[Chart: " ++ py_str W title ++ "]" ++ NL ++ py_str W url ++ NL).

Definition _insert_images_in_summary (W : World) (summary_text : PyVal)
  (images : list PyVal) : result PyVal :=
  match images with
  | [] => Ok summary_text
  | image_1 :: _ =>
      paragraphs <- Py.split summary_text NLNL ;;
      paragraphs <-
        (if (1 <=? List.length paragraphs) && (1 <=? List.length images)
         then
           image_text <- chart_marker W image_1 ;;
           Ok (Py.insert 1 image_text paragraphs)
         else Ok paragraphs) ;;
      paragraphs <-
        (if (3 <=? List.length paragraphs) && (2 <=? List.length images)
         then
           match nth_error images 1 with
           | Some image_2 =>
               image_text <- chart_marker W image_2 ;;
               let middle_pos := List.length paragraphs / 2 in
               Ok (Py.insert middle_pos image_text paragraphs)
           | None => Raise IndexError
           end
         else Ok paragraphs) ;;
      Ok (PStr (join NLNL paragraphs))
  end.

Definition format_content (W : World) (context : PyVal) : PyVal :=
  try_except
    (let summary_data := _extract_summary_data context in
     if negb (Py.truthy summary_data)
     then Ok (_create_fallback_formatted_content W)
     else
       summary_text <- Py.get summary_data "summary" (PStr "") ;;
       let images := _find_financial_images W summary_text in
       formatted_content <- _insert_images_in_summary W summary_text images ;;
       Ok (PDict [ ("formatted_summary", formatted_content);
                   ("images", PList images);
                   ("timestamp", PStr (now_isoformat W));
                   ("original_summary", summary_text) ]))
    (fun e => _create_error_formatted_content W (str_exn W e)).

End FormattingAgent.

(** ** src/agents/summary_agent.py *)

Module SummaryAgent.

Import PyStr.

Definition _create_fallback_summary (W : World) : PyVal :=
  PDict [ ("summary", PStr ("Unable to generate market summary due to lack of available financial news data. "
                            ++ "Please check your news data sources and API connections."));
          ("timestamp", PStr (now_isoformat W));
          ("word_count", PInt 0);
          ("source_count", PInt 0);
          ("status", PStr "fallback") ].

Definition _create_error_summary (W : World) (error_message : string) : PyVal :=
  PDict [ ("summary", PStr ("Error generating financial market summary: " ++ error_message));
          ("timestamp", PStr (now_isoformat W));
          ("word_count", PInt 0);
          ("source_count", PInt 0);
          ("status", PStr "error");
          ("error", PStr error_message) ].

Definition _extract_search_data (context : PyVal) : PyVal :=
  if negb (Py.truthy context) then PNone
  else match context with
       | PDict _ => context
       | PList (first :: _) => if Py.isinstance_dict first then first else PNone
       | _ => PNone
       end.

(** The loop of [_prepare_news_content]: one numbered block per item. *)
Fixpoint news_parts (W : World) (i : nat) (items : list PyVal) : result (list string) :=
  match items with
  | [] => Ok []
  | item :: rest =>
      title <- Py.get item "title" (PStr "No title") ;;
      content <- Py.get item "content" (PStr "No content") ;;
      source <- Py.get item "source" (PStr "Unknown") ;;
      parts <- news_parts W (S i) rest ;;
      Ok ((Py.str_of_nat i ++ ". " ++ py_str W title ++ NL
           ++ "   Source: " ++ py_str W source ++ NL
           ++ "   Summary: " ++ py_str W content ++ NL) :: parts)
  end.

Definition _prepare_news_content (W : World) (search_data : PyVal) : result string :=
  news_items <- Py.get search_data "news_data" (PList []) ;;
  if negb (Py.truthy news_items) then Ok "No recent financial news available."
  else
    top <- Py.slice_to 10 news_items ;;
    items <- Py.iter top ;;
    content_parts <- news_parts W 1 items ;;
    Ok (join NL content_parts).

(** The loop of [_create_manual_summary] over the headlines kept. *)
Fixpoint headline_bullets (headlines : list string) : string :=
  match headlines with
  | [] => ""
  | headline :: rest =>
      (if negb (String.eqb (strip headline) "")
       then "â€¢ " ++ strip headline ++ NL
       else "")
      ++ headline_bullets rest
  end.

Definition _create_manual_summary (news_content : string) : string :=
  let lines := split NL news_content in
  let headlines :=
    filter (fun line => negb (String.eqb (strip line) "") && negb (startswith "   " line))
           lines in
  "Financial Market Summary:" ++ NLNL
  ++ "Key developments in today's market:" ++ NL
  ++ headline_bullets (firstn 5 headlines)
  ++ NL ++ "This summary was generated from available financial news sources.".

(** The length cap applied to the text the model returned. *)
Definition cap_words (summary : string) : string :=
  let words := split_ws summary in
  if 500 <? List.length words
  then join " " (firstn 500 words) ++ "..."
  else summary.

Definition _generate_llm_summary (W : World) (news_content : string) : string :=
  try_except
    (content <- llm_summary W news_content ;;
     summary <- Py.strip content ;;
     Ok (cap_words summary))
    (fun _ => _create_manual_summary news_content).

Definition create_summary (W : World) (context : PyVal) : PyVal :=
  try_except
    (let search_data := _extract_search_data context in
     if negb (Py.truthy search_data)
     then Ok (_create_fallback_summary W)
     else
       news_content <- _prepare_news_content W search_data ;;
       let summary := _generate_llm_summary W news_content in
       news_data <- Py.get search_data "news_data" (PList []) ;;
       source_count <- Py.len news_data ;;
       Ok (PDict [ ("summary", PStr summary);
                   ("timestamp", PStr (now_isoformat W));
                   ("word_count", PInt (Z.of_nat (List.length (split_ws summary))));
                   ("source_count", PInt (Z.of_nat source_count)) ]))
    (fun e => _create_error_summary W (str_exn W e)).

End SummaryAgent.

(** ** src/agents/translating_agent.py *)

Module TranslatingAgent.

Import PyStr.

(** [self.target_languages], in insertion order: code, name. *)
Definition target_languages : list (string * string) :=
  [ ("hindi", "हिन्दी"); ("arabic", "العربية"); ("hebrew", "עברית") ].

Definition _extract_formatted_data (context : PyVal) : PyVal :=
  if negb (Py.truthy context) then PNone
  else match context with
       | PDict _ => context
       | PList items =>
           match find (fun item => Py.isinstance_dict item && Py.has_key "formatted_summary" item) items with
           | Some item => item
           | None => PNone
           end
       | _ => PNone
       end.

Definition fallback_messages : list (string * string) :=
  [ ("हिन्दी", "वित्तीय बाजार सारांश - अनुवाद सेवा अनुपलब्ध");
    ("العربية", "ملخص السوق المالي - خدمة الترجمة غير متاحة");
    ("עברית", "סיכום שוק פיננסי - שירות תרגום לא זמין") ].

Fixpoint lookup_message (k : string) (d : list (string * string)) (default : string) : string :=
  match d with
  | [] => default
  | (k', m) :: d' => if String.eqb k k' then m else lookup_message k d' default
  end.

Definition _create_fallback_translation (W : World) (original_content : PyVal)
  (lang_name : string) : string :=
  let fallback_message :=
    lookup_message lang_name fallback_messages
      "Financial Market Summary - Translation service unavailable" in
  fallback_message ++ NLNL ++ "[Original Content]" ++ NL ++ py_str W original_content.

Definition _translate_to_language (W : World) (content : PyVal)
  (lang_code lang_name : string) : string :=
  try_except
    (answer <- llm_translate W (py_str W content) lang_code lang_name ;;
     translation <- Py.strip answer ;;
     Ok translation)
    (fun _ => _create_fallback_translation W content lang_name).

(** The loop of [_create_fallback_translations] over the languages. *)
Definition fallback_entries : list (string * PyVal) :=
  map (fun l =>
         (fst l, PDict [ ("language", PStr (snd l));
                         ("content", PStr "No content available for translation.");
                         ("images", PList []);
                         ("status", PStr "fallback") ]))
      target_languages.

Definition _create_fallback_translations (W : World) : PyVal :=
  PDict [ ("original_content", PStr "");
          ("translations", PDict fallback_entries);
          ("timestamp", PStr (now_isoformat W));
          ("images", PList []);
          ("status", PStr "fallback") ].

Definition error_entries (error_message : string) : list (string * PyVal) :=
  map (fun l =>
         (fst l, PDict [ ("language", PStr (snd l));
                         ("content", PStr ("Translation error: " ++ error_message));
                         ("images", PList []);
                         ("status", PStr "error");
                         ("error", PStr error_message) ]))
      target_languages.

Definition _create_error_translations (W : World) (error_message : string) : PyVal :=
  PDict [ ("original_content", PStr "");
          ("translations", PDict (error_entries error_message));
          ("timestamp", PStr (now_isoformat W));
          ("images", PList []);
          ("status", PStr "error");
          ("error", PStr error_message) ].

(** The loop of [translate_content]; [_translate_to_language] catches its own
    failures, so the handler of the loop body is never entered. *)
Definition translated_entries (W : World) (formatted_summary images : PyVal)
  : list (string * PyVal) :=
  map (fun l =>
         let translation := _translate_to_language W formatted_summary (fst l) (snd l) in
         (fst l, PDict [ ("language", PStr (snd l));
                         ("content", PStr translation);
                         ("images", images) ]))
      target_languages.

Definition translate_content (W : World) (context : PyVal) : PyVal :=
  try_except
    (let formatted_data := _extract_formatted_data context in
     if negb (Py.truthy formatted_data)
     then Ok (_create_fallback_translations W)
     else
       formatted_summary <- Py.get formatted_data "formatted_summary" (PStr "") ;;
       images <- Py.get formatted_data "images" (PList []) ;;
       Ok (PDict [ ("original_content", formatted_summary);
                   ("translations", PDict (translated_entries W formatted_summary images));
                   ("timestamp", PStr (now_isoformat W));
                   ("images", images) ]))
    (fun e => _create_error_translations W (str_exn W e)).

End TranslatingAgent.

(** ** src/utils/pdf_generator.py *)

Module PDFGenerator.

Import PyStr.

(** The rest of a match of [\[Chart:.*?\]] once the opening is read: the
    shortest run of characters other than a newline, up to and including the
    first closing bracket. The result is the matched text and what follows. *)
Fixpoint marker_tail (s : string) : option (string * string) :=
  match s with
  | "" => None
  | String c s' =>
      if Ascii.eqb c "]" then Some ("]", s')
      else if Ascii.eqb c nl then None
      else match marker_tail s' with
           | Some (m, rest) => Some (String c m, rest)
           | None => None
           end
  end.

(** A match of the pattern at the start of [s]. *)
Definition match_marker (s : string) : option (string * string) :=
  if startswith "[Chart:" s
  then match marker_tail (drop 7 s) with
       | Some (m, rest) => Some ("[Chart:" ++ m, rest)
       | None => None
       end
  else None.

(** [re.split(r'(\[Chart:.*?\])', s)]: the text before each match, then the
    match (the pattern is one capturing group), and at the end the text after
    the last match. [skip] counts the characters of a match still to be
    passed over, [cur] is the text read since the last match. *)
Fixpoint re_split_aux (skip : nat) (cur : string) (s : string) : list string :=
  match s with
  | "" => [cur]
  | String c s' =>
      match skip with
      | S k => re_split_aux k cur s'
      | 0 =>
          match match_marker s with
          | Some (m, _) => cur :: m :: re_split_aux (String.length m - 1) "" s'
          | None => re_split_aux 0 (cur ++ String c "") s'
          end
      end
  end.

Definition re_split (s : string) : list string := re_split_aux 0 "" s.

Definition _split_content_by_images (content : string) : list string :=
  filter (fun part => negb (String.eqb (strip part) "")) (re_split content).

Definition _add_image_placeholder (story : list Flowable) (placeholder_text : string)
  : list Flowable :=
  (story ++ [ Paragraph ("<i>" ++ placeholder_text ++ "</i>") SheetItalic; Spacer 1 8 ])%list.

(** The paragraphs of one text segment. *)
Fixpoint add_paragraphs (story : list Flowable) (paragraphs : list string) : list Flowable :=
  match paragraphs with
  | [] => story
  | para :: rest =>
      if negb (String.eqb (strip para) "")
      then add_paragraphs (story ++ [ Paragraph (strip para) NormalStyle; Spacer 1 12 ])%list rest
      else add_paragraphs story rest
  end.

(** The loop of [_add_formatted_content] over the segments. *)
Fixpoint add_parts (story : list Flowable) (content_parts : list string) : list Flowable :=
  match content_parts with
  | [] => story
  | part :: rest =>
      if startswith "[Chart:" part
      then add_parts (_add_image_placeholder story part) rest
      else if negb (String.eqb (strip part) "")
      then add_parts (add_paragraphs story (split NLNL part)) rest
      else add_parts story rest
  end.

Definition _add_image_to_story (W : World) (story : list Flowable) (image_data : PyVal)
  : result (list Flowable) :=
  match
    (url <- Py.get image_data "url" (PStr "") ;;
     title <- Py.get image_data "title" (PStr "Chart") ;;
     is_placeholder <-
       (if negb (Py.truthy url) then Ok true
        else lowered <- Py.lower url ;; Ok (contains "placeholder" lowered)) ;;
     if is_placeholder
     then Ok (story ++ [ Paragraph ("ðŸ“Š " ++ py_str W title ++ " (Chart not available)") SheetItalic;
                         Spacer 1 15 ])%list
     else
       size <- match url with
               | PStr u => fetch_image W u
               | _ => Raise (TypeError "url")
               end ;;
       size <- (if (400 <? fst size)%Z || (300 <? snd size)%Z
                then thumbnail W (400, 300)%Z size
                else Ok size) ;;
       Ok (story ++ [ Paragraph ("ðŸ“Š " ++ py_str W title) SheetItalic;
                      Spacer 1 8;
                      Image (fst size) (snd size);
                      Spacer 1 20 ])%list)
  with
  | Ok story' => Ok story'
  | Raise e =>
      (* the handler: the log line reads the title again, and [title] is
         bound as soon as [image_data] is a record *)
      _ <- Py.get image_data "title" (PStr "Unknown") ;;
      title <- Py.get image_data "title" (PStr "Chart") ;;
      Ok (story ++ [ Paragraph ("ðŸ“Š " ++ py_str W title ++ " (Image could not be loaded)") SheetItalic;
                     Spacer 1 15 ])%list
  end.

(** The loop over [images] at the end of [_add_formatted_content]. *)
Fixpoint add_images (W : World) (story : list Flowable) (images : list PyVal)
  : result (list Flowable) :=
  match images with
  | [] => Ok story
  | img :: rest =>
      story <- _add_image_to_story W story img ;;
      add_images W story rest
  end.

Definition _add_formatted_content (W : World) (story : list Flowable) (pdf_data : PyVal)
  : result (list Flowable) :=
  let story := (story ++ [ Paragraph "ðŸ“ˆ Financial Market Summary" HeadingStyle;
                           Spacer 1 20 ])%list in
  formatted_summary <- Py.get pdf_data "formatted_summary" (PStr "") ;;
  story <-
    (if Py.truthy formatted_summary
     then match formatted_summary with
          | PStr s => Ok (add_parts story (_split_content_by_images s))
          | _ => Raise (TypeError "expected string or bytes-like object")
          end
     else Ok story) ;;
  images <- Py.get pdf_data "images" (PList []) ;;
  if Py.truthy images
  then
    let story := (story ++ [ Spacer 1 20;
                             Paragraph "ðŸ“Š Related Charts and Graphs" HeadingStyle;
                             Spacer 1 15 ])%list in
    items <- Py.iter images ;;
    add_images W story items
  else Ok story.

(** [Paragraph(text, style)] needs a string. *)
Definition paragraph_text (v : PyVal) : result string :=
  match v with
  | PStr s => Ok s
  | _ => Raise (AttributeError (Py.type_name v) "split")
  end.

Definition create_report (W : World) (pdf_data : PyVal) : result string :=
  timestamp <- Py.get pdf_data "timestamp" (PStr (now_file_stamp W)) ;;
  let filename := "financial_market_summary_" ++ py_str W timestamp ++ ".pdf" in
  let filepath := "output/" ++ filename in
  title <- Py.get pdf_data "title" (PStr "Financial Market Summary") ;;
  title_text <- paragraph_text title ;;
  let story := [ Paragraph title_text TitleStyle;
                 Spacer 1 20;
                 Paragraph ("Generated: " ++ now_generated W) SheetNormal;
                 Spacer 1 30 ] in
  story <- _add_formatted_content W story pdf_data ;;
  _ <- doc_build W filepath story ;;
  Ok filepath.

End PDFGenerator.

(** ** src/agents/send_agent.py *)

(** The requests made to the messaging channel, in the order they are made. *)
Inductive Call : Type :=
| SendMessage (text : string)
| SendPhoto (photo caption : PyVal).

(** A computation that may raise, with the requests it made until then. *)
Definition IO (A : Type) : Type := (list Call * result A)%type.

Definition io_ret {A : Type} (a : A) : IO A := ([], Ok a).

Definition io_lift {A : Type} (r : result A) : IO A := ([], r).

Definition io_call {A : Type} (c : Call) (r : result A) : IO A := ([c], r).

Definition io_bind {A B : Type} (m : IO A) (k : A -> IO B) : IO B :=
  match m with
  | (calls, Ok a) => let (calls', r) := k a in ((calls ++ calls')%list, r)
  | (calls, Raise e) => (calls, Raise e)
  end.

Notation "x <-- m ;; k" := (io_bind m (fun x => k))
  (at level 61, m at next level, right associativity).

(** [try: m  except Exception as e: h e], keeping the requests made. *)
Definition io_try {A : Type} (m : IO A) (h : exn -> A) : list Call * A :=
  match m with
  | (calls, Ok a) => (calls, a)
  | (calls, Raise e) => (calls, h e)
  end.

(** A computation that cannot raise, used inside one that can. *)
Definition io_total {A : Type} (m : list Call * A) : IO A := (fst m, Ok (snd m)).

Module SendAgent.

Import PyStr.

Definition _extract_formatted_data (context : PyVal) : PyVal :=
  if negb (Py.truthy context) then PNone
  else match context with
       | PDict _ => context
       | PList items =>
           match find (fun item => Py.isinstance_dict item && Py.has_key "formatted_summary" item) items with
           | Some item => item
           | None => PNone
           end
       | _ => PNone
       end.

Definition _create_pdf_report (W : World) (formatted_data : PyVal) (timestamp : string)
  : PyVal :=
  try_except
    (formatted_summary <- Py.get formatted_data "formatted_summary" (PStr "") ;;
     images <- Py.get formatted_data "images" (PList []) ;;
     let pdf_data :=
       PDict [ ("title", PStr ("Financial Market Summary - " ++ now_long_date W));
               ("formatted_summary", formatted_summary);
               ("images", images);
               ("timestamp", PStr timestamp) ] in
     pdf_path <- PDFGenerator.create_report W pdf_data ;;
     Ok (PDict [ ("success", PBool true);
                 ("file_path", PStr pdf_path);
                 ("message", PStr "PDF report created successfully") ]))
    (fun e => PDict [ ("success", PBool false);
                      ("file_path", PStr "");
                      ("error", PStr (str_exn W e));
                      ("message", PStr "PDF creation failed") ]).

Definition _send_telegram_message (W : World) (text : string) : list Call * PyVal :=
  io_try
    (result <-- io_call (SendMessage text) (telegram_sendMessage W text) ;;
     ok <-- io_lift (Py.get result "ok" PNone) ;;
     if Py.truthy ok
     then
       inner <-- io_lift (Py.subscript result "result") ;;
       message_id <-- io_lift (Py.subscript inner "message_id") ;;
       io_ret (PDict [ ("success", PBool true); ("message_id", message_id) ])
     else
       description <-- io_lift (Py.get result "description" (PStr "Unknown error")) ;;
       io_ret (PDict [ ("success", PBool false);
                       ("message_id", PStr "");
                       ("error", description) ]))
    (fun e => PDict [ ("success", PBool false);
                      ("message_id", PStr "");
                      ("error", PStr (str_exn W e)) ]).

Definition _send_telegram_image (W : World) (image_data : PyVal) : list Call * PyVal :=
  io_try
    (photo <-- io_lift (Py.get image_data "url" (PStr "")) ;;
     caption <-- io_lift (Py.get image_data "title" (PStr "Financial Chart")) ;;
     result <-- io_call (SendPhoto photo caption) (telegram_sendPhoto W photo caption) ;;
     io_lift (Py.get result "ok" (PBool false)))
    (fun _ => PBool false).

(** The loop of [_send_to_telegram] over the images; the value each send
    returns is dropped. *)
Fixpoint send_images (W : World) (images : list PyVal) : IO unit :=
  match images with
  | [] => io_ret tt
  | image :: rest =>
      _ <-- io_total (_send_telegram_image W image) ;;
      send_images W rest
  end.

(** [prefix + v] for a string [prefix] *)
Definition str_plus (prefix : string) (v : PyVal) : result string :=
  match v with
  | PStr s => Ok (prefix ++ s)
  | _ => Raise (TypeError "can only concatenate str to str")
  end.

Definition message_header (W : World) : string :=
  "📈 *Financial Market Summary*" ++ NL ++ "📅 " ++ now_long_date W ++ NLNL.

Definition _send_to_telegram (W : World) (formatted_data : PyVal) : list Call * PyVal :=
  if negb (configured (telegram_token W)) || negb (configured (telegram_chat_id W))
  then ([], PDict [ ("success", PBool false);
                    ("message", PStr "Telegram credentials not configured");
                    ("message_id", PStr "") ])
  else
    io_try
      (formatted_summary <-- io_lift (Py.get formatted_data "formatted_summary" (PStr "")) ;;
       images <-- io_lift (Py.get formatted_data "images" (PList [])) ;;
       let message := message_header W in
       size <-- io_lift (Py.len formatted_summary) ;;
       message <-- io_lift
         (if 2000 <? size
          then
            head <- Py.slice_to 2000 formatted_summary ;;
            body <- Py.add head (PStr ("..." ++ NLNL)) ;;
            str_plus message body
          else
            body <- Py.add formatted_summary (PStr NLNL) ;;
            str_plus message body) ;;
       main_result <-- io_total (_send_telegram_message W message) ;;
       first_two <-- io_lift (Py.slice_to 2 images) ;;
       items <-- io_lift (Py.iter first_two) ;;
       _ <-- send_images W items ;;
       success <-- io_lift (Py.get main_result "success" (PBool false)) ;;
       message_id <-- io_lift (Py.get main_result "message_id" (PStr "")) ;;
       io_ret (PDict [ ("success", success);
                       ("message_id", message_id);
                       ("message", PStr "Report sent to Telegram successfully") ]))
      (fun e => PDict [ ("success", PBool false);
                        ("message_id", PStr "");
                        ("error", PStr (str_exn W e));
                        ("message", PStr "Telegram sending failed") ]).

Definition _create_fallback_distribution (W : World) : PyVal :=
  PDict [ ("pdf_created", PBool false);
          ("pdf_path", PStr "");
          ("telegram_sent", PBool false);
          ("telegram_message_id", PStr "");
          ("timestamp", PStr (now_isoformat W));
          ("content_type", PStr "English-only");
          ("images_included", PInt 0);
          ("status", PStr "fallback");
          ("message", PStr "No formatted data available for distribution") ].

Definition _create_error_distribution (W : World) (error_message : string) : PyVal :=
  PDict [ ("pdf_created", PBool false);
          ("pdf_path", PStr "");
          ("telegram_sent", PBool false);
          ("telegram_message_id", PStr "");
          ("timestamp", PStr (now_isoformat W));
          ("content_type", PStr "English-only");
          ("images_included", PInt 0);
          ("status", PStr "error");
          ("error", PStr error_message);
          ("message", PStr ("Distribution failed: " ++ error_message)) ].

Definition distribute_report (W : World) (context : PyVal) : list Call * PyVal :=
  io_try
    (let formatted_data := _extract_formatted_data context in
     if negb (Py.truthy formatted_data)
     then io_ret (_create_fallback_distribution W)
     else
       let timestamp := now_file_stamp W in
       let pdf_result := _create_pdf_report W formatted_data timestamp in
       telegram_result <-- io_total (_send_to_telegram W formatted_data) ;;
       pdf_created <-- io_lift (Py.get pdf_result "success" (PBool false)) ;;
       pdf_path <-- io_lift (Py.get pdf_result "file_path" (PStr "")) ;;
       telegram_sent <-- io_lift (Py.get telegram_result "success" (PBool false)) ;;
       telegram_message_id <-- io_lift (Py.get telegram_result "message_id" (PStr "")) ;;
       images <-- io_lift (Py.get formatted_data "images" (PList [])) ;;
       images_included <-- io_lift (Py.len images) ;;
       io_ret (PDict [ ("pdf_created", pdf_created);
                       ("pdf_path", pdf_path);
                       ("telegram_sent", telegram_sent);
                       ("telegram_message_id", telegram_message_id);
                       ("timestamp", PStr (now_isoformat W));
                       ("content_type", PStr "English-only");
                       ("images_included", PInt (Z.of_nat images_included)) ]))
    (fun e => _create_error_distribution W (str_exn W e)).

End SendAgent.

(** ** Concrete worlds, for closed examples *)

Module Worlds.

Import PyStr.

Definition is_scheme_char (c : ascii) : bool :=
  let n := Ascii.nat_of_ascii c in
  ((97 <=? n) && (n <=? 122)) || ((65 <=? n) && (n <=? 90))
  || ((48 <=? n) && (n <=? 57)) || (n =? 43) || (n =? 45) || (n =? 46).

Definition is_alpha (c : ascii) : bool :=
  let n := Ascii.nat_of_ascii c in
  ((97 <=? n) && (n <=? 122)) || ((65 <=? n) && (n <=? 90)).

(** The text before the first colon, when it is made of scheme characters,
    and the text after that colon. *)
Fixpoint scheme_prefix (s : string) : option (string * string) :=
  match s with
  | "" => None
  | String c s' =>
      if Ascii.eqb c ":" then Some ("", s')
      else if is_scheme_char c
      then match scheme_prefix s' with
           | Some (p, rest) => Some (String c p, rest)
           | None => None
           end
      else None
  end.

(** The text up to the first of [/], [?], [#]. *)
Fixpoint netloc_prefix (s : string) : string :=
  match s with
  | "" => ""
  | String c s' =>
      if Ascii.eqb c "/" || Ascii.eqb c "?" || Ascii.eqb c "#" then ""
      else String c (netloc_prefix s')
  end.

(** A model of [urlparse] on plain URLs: the scheme is the run of scheme
    characters, starting with a letter, before the first colon; the netloc
    follows a double slash. *)
Definition urlparse_plain (url : string) : result (string * string) :=
  let '(scheme, rest) :=
    match url, scheme_prefix url with
    | String c _, Some (String p ps, rest) =>
        if is_alpha c then (lower (String p ps), rest) else ("", url)
    | _, _ => ("", url)
    end in
  Ok (scheme, if startswith "//" rest then netloc_prefix (drop 2 rest) else "").

(** No credentials, every service unreachable. *)
Definition offline : World :=
  {| serper_api_key := None;
     tavily_api_key := None;
     telegram_token := None;
     telegram_chat_id := None;
     now_isoformat := "2024-01-15T09:30:00";
     now_long_date := "January 15, 2024";
     now_file_stamp := "20240115_093000";
     now_generated := "January 15, 2024 at 09:30 AM";
     str_exn := fun e => match e with
                         | ExternalError msg => msg
                         | KeyError k => "'" ++ k ++ "'"
                         | AttributeError t a =>
                             "'" ++ t ++ "' object has no attribute '" ++ a ++ "'"
                         | TypeError what => what
                         | IndexError => "index out of range"
                         end;
     repr_container := fun _ => "[...]";
     urlparse := urlparse_plain;
     serper_images := fun _ => Raise (ExternalError "connection refused");
     tavily_search := fun _ => Raise (ExternalError "connection refused");
     llm_summary := fun _ => Raise (ExternalError "connection refused");
     llm_translate := fun _ _ _ => Raise (ExternalError "connection refused");
     telegram_sendMessage := fun _ => Raise (ExternalError "connection refused");
     telegram_sendPhoto := fun _ _ => Raise (ExternalError "connection refused");
     fetch_image := fun _ => Raise (ExternalError "connection refused");
     thumbnail := fun _ size => Ok size;
     doc_build := fun _ _ => Raise (ExternalError "disk full") |}.


(** The image search of the first provider answers every query with one
    candidate; the other services stay unreachable. *)
Definition with_serper (answer : string -> result PyVal) (W : World) : World :=
  {| serper_api_key := Some "serper-key";
     tavily_api_key := tavily_api_key W;
     telegram_token := telegram_token W;
     telegram_chat_id := telegram_chat_id W;
     now_isoformat := now_isoformat W;
     now_long_date := now_long_date W;
     now_file_stamp := now_file_stamp W;
     now_generated := now_generated W;
     str_exn := str_exn W;
     repr_container := repr_container W;
     urlparse := urlparse W;
     serper_images := answer;
     tavily_search := tavily_search W;
     llm_summary := llm_summary W;
     llm_translate := llm_translate W;
     telegram_sendMessage := telegram_sendMessage W;
     telegram_sendPhoto := telegram_sendPhoto W;
     fetch_image := fetch_image W;
     thumbnail := thumbnail W;
     doc_build := doc_build W |}.

(** The messaging channel is configured and accepts every text message with
    the identifier 42; photos are refused and the document cannot be
    written. *)
Definition with_telegram (W : World) : World :=
  {| serper_api_key := serper_api_key W;
     tavily_api_key := tavily_api_key W;
     telegram_token := Some "bot-token";
     telegram_chat_id := Some "chat-id";
     now_isoformat := now_isoformat W;
     now_long_date := now_long_date W;
     now_file_stamp := now_file_stamp W;
     now_generated := now_generated W;
     str_exn := str_exn W;
     repr_container := repr_container W;
     urlparse := urlparse W;
     serper_images := serper_images W;
     tavily_search := tavily_search W;
     llm_summary := llm_summary W;
     llm_translate := llm_translate W;
     telegram_sendMessage :=
       fun _ => Ok (PDict [ ("ok", PBool true);
                            ("result", PDict [ ("message_id", PInt 42) ]) ]);
     telegram_sendPhoto := telegram_sendPhoto W;
     fetch_image := fetch_image W;
     thumbnail := thumbnail W;
     doc_build := doc_build W |}.

(** A text of [n] words. *)
Fixpoint words (n : nat) : string :=
  match n with
  | 0 => ""
  | 1 => "up"
  | S n' => "up " ++ words n'
  end.

End Worlds.

(** ** Vocabulary of the properties *)

Module Spec.

Import PyStr.




(** *** Stage context protocol *)

Definition is_record_with (key : string) (v : PyVal) : bool :=
  Py.isinstance_dict v && Py.has_key key v.

(** [item] is the first element of [items] that is a record containing [key]. *)
Definition first_record_with (key : string) (items : list PyVal) (item : PyVal) : Prop :=
  exists before after,
    items = (before ++ item :: after)%list
    /\ is_record_with key item = true
    /\ forall x, In x before -> is_record_with key x = false.

Definition no_record_with (key : string) (items : list PyVal) : Prop :=
  forall x, In x items -> is_record_with key x = false.

(** An extractor hands back every non-empty record it is given. *)
Definition returns_record (extract : PyVal -> PyVal) : Prop :=
  forall d, d <> [] -> extract (PDict d) = PDict d.

(** On a sequence, an extractor hands back the first record containing
    [key], and [None] when there is none. *)
Definition returns_first_record_with (key : string) (extract : PyVal -> PyVal) : Prop :=
  forall items,
    (forall item, first_record_with key items item -> extract (PList items) = item)
    /\ (no_record_with key items -> extract (PList items) = PNone).

(** The upstream carries nothing for a stage that looks for [key]: it is
    [None], an empty record, a scalar, or a sequence without a record
    containing [key]. *)
Definition upstream_missing (key : string) (context : PyVal) : Prop :=
  match context with
  | PDict d => d = []
  | PList items => no_record_with key items
  | _ => True
  end.

(** The same for the summarization stage, which looks at the first element
    of a sequence only. *)
Definition summary_upstream_missing (context : PyVal) : Prop :=
  match context with
  | PDict d => d = []
  | PList (first :: _) => Py.truthy first && Py.isinstance_dict first = false
  | _ => True
  end.

Definition has_keys (keys : list string) (v : PyVal) : bool :=
  forallb (fun k => Py.has_key k v) keys.

Definition formatted_content_keys : list string :=
  [ "formatted_summary"; "images"; "timestamp"; "original_summary" ].

Definition summary_keys : list string :=
  [ "summary"; "timestamp"; "word_count"; "source_count" ].

Definition translation_keys : list string :=
  [ "original_content"; "translations"; "timestamp"; "images" ].

Definition distribution_keys : list string :=
  [ "pdf_created"; "pdf_path"; "telegram_sent"; "telegram_message_id";
    "timestamp"; "content_type"; "images_included" ].

(** *** Image descriptors *)


(** A descriptor built from the answer of a provider. *)
Definition provider_descriptor (W : World) (v : PyVal) : Prop :=
  exists url title source term,
    v = PDict [ ("url", url); ("title", title);
                ("source", PStr source); ("search_term", PStr term) ]
    /\ (source = "Serper" \/ source = "Tavily")
    /\ FormattingAgent._is_valid_image_url W url = true.

(** *** Documents *)

(** The texts of the body paragraphs of a story, in order. *)
Fixpoint body_paragraphs (story : list Flowable) : list string :=
  match story with
  | [] => []
  | Paragraph text NormalStyle :: rest => text :: body_paragraphs rest
  | _ :: rest => body_paragraphs rest
  end.


(** The formatted summary of the assembly scenario. *)
Definition scenario : string :=
  "S&P 500 fell 2% today." ++ NLNL ++ "[Chart: S&P 500 Daily]" ++ NL
  ++ "http://x/img.png" ++ NLNL ++ "Markets closed early.".

(** *** Distribution *)

(** The record handed to the distribution stage has a list under [images],
    or no such field. *)
Definition images_is_sequence (formatted_data : PyVal) : bool :=
  match formatted_data with
  | PDict d =>
      match Py.lookup "images" d with
      | Some (PList _) | None => true
      | Some _ => false
      end
  | _ => true
  end.

(** The value read under [images], and whether [v[:2]] is defined on it. *)
Definition images_field (formatted_data : PyVal) : PyVal :=
  match Py.get formatted_data "images" (PList []) with
  | Ok x => x
  | Raise _ => PNone
  end.

Definition sliceable (v : PyVal) : bool :=
  match v with
  | PList _ | PStr _ => true
  | _ => false
  end.

(** The channel answered the text message with [ok] and an identifier. *)
Definition accepted (W : World) (text : string) : bool :=
  match telegram_sendMessage W text with
  | Ok answer =>
      match Py.get answer "ok" PNone, Py.subscript answer "result" with
      | Ok ok, Ok inner =>
          Py.truthy ok
          && match Py.subscript inner "message_id" with Ok _ => true | Raise _ => false end
      | Ok ok, Raise _ => false
      | Raise _, _ => false
      end
  | Raise _ => false
  end.

(** The text message for a formatted summary: the header, then the summary
    cut after 2000 characters and marked with an ellipsis when it is longer. *)
Definition telegram_text (W : World) (formatted_summary : PyVal) : option string :=
  match formatted_summary with
  | PStr s =>
      Some (SendAgent.message_header W
            ++ (if 2000 <? String.length s
                then take 2000 s ++ "..." ++ NLNL
                else s ++ NLNL))
  | _ => None
  end.

(** The text message of a run: there is one when the channel is configured
    and the formatted summary is a text. *)
Definition main_text (W : World) (formatted_data : PyVal) : option string :=
  if configured (telegram_token W) && configured (telegram_chat_id W)
  then match Py.get formatted_data "formatted_summary" (PStr "") with
       | Ok v => telegram_text W v
       | Raise _ => None
       end
  else None.

Definition is_photo (c : Call) : bool :=
  match c with
  | SendPhoto _ _ => true
  | SendMessage _ => false
  end.


End Spec.

(** ** src/agents/search_agent.py *)

(** The world of the search agent: the one of the other agents, the key of
    the analysis service and the three endpoints the agent reaches. *)
Record NewsWorld : Type := {
  world : World;
  groq_api_key : option string;           (* os.getenv('GROQ_API_KEY') *)
  (* POST api.tavily.com/search with the news query, raise_for_status, .json() *)
  tavily_news : result PyVal;
  (* POST google.serper.dev/search with the news query, raise_for_status, .json() *)
  serper_news : result PyVal;
  (* completion(...) on the analysis prompt built around the news text, then
     .choices[0].message.content *)
  groq_analysis : string -> result PyVal
}.

Module SearchAgent.

Import PyStr.

(** The loop of [_search_tavily] over the results. *)
Fixpoint tavily_items (results : list PyVal) : result (list PyVal) :=
  match results with
  | [] => Ok []
  | res :: rest =>
      title <- Py.get res "title" (PStr "") ;;
      content <- Py.get res "content" (PStr "") ;;
      url <- Py.get res "url" (PStr "") ;;
      published_date <- Py.get res "published_date" (PStr "") ;;
      items <- tavily_items rest ;;
      Ok (PDict [ ("title", title); ("content", content); ("url", url);
                  ("published_date", published_date);
                  ("source", PStr "Tavily") ] :: items)
  end.

Definition _search_tavily (N : NewsWorld) : list PyVal :=
  try_except
    (data <- tavily_news N ;;
     found <- Py.get data "results" (PList []) ;;
     results <- Py.iter found ;;
     tavily_items results)
    (fun _ => []).

(** The loop of [_search_serper] over the news. *)
Fixpoint serper_items (results : list PyVal) : result (list PyVal) :=
  match results with
  | [] => Ok []
  | res :: rest =>
      title <- Py.get res "title" (PStr "") ;;
      content <- Py.get res "snippet" (PStr "") ;;
      url <- Py.get res "link" (PStr "") ;;
      published_date <- Py.get res "date" (PStr "") ;;
      items <- serper_items rest ;;
      Ok (PDict [ ("title", title); ("content", content); ("url", url);
                  ("published_date", published_date);
                  ("source", PStr "Serper") ] :: items)
  end.

Definition _search_serper (N : NewsWorld) : list PyVal :=
  try_except
    (data <- serper_news N ;;
     found <- Py.get data "news" (PList []) ;;
     results <- Py.iter found ;;
     serper_items results)
    (fun _ => []).

(** The comprehension of [_enhance_with_groq]: one block per item. *)
Fixpoint news_blocks (W : World) (items : list PyVal) : result (list string) :=
  match items with
  | [] => Ok []
  | item :: rest =>
      title <- Py.subscript item "title" ;;
      content <- Py.subscript item "content" ;;
      blocks <- news_blocks W rest ;;
      Ok (("Title: " ++ py_str W title ++ NL ++ "Content: " ++ py_str W content) :: blocks)
  end.

Definition _enhance_with_groq (N : NewsWorld) (news_data : list PyVal) : list PyVal :=
  try_except
    (blocks <- news_blocks (world N) (firstn 5 news_data) ;;
     let news_text := join NLNL blocks in
     enhanced_summary <- groq_analysis N news_text ;;
     Ok (news_data ++ [ PDict [ ("title", PStr "AI-Enhanced Market Analysis");
                                ("content", enhanced_summary);
                                ("url", PStr "");
                                ("published_date", PStr (now_isoformat (world N)));
                                ("source", PStr "Groq AI") ] ])%list)
    (fun _ => news_data).

(** None of the three helpers raises, so the handler of [execute_search] is
    kept for the shape of the code only. *)
Definition execute_search (N : NewsWorld) : PyVal :=
  try_except
    (let news_data := [] in
     let news_data :=
       if configured (tavily_api_key (world N))
       then (news_data ++ _search_tavily N)%list
       else news_data in
     let news_data :=
       if configured (serper_api_key (world N)) && (List.length news_data <? 10)
       then (news_data ++ _search_serper N)%list
       else news_data in
     let news_data :=
       if configured (groq_api_key N) && Py.truthy (PList news_data)
       then _enhance_with_groq N news_data
       else news_data in
     Ok (PDict [ ("news_data", PList news_data);
                 ("timestamp", PStr (now_isoformat (world N)));
                 ("search_summary",
                  PStr ("Found " ++ Py.str_of_nat (List.length news_data)
                        ++ " relevant financial news items")) ]))
    (fun e => PDict [ ("news_data", PList []);
                      ("timestamp", PStr (now_isoformat (world N)));
                      ("error", PStr (str_exn (world N) e)) ]).

End SearchAgent.

(** ** Further vocabulary of the properties *)

Module SpecX.

Import PyStr Spec.

(** *** Search terms *)

Definition is_upper (c : ascii) : bool :=
  let n := Ascii.nat_of_ascii c in (65 <=? n) && (n <=? 90).

(** No character of [s] is an upper-case letter. *)
Fixpoint no_upper (s : string) : bool :=
  match s with
  | "" => true
  | String c s' => negb (is_upper c) && no_upper s'
  end.

Definition default_terms : list string :=
  [ "stock market chart"; "financial market graph" ].

(** The entries of the vocabulary written with capitals. *)
Definition capitalised_terms : list string :=
  [ "S&P 500"; "Dow Jones"; "NASDAQ"; "NYSE" ].

(** *** News *)

(** No character of [s] is a newline. *)
Fixpoint single_line (s : string) : bool :=
  match s with
  | "" => true
  | String c s' => negb (Ascii.eqb c nl) && single_line s'
  end.

(** The text a block shows for a field of an item: what [get] reads, with
    the default of the block, as an f-string renders it. *)
Definition field (W : World) (item : PyVal) (key default : string) : string :=
  match Py.get item key (PStr default) with
  | Ok v => py_str W v
  | Raise _ => ""
  end.

(** A record whose title, source and content are rendered on one line each. *)
Definition tidy (W : World) (item : PyVal) : bool :=
  Py.isinstance_dict item
  && single_line (field W item "title" "No title")
  && single_line (field W item "source" "Unknown")
  && single_line (field W item "content" "No content").

Definition headline (W : World) (i : nat) (item : PyVal) : string :=
  Py.str_of_nat i ++ ". " ++ field W item "title" "No title".

(** The numbered headlines of the items, counting from [i]. *)
Fixpoint headlines (W : World) (i : nat) (items : list PyVal) : list string :=
  match items with
  | [] => []
  | item :: rest => headline W i item :: headlines W (S i) rest
  end.

(** The lines of the news content of tidy items: four per item. *)
Fixpoint news_lines (W : World) (i : nat) (items : list PyVal) : list string :=
  match items with
  | [] => []
  | item :: rest =>
      headline W i item
      :: ("   Source: " ++ field W item "source" "Unknown")
      :: ("   Summary: " ++ field W item "content" "No content")
      :: "" :: news_lines W (S i) rest
  end.

(** One bullet line per headline. *)
Fixpoint bullets (lines : list string) : string :=
  match lines with
  | [] => ""
  | line :: rest => "â€¢ " ++ strip line ++ NL ++ bullets rest
  end.

(** The summary written without the model from the headlines given. *)
Definition manual_summary (lines : list string) : string :=
  "Financial Market Summary:" ++ NLNL
  ++ "Key developments in today's market:" ++ NL
  ++ bullets lines
  ++ NL ++ "This summary was generated from available financial news sources.".

(** *** Documents *)

(** A chart marker: it opens with the bracket and the word, closes with a
    bracket and stays on one line. *)
Definition is_marker (m : string) : bool :=
  startswith "[Chart:" m && endswith "]" m && single_line m.

(** Prose and markers in turn, prose first and last. *)
Fixpoint alternating (parts : list string) : bool :=
  match parts with
  | [] => false
  | [ _ ] => true
  | _ :: m :: rest => is_marker m && alternating rest
  end.

(** A paragraph without white space around it, and not empty. *)
Definition clean (p : string) : bool :=
  String.eqb (strip p) p && negb (String.eqb p "").

(** A url for which no picture is fetched: it is empty, or a text that
    contains "placeholder" in any case. *)
Definition without_picture (url : PyVal) : bool :=
  negb (Py.truthy url)
  || match url with
     | PStr u => contains "placeholder" (lower u)
     | _ => false
     end.

(** The url and the title the assembler reads from an image record. *)
Definition image_url (d : list (string * PyVal)) : PyVal :=
  match Py.lookup "url" d with Some x => x | None => PStr "" end.

Definition image_title (d : list (string * PyVal)) : PyVal :=
  match Py.lookup "title" d with Some x => x | None => PStr "Chart" end.

(** The caption line of an image, with what is said of the picture. *)
Definition caption (W : World) (d : list (string * PyVal)) (note : string) : Flowable :=
  Paragraph ("ðŸ“Š " ++ py_str W (image_title d) ++ note) SheetItalic.



(** *** The channel *)

(** The photo request made for an image: one for a record, with its url
    and its title or their defaults, and none for anything else. *)
Definition photo_requests (image : PyVal) : list Call :=
  match image with
  | PDict d =>
      [ SendPhoto (match Py.lookup "url" d with Some x => x | None => PStr "" end)
                  (match Py.lookup "title" d with
                   | Some x => x
                   | None => PStr "Financial Chart"
                   end) ]
  | _ => []
  end.

(** The path of the document written at the time of the world. *)
Definition report_path (W : World) : string :=
  "output/financial_market_summary_" ++ now_file_stamp W ++ ".pdf".

(** *** The news search *)

Definition news_item_keys : list string :=
  [ "title"; "content"; "url"; "published_date"; "source" ].

(** A news item with its five fields, marked as coming from [name]. *)
Definition from_source (name : string) (v : PyVal) : bool :=
  has_keys news_item_keys v
  && match Py.get v "source" PNone with
     | Ok (PStr s) => String.eqb s name
     | _ => false
     end.

(** A provider that is not asked, or that fails. *)
Definition silent (key : option string) (answer : result PyVal) : Prop :=
  configured key = false \/ exists e, answer = Raise e.

(** The same world with other answers of the second news provider and of
    the analysis service. *)
Definition with_serper_news (answer : result PyVal) (N : NewsWorld) : NewsWorld :=
  {| world := world N;
     groq_api_key := groq_api_key N;
     tavily_news := tavily_news N;
     serper_news := answer;
     groq_analysis := groq_analysis N |}.

Definition with_groq_analysis (answer : string -> result PyVal) (N : NewsWorld)
  : NewsWorld :=
  {| world := world N;
     groq_api_key := groq_api_key N;
     tavily_news := tavily_news N;
     serper_news := serper_news N;
     groq_analysis := answer |}.

(** The same world with a key for the first provider. *)
Definition with_tavily_key (W : World) : World :=
  {| serper_api_key := serper_api_key W;
     tavily_api_key := Some "tavily-key";
     telegram_token := telegram_token W;
     telegram_chat_id := telegram_chat_id W;
     now_isoformat := now_isoformat W;
     now_long_date := now_long_date W;
     now_file_stamp := now_file_stamp W;
     now_generated := now_generated W;
     str_exn := str_exn W;
     repr_container := repr_container W;
     urlparse := urlparse W;
     serper_images := serper_images W;
     tavily_search := tavily_search W;
     llm_summary := llm_summary W;
     llm_translate := llm_translate W;
     telegram_sendMessage := telegram_sendMessage W;
     telegram_sendPhoto := telegram_sendPhoto W;
     fetch_image := fetch_image W;
     thumbnail := thumbnail W;
     doc_build := doc_build W |}.

(** A world with the keys of both news providers, in which the first one
    answers with [n] results and the second one with one. *)
Definition both_keys (n : nat) : NewsWorld :=
  {| world := with_tavily_key
                (Worlds.with_serper (fun _ => Raise (ExternalError "connection refused"))
                   Worlds.offline);
     groq_api_key := None;
     tavily_news := Ok (PDict [ ("results", PList (repeat (PDict [ ("title", PStr "t") ]) n)) ]);
     serper_news := Ok (PDict [ ("news", PList [ PDict [ ("title", PStr "s") ] ]) ]);
     groq_analysis := fun _ => Raise (ExternalError "connection refused") |}.

(** A world without any key. *)
Definition no_keys : NewsWorld :=
  {| world := Worlds.offline;
     groq_api_key := None;
     tavily_news := Ok (PDict [ ("results", PList [ PDict [ ("title", PStr "t") ] ]) ]);
     serper_news := Ok (PDict [ ("news", PList [ PDict [ ("title", PStr "s") ] ]) ]);
     groq_analysis := fun _ => Ok (PStr "analysis") |}.

End SpecX.

(** * Properties *)

(** ** The string operations on small inputs *)

Module PyStrExamples.

Import PyStr.

Example split_blank_lines :
  split NLNL ("a" ++ NLNL ++ NL ++ "b") = [ "a"; NL ++ "b" ].
Proof. reflexivity. Qed.

Example split_whitespace : split_ws "  ab  c d " = [ "ab"; "c"; "d" ].
Proof. reflexivity. Qed.

Example strip_both_ends : strip ("  a b " ++ NL) = "a b".
Proof. reflexivity. Qed.

Example lower_ascii : lower "NYSE.PNG" = "nyse.png".
Proof. reflexivity. Qed.

Example re_split_two_markers :
  PDFGenerator.re_split ("[Chart: a]" ++ NLNL ++ "[Chart: b]")
  = [ ""; "[Chart: a]"; NLNL; "[Chart: b]"; "" ].
Proof. reflexivity. Qed.

Example re_split_unclosed : PDFGenerator.re_split "a[Chart: x" = [ "a[Chart: x" ].
Proof. reflexivity. Qed.

Example re_split_newline_in_marker :
  PDFGenerator.re_split ("[Chart: a" ++ NL ++ "]b[Chart:]c")
  = [ "[Chart: a" ++ NL ++ "]b"; "[Chart:]"; "c" ].
Proof. reflexivity. Qed.

Example re_split_shortest_match :
  PDFGenerator.re_split "[Chart:[Chart: q]]" = [ ""; "[Chart:[Chart: q]"; "]" ].
Proof. reflexivity. Qed.

Example urlparse_plain_placeholder :
  Worlds.urlparse_plain "https://via.placeholder.com/600x400/0066cc/ffffff?text=Stock+Market+Chart"
  = Ok ("https", "via.placeholder.com").
Proof. reflexivity. Qed.

End PyStrExamples.

(** ** Facts about the string operations *)

Module PyStrFacts.

Import PyStr Spec.

Lemma append_assoc (a b c : string) : (a ++ b) ++ c = a ++ (b ++ c).
Proof. induction a as [|x a IH]; simpl; [reflexivity | now rewrite IH]. Qed.

Lemma append_nil_r (a : string) : a ++ "" = a.
Proof. induction a as [|x a IH]; simpl; [reflexivity | now rewrite IH]. Qed.

Lemma append_snoc (a : string) (c : ascii) (b : string) :
  (a ++ String c "") ++ b = a ++ String c b.
Proof. now rewrite append_assoc. Qed.

Lemma length_append (a b : string) :
  String.length (a ++ b) = String.length a + String.length b.
Proof. induction a as [|x a IH]; simpl; [reflexivity | now rewrite IH]. Qed.



(** A text without the separator is one piece. *)
Lemma split_aux_no_sep (sep : string) (s cur : string) :
  contains sep s = false -> split_aux sep 0 cur s = [cur ++ s].
Proof.
  revert cur; induction s as [|c s IH]; intros cur H.
  - simpl. now rewrite append_nil_r.
  - cbn [contains] in H. apply orb_false_elim in H as [Hst Hc].
    cbn [split_aux]. rewrite Hst, (IH _ Hc). now rewrite append_snoc.
Qed.

Lemma split_no_sep (sep s : string) :
  contains sep s = false -> split sep s = [s].
Proof. intros H. unfold split. now rewrite split_aux_no_sep. Qed.

(** *** Words *)










End PyStrFacts.

(** ** Stage context protocol *)

Module StageContext.

Import Spec.

Lemma find_first_record (key : string) (items : list PyVal) :
  match find (is_record_with key) items with
  | Some item => first_record_with key items item
  | None => no_record_with key items
  end.
Proof.
  induction items as [|x rest IH]; simpl.
  - intros y [].
  - destruct (is_record_with key x) eqn:Hx.
    + exists [], rest. repeat split; [assumption | intros y []].
    + destruct (find (is_record_with key) rest) as [item|].
      * destruct IH as (before & after & -> & Hitem & Hbefore).
        exists (x :: before), after. repeat split; [assumption|].
        intros y [<- | Hy]; [assumption | now apply Hbefore].
      * intros y [<- | Hy]; [assumption | now apply IH].
Qed.

Lemma first_record_unique (key : string) (items : list PyVal) (a b : PyVal) :
  first_record_with key items a -> first_record_with key items b -> a = b.
Proof.
  intros (l1 & r1 & E1 & Ha & H1) (l2 & r2 & E2 & Hb & H2). subst items.
  revert l2 E2 H2. induction l1 as [|x l1 IH]; intros [|y l2] E2 H2; simpl in E2.
  - now injection E2.
  - injection E2 as <- _. rewrite (H2 a (or_introl eq_refl)) in Ha. discriminate.
  - injection E2 as -> _. rewrite (H1 b (or_introl eq_refl)) in Hb. discriminate.
  - injection E2 as -> E2. apply (IH (fun z Hz => H1 z (or_intror Hz)) l2 E2).
    intros z Hz. apply H2. now right.
Qed.

Lemma first_record_nonempty (key : string) (items : list PyVal) (item : PyVal) :
  first_record_with key items item -> Py.truthy (PList items) = true /\ Py.truthy item = true.
Proof.
  intros (before & after & -> & Hitem & _). split.
  - now destruct before.
  - unfold is_record_with, Py.has_key in Hitem.
    destruct item as [| | | | |d]; try discriminate.
    now destruct d.
Qed.

(** The shape shared by the three extractors that scan a sequence. *)
Lemma scan_first_record (key : string) (extract : PyVal -> PyVal) :
  (forall items,
      extract (PList items) =
      if negb (Py.truthy (PList items)) then PNone
      else match find (is_record_with key) items with
           | Some item => item
           | None => PNone
           end) ->
  returns_first_record_with key extract.
Proof.
  intros Hex items. rewrite Hex. split.
  - intros item Hfirst.
    destruct (first_record_nonempty _ _ _ Hfirst) as [-> _]. simpl.
    pose proof (find_first_record key items) as Hfind.
    destruct (find (is_record_with key) items) as [found|].
    + eapply first_record_unique; eassumption.
    + destruct Hfirst as (before & after & -> & Hitem & _).
      rewrite Hfind in Hitem; [discriminate|].
      apply in_or_app. right. now left.
  - intros Hnone. destruct (negb (Py.truthy (PList items))); [reflexivity|].
    destruct (find (is_record_with key) items) as [found|] eqn:Hfind; [|reflexivity].
    apply find_some in Hfind as [Hin Hfound].
    rewrite (Hnone _ Hin) in Hfound. discriminate.
Qed.

Lemma nonempty_truthy (d : list (string * PyVal)) : d <> [] -> Py.truthy (PDict d) = true.
Proof. destruct d; [contradiction | reflexivity]. Qed.

(** C5, as the code has it: a non-empty record is handed back whether or not
    it contains the required key; on a sequence the formatting, translation
    and distribution extractors hand back the first record containing their
    key and [None] when there is none; the summarization extractor hands back
    the first element when it is a record containing [news_data]. *)
Theorem stage_context_extraction :
  (returns_record FormattingAgent._extract_summary_data
   /\ returns_record SummaryAgent._extract_search_data
   /\ returns_record TranslatingAgent._extract_formatted_data
   /\ returns_record SendAgent._extract_formatted_data)
  /\ (returns_first_record_with "summary" FormattingAgent._extract_summary_data
      /\ returns_first_record_with "formatted_summary" TranslatingAgent._extract_formatted_data
      /\ returns_first_record_with "formatted_summary" SendAgent._extract_formatted_data)
  /\ (forall first rest,
         is_record_with "news_data" first = true ->
         SummaryAgent._extract_search_data (PList (first :: rest)) = first).
Proof.
  split; [|split].
  - split; [|split; [|split]]; intros d Hd;
      [ unfold FormattingAgent._extract_summary_data
      | unfold SummaryAgent._extract_search_data
      | unfold TranslatingAgent._extract_formatted_data
      | unfold SendAgent._extract_formatted_data ];
      now rewrite (nonempty_truthy d Hd).
  - split; [|split]; apply scan_first_record; intros items; reflexivity.
  - intros first rest H. unfold SummaryAgent._extract_search_data. simpl.
    unfold is_record_with in H. apply andb_prop in H as [-> _]. reflexivity.
Qed.

(** A record lacking the key is handed back by the extractor of the
    formatting stage, and the summarization extractor hands back the first
    element of a sequence although a later one carries [news_data]. *)
Lemma extraction_ignores_required_key :
  let stray := PDict [ ("note", PStr "x") ] in
  FormattingAgent._extract_summary_data stray = stray
  /\ Py.has_key "summary" stray = false
  /\ SummaryAgent._extract_search_data
       (PList [ stray; PDict [ ("news_data", PList []) ] ]) = stray
  /\ Py.has_key "news_data" stray = false.
Proof. repeat split. Qed.

Lemma stage_context_extraction_witness :
  FormattingAgent._extract_summary_data (PDict [ ("summary", PStr "Stocks rose.") ])
  = PDict [ ("summary", PStr "Stocks rose.") ]
  /\ TranslatingAgent._extract_formatted_data
       (PList [ PInt 7; PDict [ ("formatted_summary", PStr "Stocks rose.") ] ])
     = PDict [ ("formatted_summary", PStr "Stocks rose.") ]
  /\ SendAgent._extract_formatted_data (PList [ PInt 7 ]) = PNone
  /\ SummaryAgent._extract_search_data (PList [ PDict [ ("news_data", PList []) ]; PNone ])
     = PDict [ ("news_data", PList []) ].
Proof.
  destruct stage_context_extraction as ((Hrec & _) & (_ & Htr & Hsend) & Hsum).
  split; [|split; [|split]].
  - apply Hrec. discriminate.
  - apply (proj1 (Htr _)).
    exists [ PInt 7 ], []. repeat split.
    intros x [<- | []]. reflexivity.
  - apply (proj2 (Hsend _)). intros x [<- | []]. reflexivity.
  - apply Hsum. reflexivity.
Defined.

End StageContext.

(** ** The stage entry points *)

Module Stages.

Import Spec.

Lemma missing_extract_summary (context : PyVal) :
  upstream_missing "summary" context ->
  FormattingAgent._extract_summary_data context = PNone.
Proof.
  destruct context as [| b | z | s | items | d]; simpl; intros H;
    unfold FormattingAgent._extract_summary_data.
  - reflexivity.
  - now destruct b.
  - now destruct (negb (Py.truthy (PInt z))).
  - now destruct (negb (Py.truthy (PStr s))).
  - destruct (negb (Py.truthy (PList items))); [reflexivity|].
    destruct (find _ items) as [found|] eqn:Hfind; [|reflexivity].
    apply find_some in Hfind as [Hin Hfound].
    change (is_record_with "summary" found = true) in Hfound.
    rewrite (H _ Hin) in Hfound. discriminate.
  - now subst d.
Qed.

Lemma missing_extract_translating (context : PyVal) :
  upstream_missing "formatted_summary" context ->
  TranslatingAgent._extract_formatted_data context = PNone.
Proof.
  destruct context as [| b | z | s | items | d]; simpl; intros H;
    unfold TranslatingAgent._extract_formatted_data.
  - reflexivity.
  - now destruct b.
  - now destruct (negb (Py.truthy (PInt z))).
  - now destruct (negb (Py.truthy (PStr s))).
  - destruct (negb (Py.truthy (PList items))); [reflexivity|].
    destruct (find _ items) as [found|] eqn:Hfind; [|reflexivity].
    apply find_some in Hfind as [Hin Hfound].
    change (is_record_with "formatted_summary" found = true) in Hfound.
    rewrite (H _ Hin) in Hfound. discriminate.
  - now subst d.
Qed.

Lemma missing_extract_send (context : PyVal) :
  upstream_missing "formatted_summary" context ->
  SendAgent._extract_formatted_data context = PNone.
Proof. exact (missing_extract_translating context). Qed.

Lemma missing_extract_search (context : PyVal) :
  summary_upstream_missing context ->
  Py.truthy (SummaryAgent._extract_search_data context) = false.
Proof.
  destruct context as [| b | z | s | items | d]; simpl; intros H;
    unfold SummaryAgent._extract_search_data.
  - reflexivity.
  - now destruct b.
  - now destruct (negb (Py.truthy (PInt z))).
  - now destruct (negb (Py.truthy (PStr s))).
  - destruct items as [|first rest]; [reflexivity|]. simpl.
    destruct (Py.isinstance_dict first); [|reflexivity].
    now rewrite andb_true_r in H.
  - now subst d.
Qed.

Lemma format_content_keys (W : World) (context : PyVal) :
  has_keys formatted_content_keys (FormattingAgent.format_content W context) = true.
Proof.
  unfold FormattingAgent.format_content, try_except.
  destruct (negb (Py.truthy (FormattingAgent._extract_summary_data context)));
    [reflexivity|].
  destruct (Py.get _ "summary" _) as [summary_text|e]; [|reflexivity]. simpl.
  destruct (FormattingAgent._insert_images_in_summary W summary_text _);
    reflexivity.
Qed.

Lemma create_summary_keys (W : World) (context : PyVal) :
  has_keys summary_keys (SummaryAgent.create_summary W context) = true.
Proof.
  unfold SummaryAgent.create_summary, try_except.
  destruct (negb (Py.truthy (SummaryAgent._extract_search_data context)));
    [reflexivity|].
  destruct (SummaryAgent._prepare_news_content W _) as [news|e]; [|reflexivity]. simpl.
  destruct (Py.get _ "news_data" _) as [news_data|e]; [|reflexivity]. simpl.
  destruct (Py.len news_data); reflexivity.
Qed.

Lemma translate_content_keys (W : World) (context : PyVal) :
  has_keys translation_keys (TranslatingAgent.translate_content W context) = true.
Proof.
  unfold TranslatingAgent.translate_content, try_except.
  destruct (negb (Py.truthy (TranslatingAgent._extract_formatted_data context)));
    [reflexivity|].
  destruct (Py.get _ "formatted_summary" _) as [fs|e]; [|reflexivity]. simpl.
  destruct (Py.get _ "images" _); reflexivity.
Qed.

(** [x <-- m ;; k] on a computation that made its requests and returned. *)
Lemma io_bind_total {A B : Type} (m : list Call * A) (k : A -> IO B) :
  io_bind (io_total m) k = ((fst m ++ fst (k (snd m)))%list, snd (k (snd m))).
Proof. unfold io_bind, io_total. now destruct (k (snd m)). Qed.

Lemma io_bind_lift {A B : Type} (r : result A) (k : A -> IO B) :
  io_bind (io_lift r) k = match r with Ok a => k a | Raise e => ([], Raise e) end.
Proof. unfold io_bind, io_lift. destruct r as [a|e]; [now destruct (k a) | reflexivity]. Qed.

Lemma distribute_report_keys (W : World) (context : PyVal) :
  has_keys distribution_keys (snd (SendAgent.distribute_report W context)) = true.
Proof.
  unfold SendAgent.distribute_report.
  destruct (negb (Py.truthy (SendAgent._extract_formatted_data context)));
    [reflexivity|].
  rewrite io_bind_total.
  repeat (rewrite io_bind_lift;
          match goal with
          | |- context [match ?r with Ok _ => _ | Raise _ => _ end] => destruct r
          end; [|reflexivity]).
  reflexivity.
Qed.

(** C1, as the code has it: every stage entry point returns a record carrying
    the fields of its payload, whatever the context is, and returns its
    fallback payload when the context carries nothing: [None], an empty
    record, a scalar, or a sequence in which no element (for summarization:
    not the first element) is a non-empty record with the key. *)
Theorem stages_are_total (W : World) (context : PyVal) :
  (has_keys formatted_content_keys (FormattingAgent.format_content W context) = true
   /\ (upstream_missing "summary" context ->
       FormattingAgent.format_content W context
       = FormattingAgent._create_fallback_formatted_content W))
  /\ (has_keys summary_keys (SummaryAgent.create_summary W context) = true
      /\ (summary_upstream_missing context ->
          SummaryAgent.create_summary W context = SummaryAgent._create_fallback_summary W))
  /\ (has_keys translation_keys (TranslatingAgent.translate_content W context) = true
      /\ (upstream_missing "formatted_summary" context ->
          TranslatingAgent.translate_content W context
          = TranslatingAgent._create_fallback_translations W))
  /\ (has_keys distribution_keys (snd (SendAgent.distribute_report W context)) = true
      /\ (upstream_missing "formatted_summary" context ->
          SendAgent.distribute_report W context
          = ([], SendAgent._create_fallback_distribution W))).
Proof.
  repeat split.
  - apply format_content_keys.
  - intros H. unfold FormattingAgent.format_content.
    now rewrite (missing_extract_summary _ H).
  - apply create_summary_keys.
  - intros H. unfold SummaryAgent.create_summary.
    now rewrite (missing_extract_search _ H).
  - apply translate_content_keys.
  - intros H. unfold TranslatingAgent.translate_content.
    now rewrite (missing_extract_translating _ H).
  - apply distribute_report_keys.
  - intros H. unfold SendAgent.distribute_report.
    now rewrite (missing_extract_send _ H).
Qed.

Lemma stages_are_total_witness :
  FormattingAgent.format_content Worlds.offline (PList [ PInt 1; PDict [ ("note", PStr "x") ] ])
  = FormattingAgent._create_fallback_formatted_content Worlds.offline
  /\ SummaryAgent.create_summary Worlds.offline (PDict [])
     = SummaryAgent._create_fallback_summary Worlds.offline
  /\ TranslatingAgent.translate_content Worlds.offline PNone
     = TranslatingAgent._create_fallback_translations Worlds.offline
  /\ SendAgent.distribute_report Worlds.offline (PList [])
     = ([], SendAgent._create_fallback_distribution Worlds.offline).
Proof.
  split; [|split; [|split]].
  - apply (stages_are_total Worlds.offline (PList [ PInt 1; PDict [ ("note", PStr "x") ] ])).
    intros x [<- | [<- | []]]; reflexivity.
  - apply (stages_are_total Worlds.offline (PDict [])). reflexivity.
  - apply (stages_are_total Worlds.offline PNone). exact I.
  - apply (stages_are_total Worlds.offline (PList [])). intros x [].
Defined.

(** A record without the key [summary] is not answered with the fallback
    payload of the formatting stage, and a sequence whose first element is a
    record without [news_data] is not answered with the fallback payload of
    the summarization stage. *)
Lemma stray_record_is_not_fallback :
  let stray := PDict [ ("note", PStr "x") ] in
  upstream_missing "news_data" (PList [ stray ])
  /\ Py.has_key "summary" stray = false
  /\ FormattingAgent.format_content Worlds.offline stray
     <> FormattingAgent._create_fallback_formatted_content Worlds.offline
  /\ SummaryAgent.create_summary Worlds.offline (PList [ stray ])
     <> SummaryAgent._create_fallback_summary Worlds.offline.
Proof.
  split; [|split; [|split]].
  - intros x [<- | []]. reflexivity.
  - reflexivity.
  - vm_compute. discriminate.
  - vm_compute. discriminate.
Qed.

End Stages.

(** ** The image resolver *)

Module ImageResolver.

Import PyStr Spec FormattingAgent.





Lemma serper_harvest_descriptors (W : World) (term : string)
  (candidates images harvested : list PyVal) :
  Forall (provider_descriptor W) images ->
  serper_harvest W term candidates images = Ok harvested ->
  Forall (provider_descriptor W) harvested.
Proof.
  revert images; induction candidates as [|img rest IH]; intros images Himages; simpl.
  - now intros [= <-].
  - destruct img as [| | | | |d]; try discriminate. simpl.
    destruct (_is_valid_image_url W _) eqn:Hvalid; [|now apply IH].
    apply IH. apply Forall_app. split; [assumption|].
    constructor; [|constructor].
    destruct (Py.lookup "imageUrl" d) as [url|] eqn:Hurl; [|discriminate Hvalid].
    eexists _, _, "Serper", term. repeat split; [now left | exact Hvalid].
Qed.

Lemma serper_terms_descriptors (W : World) (terms : list string)
  (images harvested : list PyVal) :
  Forall (provider_descriptor W) images ->
  serper_terms W terms images = Ok harvested ->
  Forall (provider_descriptor W) harvested.
Proof.
  revert images; induction terms as [|term rest IH]; intros images Himages; simpl.
  - now intros [= <-].
  - unfold bind.
    destruct (serper_images W _) as [data|]; [|discriminate].
    destruct (Py.get data "images" _) as [found|]; [|discriminate].
    destruct (Py.slice_to 1 found) as [first|]; [|discriminate].
    destruct (Py.iter first) as [candidates|]; [|discriminate].
    destruct (serper_harvest W term candidates images) as [images'|] eqn:Hh; [|discriminate].
    apply IH. eapply serper_harvest_descriptors; eassumption.
Qed.

Lemma search_images_serper_descriptors (W : World) (terms : list string) :
  Forall (provider_descriptor W) (_search_images_serper W terms).
Proof.
  unfold _search_images_serper, try_except.
  destruct (serper_terms W _ []) as [harvested|] eqn:H; [|constructor].
  eapply serper_terms_descriptors; [constructor | exact H].
Qed.

Lemma tavily_harvest_descriptors (W : World) (term : string)
  (results images harvested : list PyVal) :
  Forall (provider_descriptor W) images ->
  tavily_harvest W term results images = Ok harvested ->
  Forall (provider_descriptor W) harvested.
Proof.
  revert images; induction results as [|res rest IH]; intros images Himages; simpl.
  - now intros [= <-].
  - unfold bind.
    destruct (Py.get res "images" _) as [images_list|]; [|discriminate].
    destruct (Py.truthy images_list); [|now apply IH].
    destruct (Py.index0 images_list) as [img_url|]; [|discriminate].
    destruct (_is_valid_image_url W img_url) eqn:Hvalid; [|now apply IH].
    apply IH. apply Forall_app. split; [assumption|].
    constructor; [|constructor].
    eexists _, _, "Tavily", term. repeat split; [now right | exact Hvalid].
Qed.

Lemma tavily_terms_descriptors (W : World) (terms : list string)
  (images harvested : list PyVal) :
  Forall (provider_descriptor W) images ->
  tavily_terms W terms images = Ok harvested ->
  Forall (provider_descriptor W) harvested.
Proof.
  revert images; induction terms as [|term rest IH]; intros images Himages; simpl.
  - now intros [= <-].
  - unfold bind.
    destruct (tavily_search W _) as [data|]; [|discriminate].
    destruct (Py.get data "results" _) as [found|]; [|discriminate].
    destruct (Py.slice_to 1 found) as [first|]; [|discriminate].
    destruct (Py.iter first) as [results|]; [|discriminate].
    destruct (tavily_harvest W term results images) as [images'|] eqn:Hh; [|discriminate].
    apply IH. eapply tavily_harvest_descriptors; eassumption.
Qed.

Lemma search_images_tavily_descriptors (W : World) (terms : list string) :
  Forall (provider_descriptor W) (_search_images_tavily W terms).
Proof.
  unfold _search_images_tavily, try_except.
  destruct (tavily_terms W _ []) as [harvested|] eqn:H; [|constructor].
  eapply tavily_terms_descriptors; [constructor | exact H].
Qed.

Lemma firstn_app_long {A : Type} (n : nat) (l1 l2 : list A) :
  n <= List.length l1 -> firstn n (l1 ++ l2) = firstn n l1.
Proof.
  intros H. rewrite firstn_app.
  replace (n - List.length l1) with 0 by lia.
  simpl. apply app_nil_r.
Qed.


Lemma top_up_shape {A : Type} (harvested static : list A) :
  firstn 2 (if List.length harvested <? 2 then harvested ++ static else harvested)%list
  = firstn 2 (harvested ++ static).
Proof.
  destruct (List.length harvested <? 2) eqn:Hlen; [reflexivity|].
  apply Nat.ltb_ge in Hlen. symmetry. now apply firstn_app_long.
Qed.

(** What the resolver returns: the first two of the harvested descriptors
    followed by the static ones. *)
Lemma find_financial_images_shape (W : World) (summary_text : PyVal) :
  exists harvested,
    Forall (provider_descriptor W) harvested
    /\ _find_financial_images W summary_text
       = firstn 2 (harvested ++ _get_fallback_images).
Proof.
  unfold _find_financial_images, try_except, bind.
  destruct (_extract_search_terms summary_text) as [terms|e].
  2:{ exists []. split; [constructor | reflexivity]. }
  cbv beta iota zeta. eexists. split; [|apply top_up_shape].
  assert (Hs : Forall (provider_descriptor W)
                 (if configured (serper_api_key W)
                  then ([] ++ _search_images_serper W terms)%list else [])).
  { destruct (configured (serper_api_key W));
      [apply search_images_serper_descriptors | constructor]. }
  destruct (_ && _); [|assumption].
  apply Forall_app. split; [assumption | apply search_images_tavily_descriptors].
Qed.






End ImageResolver.

(** ** The length cap of the summarization stage *)

Module SummaryCap.

Import PyStr Spec PyStrFacts SummaryAgent.








End SummaryCap.

(** ** The document assembler *)

Module Assembler.

Import PyStr Spec PyStrFacts PDFGenerator.










(** *** The assembly scenario *)

Lemma body_paragraphs_app (a b : list Flowable) :
  body_paragraphs (a ++ b) = (body_paragraphs a ++ body_paragraphs b)%list.
Proof.
  induction a as [|f a IH]; [reflexivity|].
  destruct f as [text style| |]; simpl; try exact IH.
  destruct style; simpl; try exact IH. now rewrite IH.
Qed.

(** The pictures section adds captions and pictures, no body paragraph. *)
Lemma add_image_to_story_extends (W : World) (story story' : list Flowable) (img : PyVal) :
  _add_image_to_story W story img = Ok story' ->
  exists tail, story' = (story ++ tail)%list /\ body_paragraphs tail = [].
Proof.
  unfold _add_image_to_story, bind.
  destruct img as [| | | | |d]; try discriminate.
  unfold Py.get.
  set (url := match Py.lookup "url" d with Some x => x | None => PStr "" end).
  set (title := match Py.lookup "title" d with Some x => x | None => PStr "Chart" end).
  clearbody url title.
  destruct (if negb (Py.truthy url) then Ok true
            else match Py.lower url with
                 | Ok lowered => Ok (contains "placeholder" lowered)
                 | Raise e => Raise e
                 end) as [[|]|].
  - intros [= <-]. now eexists.
  - destruct url as [| | | u | |]; try (intros [= <-]; now eexists).
    destruct (fetch_image W u) as [size|]; [|intros [= <-]; now eexists].
    match goal with
    | |- context [if ?c then thumbnail W ?box size else Ok size] =>
        destruct (if c then thumbnail W box size else Ok size) as [size'|]
    end; intros [= <-]; now eexists.
  - intros [= <-]. now eexists.
Qed.

Lemma add_images_extends (W : World) (images : list PyVal) (story story' : list Flowable) :
  add_images W story images = Ok story' ->
  exists tail, story' = (story ++ tail)%list /\ body_paragraphs tail = [].
Proof.
  revert story; induction images as [|img rest IH]; intros story; simpl.
  - intros [= <-]. exists []. now rewrite app_nil_r.
  - unfold bind. destruct (_add_image_to_story W story img) as [story1|] eqn:H1; [|discriminate].
    intros H2. apply add_image_to_story_extends in H1 as (t1 & -> & Hb1).
    apply IH in H2 as (t2 & -> & Hb2).
    exists (t1 ++ t2)%list. split; [now rewrite app_assoc|].
    now rewrite body_paragraphs_app, Hb1, Hb2.
Qed.

(** The prose part of the scenario, as it is laid out. *)
Lemma scenario_prose :
  add_parts [ Paragraph "ðŸ“ˆ Financial Market Summary" HeadingStyle; Spacer 1 20 ]
            (_split_content_by_images scenario)
  = [ Paragraph "ðŸ“ˆ Financial Market Summary" HeadingStyle; Spacer 1 20;
      Paragraph "S&P 500 fell 2% today." NormalStyle; Spacer 1 12;
      Paragraph "<i>[Chart: S&P 500 Daily]</i>" SheetItalic; Spacer 1 8;
      Paragraph "http://x/img.png" NormalStyle; Spacer 1 12;
      Paragraph "Markets closed early." NormalStyle; Spacer 1 12 ].
Proof. vm_compute. reflexivity. Qed.

(** C7, as the code has it: the scenario is laid out as the heading, the
    first paragraph, the inline placeholder, the line of the url as a body
    paragraph of its own, and the second paragraph, in that order, before
    the pictures section; the body paragraphs are these three. *)
Theorem scenario_layout (W : World) (images : PyVal) (story : list Flowable) :
  _add_formatted_content W []
    (PDict [ ("formatted_summary", PStr scenario); ("images", images) ]) = Ok story ->
  body_paragraphs story
  = [ "S&P 500 fell 2% today."; "http://x/img.png"; "Markets closed early." ]
  /\ exists pictures,
       story
       = ([ Paragraph "ðŸ“ˆ Financial Market Summary" HeadingStyle; Spacer 1 20;
            Paragraph "S&P 500 fell 2% today." NormalStyle; Spacer 1 12;
            Paragraph "<i>[Chart: S&P 500 Daily]</i>" SheetItalic; Spacer 1 8;
            Paragraph "http://x/img.png" NormalStyle; Spacer 1 12;
            Paragraph "Markets closed early." NormalStyle; Spacer 1 12 ]
          ++ pictures)%list
       /\ body_paragraphs pictures = [].
Proof.
  unfold _add_formatted_content.
  change (Py.get (PDict [ ("formatted_summary", PStr scenario); ("images", images) ])
                 "formatted_summary" (PStr "")) with (Ok (PStr scenario)).
  change (Py.get (PDict [ ("formatted_summary", PStr scenario); ("images", images) ])
                 "images" (PList [])) with (Ok images).
  cbv beta iota delta [bind].
  change (Py.truthy (PStr scenario)) with true. cbv iota.
  change ([] ++ [ Paragraph "ðŸ“ˆ Financial Market Summary" HeadingStyle; Spacer 1 20 ])%list
    with [ Paragraph "ðŸ“ˆ Financial Market Summary" HeadingStyle; Spacer 1 20 ].
  rewrite scenario_prose.
  intros H.
  assert (Hex : exists pictures,
             story
             = ([ Paragraph "ðŸ“ˆ Financial Market Summary" HeadingStyle; Spacer 1 20;
                  Paragraph "S&P 500 fell 2% today." NormalStyle; Spacer 1 12;
                  Paragraph "<i>[Chart: S&P 500 Daily]</i>" SheetItalic; Spacer 1 8;
                  Paragraph "http://x/img.png" NormalStyle; Spacer 1 12;
                  Paragraph "Markets closed early." NormalStyle; Spacer 1 12 ]
                ++ pictures)%list
             /\ body_paragraphs pictures = []).
  { destruct (Py.truthy images).
    - destruct (Py.iter images) as [items|]; [|discriminate].
      apply add_images_extends in H as (tail & -> & Htail).
      exists ([ Spacer 1 20;
                Paragraph "ðŸ“Š Related Charts and Graphs" HeadingStyle;
                Spacer 1 15 ] ++ tail)%list.
      split; [now rewrite <- !app_assoc | exact Htail].
    - injection H as <-. exists []. now rewrite app_nil_r. }
  split; [|exact Hex].
  destruct Hex as (pictures & -> & Hp).
  rewrite body_paragraphs_app, Hp. reflexivity.
Qed.

Lemma scenario_layout_witness :
  body_paragraphs
    [ Paragraph "ðŸ“ˆ Financial Market Summary" HeadingStyle; Spacer 1 20;
      Paragraph "S&P 500 fell 2% today." NormalStyle; Spacer 1 12;
      Paragraph "<i>[Chart: S&P 500 Daily]</i>" SheetItalic; Spacer 1 8;
      Paragraph "http://x/img.png" NormalStyle; Spacer 1 12;
      Paragraph "Markets closed early." NormalStyle; Spacer 1 12;
      Spacer 1 20; Paragraph "ðŸ“Š Related Charts and Graphs" HeadingStyle; Spacer 1 15;
      Paragraph "ðŸ“Š Stock Market Performance Chart (Chart not available)" SheetItalic;
      Spacer 1 15 ]
  = [ "S&P 500 fell 2% today."; "http://x/img.png"; "Markets closed early." ].
Proof.
  apply (scenario_layout Worlds.offline
           (PList [ PDict [ ("url", PStr "https://via.placeholder.com/600x400/0066cc/ffffff?text=Stock+Market+Chart");
                            ("title", PStr "Stock Market Performance Chart") ] ])).
  vm_compute. reflexivity.
Defined.

(** The scenario gives three body paragraphs, not two: the line of the url
    that follows the marker is one of them. *)
Lemma scenario_has_three_paragraphs :
  exists story,
    _add_formatted_content Worlds.offline []
      (PDict [ ("formatted_summary", PStr scenario); ("images", PList []) ]) = Ok story
    /\ List.length (body_paragraphs story) = 3
    /\ In "http://x/img.png" (body_paragraphs story).
Proof.
  eexists. split; [vm_compute; reflexivity|].
  split; [reflexivity | simpl; tauto].
Qed.

End Assembler.

(** ** The translation stage without upstream content *)

Module TranslationFallback.

Import Spec TranslatingAgent.

(** C8, as the code has it: when the context carries nothing for the
    translation stage ([None], an empty record, a scalar, or a sequence
    without a record containing [formatted_summary]), the bundle returned
    has status "fallback" and no images, the configured languages are hindi,
    arabic and hebrew, and each of them is present with the content
    "No content available for translation.", no images and status
    "fallback". *)
Theorem translation_without_upstream (W : World) (context : PyVal) :
  upstream_missing "formatted_summary" context ->
  map fst target_languages = [ "hindi"; "arabic"; "hebrew" ]
  /\ Py.subscript (translate_content W context) "status" = Ok (PStr "fallback")
  /\ Py.subscript (translate_content W context) "images" = Ok (PList [])
  /\ exists translations,
       Py.subscript (translate_content W context) "translations" = Ok translations
       /\ forall code, In code (map fst target_languages) ->
            exists entry,
              Py.subscript translations code = Ok entry
              /\ Py.subscript entry "content"
                 = Ok (PStr "No content available for translation.")
              /\ Py.subscript entry "images" = Ok (PList [])
              /\ Py.subscript entry "status" = Ok (PStr "fallback").
Proof.
  intros H. unfold translate_content.
  rewrite (Stages.missing_extract_translating _ H). simpl try_except.
  split; [reflexivity|]. split; [reflexivity|]. split; [reflexivity|].
  eexists. split; [reflexivity|].
  intros code [<- | [<- | [<- | []]]]; eexists; repeat split.
Qed.

Lemma translation_without_upstream_witness :
  Py.subscript (translate_content Worlds.offline PNone) "status" = Ok (PStr "fallback").
Proof.
  apply (translation_without_upstream Worlds.offline PNone). exact I.
Defined.

(** A record without [formatted_summary] is translated as empty content:
    the entry for hindi carries another text and no status. *)
Lemma stray_record_is_translated :
  let stray := PDict [ ("note", PStr "x") ] in
  Py.has_key "formatted_summary" stray = false
  /\ exists translations entry content,
       Py.subscript (translate_content Worlds.offline stray) "translations" = Ok translations
       /\ Py.subscript translations "hindi" = Ok entry
       /\ Py.subscript entry "content" = Ok (PStr content)
       /\ content <> "No content available for translation."
       /\ Py.has_key "status" entry = false
       /\ Py.has_key "status" (translate_content Worlds.offline stray) = false.
Proof.
  split; [reflexivity|].
  eexists _, _, _. split; [vm_compute; reflexivity|].
  split; [reflexivity|]. split; [reflexivity|].
  split; [discriminate|]. split; reflexivity.
Qed.

End TranslationFallback.

(** ** Image insertion *)

Module Insertion.

Import PyStr Spec PyStrFacts FormattingAgent.

Lemma split_nonempty (sep : string) (skip : nat) (cur s : string) :
  split_aux sep skip cur s <> [].
Proof.
  revert skip cur; induction s as [|c s IH]; intros skip cur; simpl; [discriminate|].
  destruct skip; [|apply IH].
  destruct (startswith sep (String c s)); [discriminate | apply IH].
Qed.

(** C10: on a summary without a blank-line separator exactly the marker of
    the first image is inserted, after the text, whatever the number of
    images; in general the marker of the second image is not inserted when
    the paragraph list has fewer than three elements after the first
    insertion; with no image the summary is returned as it is. *)
Theorem insert_images_single_paragraph (W : World) :
  (forall summary_text, _insert_images_in_summary W summary_text [] = Ok summary_text)
  /\ (forall s image_1 others marker,
         contains NLNL s = false ->
         chart_marker W image_1 = Ok marker ->
         _insert_images_in_summary W (PStr s) (image_1 :: others)
         = Ok (PStr (s ++ NLNL ++ marker)))
  /\ (forall s image_1 others marker,
         chart_marker W image_1 = Ok marker ->
         List.length (Py.insert 1 marker (split NLNL s)) < 3 ->
         _insert_images_in_summary W (PStr s) (image_1 :: others)
         = Ok (PStr (join NLNL (Py.insert 1 marker (split NLNL s)))))
  /\ (forall s image_1 others e,
         chart_marker W image_1 = Raise e ->
         _insert_images_in_summary W (PStr s) (image_1 :: others) = Raise e).
Proof.
  split; [reflexivity|].
  assert (Hone : forall s, (1 <=? List.length (split NLNL s)) = true).
  { intros s. apply Nat.leb_le. pose proof (split_nonempty NLNL 0 "" s) as Hne.
    unfold split. destruct (split_aux NLNL 0 "" s); [contradiction | simpl; lia]. }
  assert (Hgeneral : forall s image_1 others marker,
             chart_marker W image_1 = Ok marker ->
             List.length (Py.insert 1 marker (split NLNL s)) < 3 ->
             _insert_images_in_summary W (PStr s) (image_1 :: others)
             = Ok (PStr (join NLNL (Py.insert 1 marker (split NLNL s))))).
  { intros s image_1 others marker Hmarker Hlen.
    unfold _insert_images_in_summary. cbn [Py.split bind].
    rewrite Hone, Hmarker.
    change (1 <=? List.length (image_1 :: others)) with true.
    cbn [andb bind].
    apply Nat.ltb_lt in Hlen. rewrite Nat.ltb_antisym in Hlen.
    apply negb_true_iff in Hlen. rewrite Hlen. reflexivity. }
  split; [|split; [exact Hgeneral|]].
  - intros s image_1 others marker Hs Hmarker.
    rewrite (Hgeneral s image_1 others marker Hmarker);
      rewrite (split_no_sep _ _ Hs); [reflexivity | simpl; lia].
  - intros s image_1 others e Hmarker.
    unfold _insert_images_in_summary. cbn [Py.split bind].
    rewrite Hone, Hmarker. reflexivity.
Qed.

Lemma insert_images_single_paragraph_witness :
  _insert_images_in_summary Worlds.offline (PStr "Stocks rose.") _get_fallback_images
  = Ok (PStr ("Stocks rose." ++ NLNL ++ NLNL ++ "[Chart: Stock Market Performance Chart]" ++ NL
              ++ "https://via.placeholder.com/600x400/0066cc/ffffff?text=Stock+Market+Chart"
              ++ NL)).
Proof.
  apply (insert_images_single_paragraph Worlds.offline); reflexivity.
Defined.

End Insertion.

(** ** The distribution stage *)

Module Distribution.

Import PyStr Spec PyStrFacts SendAgent.

Lemma io_bind_ok {A B : Type} (calls : list Call) (a : A) (k : A -> IO B) :
  io_bind (calls, Ok a) k = ((calls ++ fst (k a))%list, snd (k a)).
Proof. unfold io_bind. now destruct (k a). Qed.

Lemma io_bind_lift_ok {A B : Type} (a : A) (k : A -> IO B) :
  io_bind (io_lift (Ok a)) k = k a.
Proof. unfold io_bind, io_lift. now destruct (k a). Qed.

Lemma send_telegram_image_calls (W : World) (image : PyVal) :
  forallb is_photo (fst (_send_telegram_image W image)) = true
  /\ List.length (fst (_send_telegram_image W image)) <= 1.
Proof.
  unfold _send_telegram_image.
  rewrite !Stages.io_bind_lift.
  destruct (Py.get image "url" _) as [photo|]; [|simpl; split; [reflexivity | lia]].
  rewrite Stages.io_bind_lift.
  destruct (Py.get image "title" _) as [caption|]; [|simpl; split; [reflexivity | lia]].
  unfold io_call, io_bind, io_lift, io_try.
  destruct (telegram_sendPhoto W photo caption) as [answer|];
    [destruct (Py.get answer "ok" _)|]; simpl; split; reflexivity || lia.
Qed.

(** The loop over the images never raises and sends photos only. *)
Lemma send_images_run (W : World) (images : list PyVal) :
  exists photos,
    send_images W images = (photos, Ok tt)
    /\ forallb is_photo photos = true
    /\ List.length photos <= List.length images.
Proof.
  induction images as [|image rest (photos & E & Hp & Hl)]; cbn [send_images].
  - exists []. split; [reflexivity|]. split; [reflexivity | apply le_n].
  - rewrite Stages.io_bind_total, E. cbn [fst snd List.length].
    destruct (send_telegram_image_calls W image) as [Hp1 Hl1].
    eexists. split; [reflexivity|]. split.
    + rewrite forallb_app, Hp1, Hp. reflexivity.
    + rewrite length_app. lia.
Qed.

(** One request, and the success flag says whether it was accepted. *)
Lemma send_telegram_message_run (W : World) (text : string) :
  fst (_send_telegram_message W text) = [ SendMessage text ]
  /\ Py.get (snd (_send_telegram_message W text)) "success" (PBool false)
     = Ok (PBool (accepted W text))
  /\ exists message_id,
       Py.get (snd (_send_telegram_message W text)) "message_id" (PStr "") = Ok message_id.
Proof.
  unfold _send_telegram_message, accepted, io_call, io_bind, io_lift, io_ret, io_try.
  destruct (telegram_sendMessage W text) as [answer|]; [|simpl; eauto].
  destruct (Py.get answer "ok" PNone) as [ok|]; [|simpl; eauto].
  destruct (Py.truthy ok).
  - destruct (Py.subscript answer "result") as [inner|]; [|simpl; eauto].
    destruct (Py.subscript inner "message_id"); simpl; eauto.
  - destruct (Py.get answer "description" _); simpl;
      destruct (Py.subscript answer "result"); simpl; eauto.
Qed.

(** The message is built exactly when the formatted summary is a text. *)
Lemma message_block_no_len (W : World) (v : PyVal) (e : exn) :
  Py.len v = Raise e -> telegram_text W v = None.
Proof. destruct v; simpl; intros H; try reflexivity; discriminate. Qed.

Lemma message_block (W : World) (v : PyVal) (size : nat) :
  Py.len v = Ok size ->
  match
    (if 2000 <? size
     then head <- Py.slice_to 2000 v ;;
          body <- Py.add head (PStr ("..." ++ NLNL)) ;;
          str_plus (message_header W) body
     else body <- Py.add v (PStr NLNL) ;;
          str_plus (message_header W) body)
  with
  | Ok m => telegram_text W v = Some m
  | Raise _ => telegram_text W v = None
  end.
Proof.
  destruct v as [| b | z | s | l | d]; try discriminate; simpl; intros [= <-].
  - destruct (2000 <? String.length s); reflexivity.
  - destruct (2000 <? List.length l); reflexivity.
  - destruct (2000 <? List.length d); reflexivity.
Qed.

Ltac nothing_sent :=
  exists []; simpl;
  split; [reflexivity|]; split; [reflexivity|]; split; [lia|];
  split; [now rewrite ?andb_false_r | eauto].

Lemma chars_take_length (n : nat) (s : string) :
  List.length (Py.chars (take n s)) <= n.
Proof.
  revert s; induction n as [|n IH]; intros [|c s]; simpl; try lia.
  specialize (IH s). lia.
Qed.

(** What [_send_to_telegram] does on a record: the text message goes first,
    and its outcome is reported when the images can be sliced. *)
Lemma send_to_telegram_run (W : World) (d : list (string * PyVal)) :
  exists photos,
    fst (_send_to_telegram W (PDict d))
    = match main_text W (PDict d) with
      | Some m => SendMessage m :: photos
      | None => []
      end
    /\ forallb is_photo photos = true
    /\ List.length photos <= 2
    /\ Py.get (snd (_send_to_telegram W (PDict d))) "success" (PBool false)
       = Ok (PBool (sliceable (images_field (PDict d))
                    && match main_text W (PDict d) with
                       | Some m => accepted W m
                       | None => false
                       end))
    /\ exists r, snd (_send_to_telegram W (PDict d)) = PDict r.
Proof.
  unfold _send_to_telegram, main_text, images_field.
  rewrite <- negb_andb.
  destruct (configured (telegram_token W) && configured (telegram_chat_id W));
    [|nothing_sent].
  cbn [negb]. cbv iota.
  cbn [Py.get]. rewrite !io_bind_lift_ok. cbv beta.
  set (v := match Py.lookup "formatted_summary" d with Some x => x | None => PStr "" end).
  set (x := match Py.lookup "images" d with Some x => x | None => PList [] end).
  clearbody x.
  rewrite Stages.io_bind_lift.
  destruct (Py.len v) as [size|e] eqn:Hsize.
  2:{ rewrite (message_block_no_len W v e Hsize). nothing_sent. }
  rewrite Stages.io_bind_lift.
  pose proof (message_block W v size Hsize) as Hblock.
  match type of Hblock with
  | match ?b with Ok _ => _ | Raise _ => _ end => destruct b as [m|]
  end.
  2:{ rewrite Hblock. nothing_sent. }
  rewrite Hblock. rewrite Stages.io_bind_total.
  destruct (send_telegram_message_run W m) as (Hcalls & Hsuccess & mid & Hmid).
  rewrite Hcalls.
  assert (Hslice :
            (exists items, (first_two <- Py.slice_to 2 x ;; Py.iter first_two) = Ok items
                           /\ List.length items <= 2 /\ sliceable x = true)
            \/ (exists e, Py.slice_to 2 x = Raise e /\ sliceable x = false)).
  { destruct x as [| b | z | s | l | dx]; cbn [Py.slice_to Py.iter bind sliceable]; eauto.
    - left. eexists. split; [reflexivity|]. split; [apply chars_take_length | reflexivity].
    - left. eexists. split; [reflexivity|]. split; [|reflexivity].
      rewrite length_firstn. lia. }
  destruct Hslice as [(items & Hitems & Hlen & ->) | (e & Hraise & ->)].
  - unfold bind in Hitems.
    destruct (Py.slice_to 2 x) as [first_two|]; [|discriminate].
    rewrite io_bind_lift_ok. cbv beta. rewrite Hitems, io_bind_lift_ok. cbv beta.
    destruct (send_images_run W items) as (photos & E & Hp & Hphotos).
    rewrite E, io_bind_ok.
    rewrite Hsuccess, io_bind_lift_ok. cbv beta.
    rewrite Hmid, io_bind_lift_ok. cbv beta.
    exists photos. cbn [io_ret io_try fst snd app andb]. rewrite app_nil_r.
    split; [reflexivity|]. split; [assumption|].
    split; [lia|]. split; [reflexivity | eauto].
  - rewrite Hraise. exists []. cbn.
    split; [reflexivity|]. split; [reflexivity|]. split; [lia|].
    split; [reflexivity | eauto].
Qed.

(** The extractor yields nothing or a non-empty record. *)
Lemma extract_formatted_data_cases (context : PyVal) :
  _extract_formatted_data context = PNone
  \/ exists d, _extract_formatted_data context = PDict d /\ Py.truthy (PDict d) = true.
Proof.
  unfold _extract_formatted_data.
  destruct (Py.truthy context) eqn:Ht; [|now left]. cbn [negb].
  destruct context as [| b | z | s | items | d]; try (now left).
  - destruct (find _ items) as [item|] eqn:Hfind; [|now left].
    apply find_some in Hfind as [_ Hitem].
    destruct item as [| | | | |d]; try discriminate.
    right. exists d. split; [reflexivity|].
    simpl in Hitem. now destruct d.
  - right. now exists d.
Qed.

Lemma create_pdf_report_record (W : World) (formatted_data : PyVal) (timestamp : string) :
  exists r, _create_pdf_report W formatted_data timestamp = PDict r.
Proof.
  unfold _create_pdf_report, try_except, bind.
  destruct (Py.get formatted_data "formatted_summary" _); [|eauto].
  destruct (Py.get formatted_data "images" _); [|eauto].
  destruct (PDFGenerator.create_report W _); eauto.
Qed.


(** A run of the stage on a non-empty record. *)
Lemma distribute_report_run (W : World) (context : PyVal) (d : list (string * PyVal)) :
  _extract_formatted_data context = PDict d ->
  Py.truthy (PDict d) = true ->
  exists photos,
    fst (distribute_report W context)
    = match main_text W (PDict d) with
      | Some m => SendMessage m :: photos
      | None => []
      end
    /\ forallb is_photo photos = true
    /\ List.length photos <= 2
    /\ Py.get (snd (distribute_report W context)) "telegram_sent" PNone
       = Ok (PBool (sliceable (images_field (PDict d))
                    && match main_text W (PDict d) with
                       | Some m => accepted W m
                       | None => false
                       end))
    /\ (images_is_sequence (PDict d) = true ->
        Py.get (snd (distribute_report W context)) "pdf_created" PNone
        = Py.get (_create_pdf_report W (PDict d) (now_file_stamp W)) "success" (PBool false)).
Proof.
  intros Hext Htruthy. unfold distribute_report.
  rewrite Hext, Htruthy. cbn [negb]. cbv iota zeta.
  rewrite Stages.io_bind_total.
  destruct (send_to_telegram_run W d) as (photos & Hcalls & Hp & Hlen & Hsent & r & Hr).
  destruct (create_pdf_report_record W (PDict d) (now_file_stamp W)) as [p Hpdf].
  rewrite Hcalls, Hsent, Hpdf. rewrite Hr.
  exists photos.
  cbn [Py.get]. rewrite !io_bind_lift_ok. cbv beta.
  unfold images_is_sequence, images_field. cbn [Py.get].
  destruct (match Py.lookup "images" d with Some x => x | None => PList [] end)
    as [| b | z | s | l | dx] eqn:Hx;
    cbn [Py.len sliceable andb]; rewrite ?io_bind_lift_ok; cbv beta;
    cbn [io_lift io_bind io_ret io_try fst snd]; rewrite ?app_nil_r;
    (split; [reflexivity|]; split; [assumption|]; split; [assumption|];
     split; [reflexivity|]);
    intros Hseq; try reflexivity;
    (destruct (Py.lookup "images" d) as [y|];
     [subst y; discriminate Hseq | discriminate Hx]).
Qed.






End Distribution.

(** ** The search terms and the providers of the image resolver *)

Module SearchTerms.

Import PyStr Spec SpecX FormattingAgent.

Lemma Ok_inj {A : Type} (a b : A) : Ok a = Ok b -> a = b.
Proof. now intros [= ->]. Qed.

Lemma lower_char_not_upper (c : ascii) : is_upper (lower_char c) = false.
Proof. destruct c as [[] [] [] [] [] [] [] []]; reflexivity. Qed.

Lemma lower_no_upper (s : string) : no_upper (lower s) = true.
Proof.
  induction s as [|c s IH]; [reflexivity|].
  simpl. now rewrite lower_char_not_upper, IH.
Qed.

Lemma startswith_no_upper (p s : string) :
  startswith p s = true -> no_upper s = true -> no_upper p = true.
Proof.
  revert s; induction p as [|a p IH]; intros [|b s]; simpl; try discriminate; trivial.
  intros H Hs. apply andb_prop in H as [Hab Hp]. apply andb_prop in Hs as [Hb Hs].
  apply Ascii.eqb_eq in Hab. subst b. rewrite Hb. simpl. now apply (IH s).
Qed.

Lemma contains_no_upper (p s : string) :
  contains p s = true -> no_upper s = true -> no_upper p = true.
Proof.
  induction s as [|b s IH]; intros H Hs.
  - simpl in H. rewrite orb_false_r in H. now apply (startswith_no_upper p "").
  - cbn [contains] in H. apply orb_prop in H as [H | H].
    + now apply (startswith_no_upper p (String b s)).
    + apply IH; [assumption|]. simpl in Hs. now apply andb_prop in Hs as [_ Hs].
Qed.

(** A term written with a capital does not occur in a lower-cased text. *)
Lemma capital_never_found (term s : string) :
  no_upper term = false -> contains term (lower s) = false.
Proof.
  intros Hterm. destruct (contains term (lower s)) eqn:Hc; [|reflexivity].
  rewrite (contains_no_upper _ _ Hc (lower_no_upper s)) in Hterm. discriminate.
Qed.

Lemma firstn_length_le {A : Type} (n : nat) (l : list A) :
  List.length (firstn n l) <= n.
Proof. rewrite length_firstn. lia. Qed.

Lemma in_firstn_in {A : Type} (n : nat) (l : list A) (x : A) :
  In x (firstn n l) -> In x l.
Proof.
  revert n; induction l as [|y l IH]; intros [|n]; simpl; try tauto.
  intros [-> | H]; [now left | right; now apply (IH n)].
Qed.

(** The terms found, before the defaults and the cut. *)
Lemma extract_search_terms_eq (s : string) :
  _extract_search_terms (PStr s)
  = Ok (firstn 3 (match filter (fun term => contains term (lower s)) financial_terms with
                  | [] => default_terms
                  | found => found
                  end)).
Proof.
  unfold _extract_search_terms. cbv beta iota delta [bind Py.lower].
  destruct (filter _ financial_terms); reflexivity.
Qed.


(** X2: the entries of the vocabulary written with capitals (S&P 500, Dow
    Jones, NASDAQ, NYSE) are never among the search terms, since the text is
    lower-cased before it is searched and the entries are not. *)
Theorem capitalised_terms_never_found (s : string) (terms : list string) (t : string) :
  _extract_search_terms (PStr s) = Ok terms ->
  In t capitalised_terms ->
  In t financial_terms /\ ~ In t terms.
Proof.
  intros Hterms Ht. split.
  { simpl in Ht. simpl. intuition. }
  assert (Hcap : no_upper t = false).
  { simpl in Ht. destruct Ht as [<- | [<- | [<- | [<- | []]]]]; reflexivity. }
  assert (Hdef : ~ In t default_terms).
  { intros Hin. simpl in Hin. destruct Hin as [<- | [<- | []]]; discriminate. }
  rewrite extract_search_terms_eq in Hterms. apply Ok_inj in Hterms. subst terms.
  intros Hin. apply in_firstn_in in Hin.
  destruct (filter (fun term => contains term (lower s)) financial_terms)
    as [|t0 found] eqn:Hf; [now apply Hdef|].
  rewrite <- Hf in Hin. apply filter_In in Hin as [_ Hc].
  rewrite (capital_never_found t s Hcap) in Hc. discriminate.
Qed.

Lemma capitalised_terms_never_found_witness :
  In "NASDAQ" financial_terms
  /\ ~ In "NASDAQ" [ "trading" ].
Proof.
  apply (capitalised_terms_never_found "NASDAQ trading was heavy" [ "trading" ] "NASDAQ").
  - reflexivity.
  - simpl. tauto.
Defined.

End SearchTerms.

Module Providers.

Import PyStr Spec SpecX FormattingAgent.

Lemma first_candidates (found first : PyVal) (candidates : list PyVal) :
  Py.slice_to 1 found = Ok first ->
  Py.iter first = Ok candidates ->
  List.length candidates <= 1.
Proof.
  destruct found as [| b | z | s | l | d]; try discriminate; intros [= <-] [= <-].
  - exact (Distribution.chars_take_length 1 s).
  - exact (SearchTerms.firstn_length_le 1 l).
Qed.

Lemma serper_harvest_length (W : World) (term : string)
  (candidates images harvested : list PyVal) :
  serper_harvest W term candidates images = Ok harvested ->
  List.length harvested <= List.length images + List.length candidates.
Proof.
  revert images; induction candidates as [|img rest IH]; intros images; simpl.
  - intros [= <-]. lia.
  - unfold bind. destruct (Py.get img "imageUrl" (PStr "")) as [u|]; [|discriminate].
    destruct (_is_valid_image_url W u).
    + destruct (Py.get img "imageUrl" PNone) as [url|]; [|discriminate].
      destruct (Py.get img "title" _) as [title|]; [|discriminate].
      intros H. apply IH in H. rewrite length_app in H. simpl in H. lia.
    + intros H. apply IH in H. lia.
Qed.

Lemma serper_terms_length (W : World) (terms : list string)
  (images harvested : list PyVal) :
  serper_terms W terms images = Ok harvested ->
  List.length harvested <= List.length images + List.length terms.
Proof.
  revert images; induction terms as [|term rest IH]; intros images; simpl.
  - intros [= <-]. lia.
  - unfold bind.
    destruct (serper_images W _) as [data|]; [|discriminate].
    destruct (Py.get data "images" _) as [found|]; [|discriminate].
    destruct (Py.slice_to 1 found) as [first|] eqn:Hs; [|discriminate].
    destruct (Py.iter first) as [candidates|] eqn:Hi; [|discriminate].
    destruct (serper_harvest W term candidates images) as [images'|] eqn:Hh; [|discriminate].
    intros H. apply IH in H. apply serper_harvest_length in Hh.
    pose proof (first_candidates _ _ _ Hs Hi). lia.
Qed.

Lemma tavily_harvest_length (W : World) (term : string)
  (results images harvested : list PyVal) :
  tavily_harvest W term results images = Ok harvested ->
  List.length harvested <= List.length images + List.length results.
Proof.
  revert images; induction results as [|res rest IH]; intros images; simpl.
  - intros [= <-]. lia.
  - unfold bind. destruct (Py.get res "images" _) as [images_list|]; [|discriminate].
    destruct (Py.truthy images_list); [|intros H; apply IH in H; lia].
    destruct (Py.index0 images_list) as [img_url|]; [|discriminate].
    destruct (_is_valid_image_url W img_url); intros H; apply IH in H;
      rewrite ?length_app in H; simpl in H; lia.
Qed.

Lemma tavily_terms_length (W : World) (terms : list string)
  (images harvested : list PyVal) :
  tavily_terms W terms images = Ok harvested ->
  List.length harvested <= List.length images + List.length terms.
Proof.
  revert images; induction terms as [|term rest IH]; intros images; simpl.
  - intros [= <-]. lia.
  - unfold bind.
    destruct (tavily_search W _) as [data|]; [|discriminate].
    destruct (Py.get data "results" _) as [found|]; [|discriminate].
    destruct (Py.slice_to 1 found) as [first|] eqn:Hs; [|discriminate].
    destruct (Py.iter first) as [results|] eqn:Hi; [|discriminate].
    destruct (tavily_harvest W term results images) as [images'|] eqn:Hh; [|discriminate].
    intros H. apply IH in H. apply tavily_harvest_length in Hh.
    pose proof (first_candidates _ _ _ Hs Hi). lia.
Qed.

(** A request that fails makes the whole loop fail. *)
Lemma serper_terms_raise (W : World) (terms : list string) (images : list PyVal)
  (term : string) (e : exn) :
  In term terms ->
  serper_images W (term ++ " financial chart") = Raise e ->
  exists e', serper_terms W terms images = Raise e'.
Proof.
  revert images; induction terms as [|t rest IH]; intros images Hin Hraise;
    [destruct Hin|].
  destruct Hin as [<- | Hin]; simpl.
  - rewrite Hraise. eexists; reflexivity.
  - unfold bind.
    destruct (serper_images W (t ++ " financial chart")) as [data|];
      [|eexists; reflexivity].
    destruct (Py.get data "images" _) as [found|]; [|eexists; reflexivity].
    destruct (Py.slice_to 1 found) as [first|]; [|eexists; reflexivity].
    destruct (Py.iter first) as [candidates|]; [|eexists; reflexivity].
    destruct (serper_harvest W t candidates images) as [images'|]; [|eexists; reflexivity].
    now apply IH.
Qed.

Lemma tavily_terms_raise (W : World) (terms : list string) (images : list PyVal)
  (term : string) (e : exn) :
  In term terms ->
  tavily_search W (term ++ " financial chart graph") = Raise e ->
  exists e', tavily_terms W terms images = Raise e'.
Proof.
  revert images; induction terms as [|t rest IH]; intros images Hin Hraise;
    [destruct Hin|].
  destruct Hin as [<- | Hin]; simpl.
  - rewrite Hraise. eexists; reflexivity.
  - unfold bind.
    destruct (tavily_search W (t ++ " financial chart graph")) as [data|];
      [|eexists; reflexivity].
    destruct (Py.get data "results" _) as [found|]; [|eexists; reflexivity].
    destruct (Py.slice_to 1 found) as [first|]; [|eexists; reflexivity].
    destruct (Py.iter first) as [results|]; [|eexists; reflexivity].
    destruct (tavily_harvest W t results images) as [images'|]; [|eexists; reflexivity].
    now apply IH.
Qed.

(** X3: each provider search returns at most two descriptors, one for each
    of the first two terms at most; and when the request for one of these
    terms fails it returns none, dropping what an earlier term gave. *)
Theorem provider_search_bounds (W : World) (search_terms : list string) :
  List.length (_search_images_serper W search_terms) <= 2
  /\ List.length (_search_images_tavily W search_terms) <= 2
  /\ (forall term e,
         In term (firstn 2 search_terms) ->
         serper_images W (term ++ " financial chart") = Raise e ->
         _search_images_serper W search_terms = [])
  /\ (forall term e,
         In term (firstn 2 search_terms) ->
         tavily_search W (term ++ " financial chart graph") = Raise e ->
         _search_images_tavily W search_terms = []).
Proof.
  pose proof (SearchTerms.firstn_length_le 2 search_terms) as Hterms.
  unfold _search_images_serper, _search_images_tavily, try_except.
  split; [|split; [|split]].
  - destruct (serper_terms W _ []) as [h|] eqn:H; [|simpl; lia].
    apply serper_terms_length in H. change (List.length (@nil PyVal)) with 0 in H. lia.
  - destruct (tavily_terms W _ []) as [h|] eqn:H; [|simpl; lia].
    apply tavily_terms_length in H. change (List.length (@nil PyVal)) with 0 in H. lia.
  - intros term e Hin Hraise.
    destruct (serper_terms_raise W _ [] term e Hin Hraise) as [e' ->]. reflexivity.
  - intros term e Hin Hraise.
    destruct (tavily_terms_raise W _ [] term e Hin Hraise) as [e' ->]. reflexivity.
Qed.

(** The first provider answers the first query and fails on the second. *)
Lemma provider_search_bounds_witness :
  let W := Worlds.with_serper
             (fun q => if String.eqb q "trading financial chart"
                       then Ok (PDict [ ("images",
                                         PList [ PDict [ ("imageUrl", PStr "https://cdn.example.com/t.png") ] ]) ])
                       else Raise (ExternalError "timeout"))
             Worlds.offline in
  _search_images_serper W [ "trading"; "earnings" ] = [].
Proof.
  intros W.
  destruct (provider_search_bounds W [ "trading"; "earnings" ]) as (_ & _ & Hserper & _).
  apply (Hserper "earnings" (ExternalError "timeout")).
  - simpl. tauto.
  - reflexivity.
Defined.

Lemma firstn_all_length {A : Type} (n : nat) (l : list A) :
  List.length l = n -> firstn n l = l.
Proof. intros <-. apply firstn_all. Qed.

(** X4: with no provider configured the resolver returns the two static
    descriptors for every input, and when the first provider gives two
    descriptors the resolver returns these two, whatever the second provider
    and the static set hold. *)
Theorem resolver_priority (W : World) (summary_text : PyVal) :
  (configured (serper_api_key W) = false ->
   configured (tavily_api_key W) = false ->
   _find_financial_images W summary_text = _get_fallback_images)
  /\ (forall search_terms,
         _extract_search_terms summary_text = Ok search_terms ->
         configured (serper_api_key W) = true ->
         List.length (_search_images_serper W search_terms) = 2 ->
         _find_financial_images W summary_text = _search_images_serper W search_terms).
Proof.
  unfold _find_financial_images, try_except, bind. split.
  - intros -> ->. destruct (_extract_search_terms summary_text); reflexivity.
  - intros search_terms -> -> Hlen. cbv beta iota zeta. cbn [app].
    assert (E : (List.length (_search_images_serper W search_terms) <? 2) = false)
      by (rewrite Hlen; reflexivity).
    rewrite E, andb_false_r, E. now apply firstn_all_length.
Qed.

Lemma resolver_priority_witness :
  _find_financial_images Worlds.offline (PStr "Bonds rallied.") = _get_fallback_images.
Proof. apply (resolver_priority Worlds.offline (PStr "Bonds rallied.")); reflexivity. Defined.

(** X5: the payload of the formatting stage carries a list under [images]:
    exactly two descriptors when the payload has no status, and none when it
    is the fallback or the error payload. *)
Theorem formatted_images_two_or_none (W : World) (context : PyVal) :
  exists images,
    Py.get (format_content W context) "images" PNone = Ok (PList images)
    /\ images_is_sequence (format_content W context) = true
    /\ ((Py.has_key "status" (format_content W context) = false
         /\ List.length images = 2)
        \/ (Py.has_key "status" (format_content W context) = true
            /\ images = [])).
Proof.
  unfold format_content, try_except.
  destruct (negb (Py.truthy (_extract_summary_data context)));
    [exists []; repeat split; right; split; reflexivity|].
  unfold bind.
  destruct (Py.get _ "summary" _) as [summary_text|];
    [|exists []; repeat split; right; split; reflexivity].
  destruct (_insert_images_in_summary W summary_text _);
    [|exists []; repeat split; right; split; reflexivity].
  exists (_find_financial_images W summary_text).
  split; [reflexivity|]. split; [reflexivity|]. left. split; [reflexivity|].
  destruct (ImageResolver.find_financial_images_shape W summary_text) as (h & _ & ->).
  rewrite length_firstn, length_app.
  change (List.length _get_fallback_images) with 2. lia.
Qed.

End Providers.

(** ** Where the markers land *)

Module InsertionOrder.

Import PyStr Spec SpecX PyStrFacts FormattingAgent.

Lemma startswith_append (a b : string) : startswith a (a ++ b) = true.
Proof.
  induction a as [|c a IH]; simpl; [reflexivity|].
  now rewrite Ascii.eqb_refl, IH.
Qed.

Lemma PStr_inj (a b : string) : PStr a = PStr b -> a = b.
Proof. intros H. now inversion H. Qed.

Lemma join_cons2 (sep p q : string) (qs : list string) :
  join sep (p :: q :: qs) = (p ++ sep) ++ join sep (q :: qs).
Proof.
  change (join sep (p :: q :: qs)) with (p ++ (sep ++ join sep (q :: qs))).
  now rewrite append_assoc.
Qed.

(** X6: on a summary of exactly two paragraphs and at least two images the
    marker of the second image is put before the marker of the first: the
    result is the first paragraph, the second marker, the first marker and
    the second paragraph, separated by blank lines. *)
Theorem two_paragraphs_reverse_markers (W : World) (s p1 p2 : string)
  (image_1 image_2 : PyVal) (others : list PyVal) (marker_1 marker_2 : string) :
  split NLNL s = [ p1; p2 ] ->
  chart_marker W image_1 = Ok marker_1 ->
  chart_marker W image_2 = Ok marker_2 ->
  _insert_images_in_summary W (PStr s) (image_1 :: image_2 :: others)
  = Ok (PStr (p1 ++ NLNL ++ marker_2 ++ NLNL ++ marker_1 ++ NLNL ++ p2)).
Proof.
  intros Hsplit H1 H2. unfold _insert_images_in_summary.
  cbn [Py.split bind]. rewrite Hsplit. cbn [List.length Nat.leb andb].
  rewrite H1. cbn [bind Py.insert firstn skipn app List.length Nat.leb andb nth_error].
  rewrite H2. reflexivity.
Qed.

Lemma two_paragraphs_reverse_markers_witness :
  _insert_images_in_summary Worlds.offline
    (PStr ("Stocks rose." ++ NLNL ++ "Bonds fell.")) _get_fallback_images
  = Ok (PStr ("Stocks rose." ++ NLNL
              ++ (NLNL ++ "[Chart: Trading Volume Analysis]" ++ NL
                  ++ "https://via.placeholder.com/600x400/009900/ffffff?text=Trading+Volume+Graph" ++ NL)
              ++ NLNL
              ++ (NLNL ++ "[Chart: Stock Market Performance Chart]" ++ NL
                  ++ "https://via.placeholder.com/600x400/0066cc/ffffff?text=Stock+Market+Chart" ++ NL)
              ++ NLNL ++ "Bonds fell.")).
Proof.
  apply (two_paragraphs_reverse_markers Worlds.offline _ "Stocks rose." "Bonds fell.");
    reflexivity.
Defined.

Lemma half_positive (n : nat) : 3 <= n -> exists k, n / 2 = S k.
Proof.
  intros H. destruct (n / 2) eqn:E; [|now eexists].
  apply Nat.div_small_iff in E; lia.
Qed.

(** X7: whatever the images are, when the insertion returns a text, that
    text begins with the first paragraph of the summary followed by a blank
    line: no marker is put before the opening paragraph. *)
Theorem first_paragraph_stays_first (W : World) (s r : string) (images : list PyVal) :
  images <> [] ->
  _insert_images_in_summary W (PStr s) images = Ok (PStr r) ->
  exists p1 rest,
    split NLNL s = p1 :: rest
    /\ startswith (p1 ++ NLNL) r = true.
Proof.
  intros Hne. destruct images as [|image_1 others]; [contradiction|].
  unfold _insert_images_in_summary, bind. cbn [Py.split].
  pose proof (Insertion.split_nonempty NLNL 0 "" s) as Hps.
  fold (split NLNL s) in Hps.
  destruct (split NLNL s) as [|p1 rest]; [contradiction|].
  change ((1 <=? List.length (p1 :: rest)) && (1 <=? List.length (image_1 :: others)))
    with true. cbv iota.
  destruct (chart_marker W image_1) as [m1|]; [|intros H'; discriminate H'].
  cbn [Py.insert firstn skipn app].
  destruct ((3 <=? List.length (p1 :: m1 :: rest))
            && (2 <=? List.length (image_1 :: others))) eqn:Hc.
  - apply andb_prop in Hc as [Hlen _]. apply Nat.leb_le in Hlen.
    destruct (nth_error (image_1 :: others) 1) as [image_2|];
      [|intros H'; discriminate H'].
    destruct (chart_marker W image_2) as [m2|]; [|intros H'; discriminate H'].
    destruct (half_positive _ Hlen) as [k Hk].
    rewrite Hk. cbn [firstn skipn app].
    intros H. apply SearchTerms.Ok_inj, PStr_inj in H. subst r.
    exists p1, rest. split; [reflexivity|].
    unfold Py.insert. cbn [firstn skipn app].
    destruct (firstn k (m1 :: rest) ++ m2 :: skipn k (m1 :: rest))%list as [|q qs] eqn:E.
    + destruct (firstn k (m1 :: rest)); discriminate.
    + rewrite join_cons2. apply startswith_append.
  - intros H. apply SearchTerms.Ok_inj, PStr_inj in H. subst r.
    exists p1, rest. split; [reflexivity|].
    rewrite join_cons2. apply startswith_append.
Qed.

Lemma first_paragraph_stays_first_witness :
  exists p1 rest,
    split NLNL ("Stocks rose." ++ NLNL ++ "Bonds fell." ++ NLNL ++ "Oil was flat.") = p1 :: rest
    /\ startswith (p1 ++ NLNL)
         ("Stocks rose." ++ NLNL
          ++ (NLNL ++ "[Chart: Stock Market Performance Chart]" ++ NL
              ++ "https://via.placeholder.com/600x400/0066cc/ffffff?text=Stock+Market+Chart" ++ NL)
          ++ NLNL
          ++ (NLNL ++ "[Chart: Trading Volume Analysis]" ++ NL
              ++ "https://via.placeholder.com/600x400/009900/ffffff?text=Trading+Volume+Graph" ++ NL)
          ++ NLNL ++ "Bonds fell." ++ NLNL ++ "Oil was flat.") = true.
Proof.
  apply (first_paragraph_stays_first Worlds.offline _ _ _get_fallback_images).
  - discriminate.
  - reflexivity.
Defined.

End InsertionOrder.

(** ** The news content and the summary written without the model *)

Module SummaryNews.

Import PyStr Spec SpecX PyStrFacts SummaryAgent.

Lemma single_line_append (a b : string) :
  single_line (a ++ b) = single_line a && single_line b.
Proof.
  induction a as [|c a IH]; [reflexivity|].
  cbn [append single_line]. now rewrite IH, andb_assoc.
Qed.

Lemma not_newline (c : ascii) (s : string) :
  negb (Ascii.eqb c nl) = true -> startswith NL (String c s) = false.
Proof.
  intros H. cbn [startswith NL]. rewrite Ascii.eqb_sym.
  apply negb_true_iff in H. now rewrite H.
Qed.

Lemma split_line_aux (a rest cur : string) :
  single_line a = true ->
  split_aux NL 0 cur (a ++ NL ++ rest) = (cur ++ a) :: split_aux NL 0 "" rest.
Proof.
  revert cur; induction a as [|c a IH]; intros cur Ha.
  - rewrite append_nil_r. reflexivity.
  - cbn [single_line] in Ha. apply andb_prop in Ha as [Hc Ha].
    change (String c a ++ NL ++ rest) with (String c (a ++ NL ++ rest)).
    cbn [split_aux]. rewrite (not_newline c _ Hc).
    rewrite (IH _ Ha). now rewrite append_snoc.
Qed.

(** A line without a newline is cut off at the newline that follows it. *)
Lemma split_line (a rest : string) :
  single_line a = true ->
  split NL (a ++ NL ++ rest) = a :: split NL rest.
Proof. intros Ha. exact (split_line_aux a rest "" Ha). Qed.

Lemma split_block (l1 l2 l3 rest : string) :
  single_line l1 = true -> single_line l2 = true -> single_line l3 = true ->
  split NL (l1 ++ NL ++ l2 ++ NL ++ l3 ++ NL ++ rest)
  = l1 :: l2 :: l3 :: split NL rest.
Proof.
  intros H1 H2 H3.
  now rewrite (split_line l1 _ H1), (split_line l2 _ H2), (split_line l3 _ H3).
Qed.

Lemma string_of_uint_single_line (d : Decimal.uint) :
  single_line (NilEmpty.string_of_uint d) = true.
Proof. induction d; cbn [NilEmpty.string_of_uint single_line]; try exact IHd; reflexivity. Qed.

Lemma to_uint_nonnil (i : nat) : Nat.to_uint i <> Decimal.Nil.
Proof.
  rewrite <- (DecimalNat.Unsigned.of_to i) at 1.
  rewrite DecimalNat.Unsigned.to_of. apply DecimalFacts.unorm_nonnil.
Qed.

(** A number is written with a digit first. *)
Lemma str_of_nat_head (i : nat) :
  exists c r, Py.str_of_nat i = String c r
              /\ is_space c = false /\ Ascii.eqb " " c = false.
Proof.
  unfold Py.str_of_nat. pose proof (to_uint_nonnil i) as Hn.
  destruct (Nat.to_uint i); [contradiction| ..];
    cbn [NilEmpty.string_of_uint]; eexists; eexists;
    (split; [reflexivity|]); split; reflexivity.
Qed.

Lemma headline_single_line (W : World) (i : nat) (item : PyVal) :
  single_line (field W item "title" "No title") = true ->
  single_line (headline W i item) = true.
Proof.
  intros H. unfold headline, Py.str_of_nat.
  now rewrite !single_line_append, string_of_uint_single_line, H.
Qed.

Lemma strip_head (c : ascii) (r : string) :
  is_space c = false -> String.eqb (strip (String c r)) "" = false.
Proof.
  intros H. unfold strip. cbn [lstrip]. rewrite H. cbn [rstrip].
  destruct (rstrip r); [rewrite H|]; reflexivity.
Qed.

(** A headline is kept by the filter of the manual summary. *)
Lemma headline_kept (W : World) (i : nat) (item : PyVal) :
  String.eqb (strip (headline W i item)) "" = false
  /\ startswith "   " (headline W i item) = false.
Proof.
  unfold headline. destruct (str_of_nat_head i) as (c & r & -> & Hs & Hc).
  change (String c r ++ ". " ++ field W item "title" "No title")
    with (String c (r ++ ". " ++ field W item "title" "No title")).
  split; [now apply strip_head|].
  cbn [startswith]. now rewrite Hc.
Qed.

Lemma filter_news_lines (W : World) (items : list PyVal) (i : nat) :
  filter (fun line => negb (String.eqb (strip line) "") && negb (startswith "   " line))
         (news_lines W i items)
  = headlines W i items.
Proof.
  revert i; induction items as [|item rest IH]; intros i; [reflexivity|].
  cbn [news_lines headlines filter].
  destruct (headline_kept W i item) as [-> ->].
  cbn [negb andb].
  change (startswith "   " ("   Source: " ++ field W item "source" "Unknown")) with true.
  change (startswith "   " ("   Summary: " ++ field W item "content" "No content")) with true.
  rewrite !andb_false_r.
  change (String.eqb (strip "") "") with true. cbn [negb andb].
  now rewrite IH.
Qed.

Lemma headline_bullets_headlines (W : World) (items : list PyVal) (i : nat) :
  headline_bullets (headlines W i items) = bullets (headlines W i items).
Proof.
  revert i; induction items as [|item rest IH]; intros i; [reflexivity|].
  cbn [headlines headline_bullets bullets].
  destruct (headline_kept W i item) as [-> _]. cbn [negb].
  rewrite IH. now rewrite !append_assoc.
Qed.

Lemma firstn_headlines (W : World) (n : nat) (items : list PyVal) (i : nat) :
  firstn n (headlines W i items) = headlines W i (firstn n items).
Proof.
  revert i items; induction n as [|n IH]; intros i [|item rest]; try reflexivity.
  cbn [headlines firstn]. now rewrite IH.
Qed.

Lemma tidy_record (W : World) (item : PyVal) :
  tidy W item = true ->
  exists d, item = PDict d
            /\ single_line (field W item "title" "No title") = true
            /\ single_line (field W item "source" "Unknown") = true
            /\ single_line (field W item "content" "No content") = true.
Proof.
  unfold tidy. intros H.
  apply andb_prop in H as [H Hc]. apply andb_prop in H as [H Hs].
  apply andb_prop in H as [Hd Ht].
  destruct item as [| | | | |d]; try discriminate. now exists d.
Qed.

(** The blocks of tidy items, joined and split again, are four lines per
    item. *)
Lemma news_parts_lines (W : World) (items : list PyVal) (i : nat) :
  forallb (tidy W) items = true ->
  exists parts,
    news_parts W i items = Ok parts
    /\ List.length parts = List.length items
    /\ (items <> [] -> split NL (join NL parts) = news_lines W i items).
Proof.
  revert i; induction items as [|item rest IH]; intros i Htidy.
  - exists []. split; [reflexivity|]. split; [reflexivity|]. intros H; now elim H.
  - cbn [forallb] in Htidy. apply andb_prop in Htidy as [Hitem Hrest].
    destruct (tidy_record W item Hitem) as (d & -> & Ht & Hs & Hc).
    destruct (IH (S i) Hrest) as (parts & Hparts & Hlen & Hlines).
    cbn [news_parts Py.get]. unfold bind at 1 2 3. rewrite Hparts. unfold bind.
    eexists. split; [reflexivity|]. split; [cbn [List.length]; now rewrite Hlen|].
    intros _. cbn [news_lines].
    set (l1 := headline W i (PDict d)).
    set (l2 := "   Source: " ++ field W (PDict d) "source" "Unknown").
    set (l3 := "   Summary: " ++ field W (PDict d) "content" "No content").
    assert (H1 : single_line l1 = true) by now apply headline_single_line.
    assert (H2 : single_line l2 = true) by (unfold l2; now rewrite single_line_append, Hs).
    assert (H3 : single_line l3 = true) by (unfold l3; now rewrite single_line_append, Hc).
    match goal with
    | |- split NL (join NL (?b :: parts)) = _ =>
        assert (Hb : b = l1 ++ NL ++ l2 ++ NL ++ l3 ++ NL ++ "")
          by (unfold l1, l2, l3, headline, field; cbn [Py.get];
              rewrite !append_assoc; reflexivity);
        rewrite Hb
    end.
    destruct rest as [|item' rest'].
    + destruct parts; [|discriminate Hlen].
      cbn [join]. now rewrite (split_block l1 l2 l3 "" H1 H2 H3).
    + destruct parts as [|p ps]; [discriminate Hlen|].
      change (join NL ((l1 ++ NL ++ l2 ++ NL ++ l3 ++ NL ++ "") :: p :: ps))
        with ((l1 ++ NL ++ l2 ++ NL ++ l3 ++ NL ++ "") ++ NL ++ join NL (p :: ps)).
      rewrite !append_assoc.
      change ("" ++ NL ++ join NL (p :: ps)) with ("" ++ NL ++ join NL (p :: ps)).
      rewrite (split_block l1 l2 l3 _ H1 H2 H3).
      rewrite (split_line "" (join NL (p :: ps)) eq_refl).
      rewrite Hlines; [reflexivity | discriminate].
Qed.

Lemma news_parts_records (W : World) (items : list PyVal) (i : nat) :
  forallb Py.isinstance_dict items = true ->
  exists parts, news_parts W i items = Ok parts.
Proof.
  revert i; induction items as [|item rest IH]; intros i H; [now exists []|].
  cbn [forallb] in H. apply andb_prop in H as [Hitem Hrest].
  destruct item as [| | | | |d]; try discriminate.
  destruct (IH (S i) Hrest) as [parts Hparts].
  cbn [news_parts Py.get]. unfold bind at 1 2 3. rewrite Hparts.
  eexists. reflexivity.
Qed.

(** The loop stops at the first item that is not a record. *)
Lemma news_parts_non_record (W : World) (items : list PyVal) (i : nat) :
  forallb Py.isinstance_dict items = false ->
  exists item,
    In item items /\ Py.isinstance_dict item = false
    /\ news_parts W i items = Raise (AttributeError (Py.type_name item) "get").
Proof.
  revert i; induction items as [|item rest IH]; intros i H; [discriminate|].
  cbn [forallb] in H.
  destruct (Py.isinstance_dict item) eqn:Hitem.
  - destruct (IH (S i) H) as (x & Hin & Hx & Hraise).
    exists x. split; [now right|]. split; [assumption|].
    destruct item as [| | | | |d]; try discriminate.
    cbn [news_parts Py.get]. unfold bind at 1 2 3. now rewrite Hraise.
  - exists item. split; [now left|]. split; [assumption|].
    destruct item; try discriminate; reflexivity.
Qed.

Lemma lookup_nonempty (d : list (string * PyVal)) (v : PyVal) :
  Py.lookup "news_data" d = Some v -> Py.truthy (PDict d) = true.
Proof. destruct d; [discriminate | reflexivity]. Qed.

Lemma generate_llm_summary_manual (W : World) (news_content : string) :
  (forall text s, llm_summary W text <> Ok (PStr s)) ->
  _generate_llm_summary W news_content = _create_manual_summary news_content.
Proof.
  intros Hllm. unfold _generate_llm_summary, try_except, bind.
  destruct (llm_summary W news_content) as [content|] eqn:E; [|reflexivity].
  destruct content; try reflexivity. now elim (Hllm news_content s).
Qed.

(** The stage on a non-empty record, the extraction done. *)
Lemma create_summary_record (W : World) (d : list (string * PyVal)) :
  Py.truthy (PDict d) = true ->
  create_summary W (PDict d)
  = try_except
      (news_content <- _prepare_news_content W (PDict d) ;;
       let summary := _generate_llm_summary W news_content in
       news_data <- Py.get (PDict d) "news_data" (PList []) ;;
       source_count <- Py.len news_data ;;
       Ok (PDict [ ("summary", PStr summary);
                   ("timestamp", PStr (now_isoformat W));
                   ("word_count", PInt (Z.of_nat (List.length (split_ws summary))));
                   ("source_count", PInt (Z.of_nat source_count)) ]))
      (fun e => _create_error_summary W (str_exn W e)).
Proof.
  intros Ht. unfold create_summary, _extract_search_data.
  rewrite Ht. cbn [negb]. cbv iota. rewrite Ht. reflexivity.
Qed.

Lemma prepare_news_content_items (W : World) (d : list (string * PyVal))
  (item : PyVal) (rest : list PyVal) :
  Py.lookup "news_data" d = Some (PList (item :: rest)) ->
  _prepare_news_content W (PDict d)
  = (content_parts <- news_parts W 1 (firstn 10 (item :: rest)) ;;
     Ok (join NL content_parts)).
Proof.
  intros Hd. unfold _prepare_news_content. cbn [Py.get]. rewrite Hd. reflexivity.
Qed.

(** X8: when the model gives no text, the summary of a record with tidy
    news items is the fixed header, one bullet for each of the first five
    items with its number and title, and the fixed footer. *)
Theorem manual_summary_lists_headlines (W : World) (d : list (string * PyVal))
  (items : list PyVal) :
  Py.lookup "news_data" d = Some (PList items) ->
  items <> [] ->
  forallb (tidy W) (firstn 10 items) = true ->
  (forall text s, llm_summary W text <> Ok (PStr s)) ->
  Py.get (create_summary W (PDict d)) "summary" PNone
  = Ok (PStr (manual_summary (headlines W 1 (firstn 5 items)))).
Proof.
  intros Hd Hne Htidy Hllm.
  destruct (news_parts_lines W (firstn 10 items) 1 Htidy) as (parts & Hparts & _ & Hlines).
  assert (Hne' : firstn 10 items <> []) by (destruct items; [now elim Hne | discriminate]).
  specialize (Hlines Hne').
  rewrite (create_summary_record W d (lookup_nonempty d _ Hd)).
  destruct items as [|item rest]; [now elim Hne|].
  rewrite (prepare_news_content_items W d item rest Hd), Hparts.
  cbn [Py.get]. rewrite Hd.
  cbn [bind Py.len try_except Py.get Py.lookup].
  change (String.eqb "summary" "summary") with true. cbv iota zeta.
  rewrite (generate_llm_summary_manual W _ Hllm).
  unfold _create_manual_summary, manual_summary.
  rewrite Hlines, filter_news_lines, firstn_headlines, headline_bullets_headlines.
  rewrite firstn_firstn. reflexivity.
Qed.

Lemma manual_summary_lists_headlines_witness :
  Py.get (create_summary Worlds.offline
            (PDict [ ("news_data",
                      PList [ PDict [ ("title", PStr "Fed holds rates");
                                      ("content", PStr "The Fed kept rates unchanged.");
                                      ("source", PStr "Tavily") ];
                              PDict [ ("title", PStr "Oil slips") ] ]) ]))
         "summary" PNone
  = Ok (PStr (manual_summary [ "1. Fed holds rates"; "2. Oil slips" ])).
Proof.
  refine (manual_summary_lists_headlines Worlds.offline
            [ ("news_data",
               PList [ PDict [ ("title", PStr "Fed holds rates");
                               ("content", PStr "The Fed kept rates unchanged.");
                               ("source", PStr "Tavily") ];
                       PDict [ ("title", PStr "Oil slips") ] ]) ]
            [ PDict [ ("title", PStr "Fed holds rates");
                      ("content", PStr "The Fed kept rates unchanged.");
                      ("source", PStr "Tavily") ];
              PDict [ ("title", PStr "Oil slips") ] ]
            eq_refl _ eq_refl _).
  - discriminate.
  - intros text s. discriminate.
Defined.

(** X9: a record without news is no fallback: the model is asked to
    summarise the fixed sentence and the source count is 0; a record whose
    news is [None] gives the error payload, since its length is asked
    for. *)
Theorem record_without_news (W : World) (d : list (string * PyVal)) :
  d <> [] ->
  (Py.lookup "news_data" d = None \/ Py.lookup "news_data" d = Some (PList []) ->
   _prepare_news_content W (PDict d) = Ok "No recent financial news available."
   /\ create_summary W (PDict d)
      = let summary := _generate_llm_summary W "No recent financial news available." in
        PDict [ ("summary", PStr summary);
                ("timestamp", PStr (now_isoformat W));
                ("word_count", PInt (Z.of_nat (List.length (split_ws summary))));
                ("source_count", PInt 0) ])
  /\ (Py.lookup "news_data" d = Some PNone ->
      create_summary W (PDict d)
      = _create_error_summary W (str_exn W (TypeError "object has no len()"))).
Proof.
  intros Hne.
  assert (Ht : Py.truthy (PDict d) = true) by (destruct d; [now elim Hne | reflexivity]).
  rewrite (create_summary_record W d Ht).
  unfold _prepare_news_content. cbn [Py.get].
  split.
  - intros [-> | ->]; split; reflexivity.
  - intros ->. reflexivity.
Qed.

Lemma record_without_news_witness :
  _prepare_news_content Worlds.offline (PDict [ ("note", PStr "x") ])
  = Ok "No recent financial news available."
  /\ Py.get (create_summary Worlds.offline (PDict [ ("news_data", PNone) ])) "status" PNone
     = Ok (PStr "error").
Proof.
  split.
  - apply (record_without_news Worlds.offline [ ("note", PStr "x") ]);
      [discriminate | left; reflexivity].
  - rewrite (proj2 (record_without_news Worlds.offline [ ("news_data", PNone) ]
                      ltac:(discriminate)) eq_refl).
    reflexivity.
Defined.

(** X10: only the first ten news items are read: when they are records the
    stage does not fail, the source count is the number of all the items,
    and the summary is the one of the record cut to its first ten items. *)
Theorem items_beyond_ten_are_only_counted (W : World) (d : list (string * PyVal))
  (items : list PyVal) :
  Py.lookup "news_data" d = Some (PList items) ->
  forallb Py.isinstance_dict (firstn 10 items) = true ->
  Py.get (create_summary W (PDict d)) "source_count" PNone
  = Ok (PInt (Z.of_nat (List.length items)))
  /\ Py.get (create_summary W (PDict d)) "status" PNone = Ok PNone
  /\ Py.get (create_summary W (PDict d)) "summary" PNone
     = Py.get (create_summary W (PDict [ ("news_data", PList (firstn 10 items)) ]))
         "summary" PNone.
Proof.
  intros Hd Hrec.
  destruct (news_parts_records W (firstn 10 items) 1 Hrec) as [parts Hparts].
  rewrite (create_summary_record W d (lookup_nonempty d _ Hd)).
  rewrite (create_summary_record W [ ("news_data", PList (firstn 10 items)) ] eq_refl).
  destruct items as [|item rest].
  - unfold _prepare_news_content. cbn [Py.get]. rewrite Hd.
    split; [|split]; reflexivity.
  - rewrite (prepare_news_content_items W d item rest Hd).
    rewrite (prepare_news_content_items W [ ("news_data", PList (firstn 10 (item :: rest))) ]
               item (firstn 9 rest) eq_refl).
    change (item :: firstn 9 rest) with (firstn 10 (item :: rest)).
    rewrite firstn_firstn. change (Nat.min 10 10) with 10.
    rewrite Hparts. cbn [Py.get]. rewrite Hd.
    split; [|split]; reflexivity.
Qed.

Lemma items_beyond_ten_are_only_counted_witness :
  Py.get (create_summary Worlds.offline
            (PDict [ ("news_data", PList (repeat (PDict []) 11 ++ [ PNone ])%list) ]))
         "source_count" PNone
  = Ok (PInt 12).
Proof.
  apply (items_beyond_ten_are_only_counted Worlds.offline
           [ ("news_data", PList (repeat (PDict []) 11 ++ [ PNone ])%list) ]
           (repeat (PDict []) 11 ++ [ PNone ])%list); reflexivity.
Defined.

(** X11: an item among the first ten that is not a record makes the stage
    return the error payload, with the message of the failed [get] on the
    first such item, a word count and a source count of 0. *)
Theorem non_record_item_is_an_error (W : World) (d : list (string * PyVal))
  (items : list PyVal) :
  Py.lookup "news_data" d = Some (PList items) ->
  forallb Py.isinstance_dict (firstn 10 items) = false ->
  exists item,
    In item (firstn 10 items) /\ Py.isinstance_dict item = false
    /\ create_summary W (PDict d)
       = _create_error_summary W (str_exn W (AttributeError (Py.type_name item) "get")).
Proof.
  intros Hd Hrec.
  destruct (news_parts_non_record W (firstn 10 items) 1 Hrec) as (item & Hin & Hitem & Hraise).
  exists item. split; [assumption|]. split; [assumption|].
  rewrite (create_summary_record W d (lookup_nonempty d _ Hd)).
  destruct items as [|first rest]; [discriminate Hrec|].
  rewrite (prepare_news_content_items W d first rest Hd), Hraise.
  reflexivity.
Qed.

Lemma non_record_item_is_an_error_witness :
  exists item,
    In item (firstn 10 [ PDict []; PStr "headline" ])
    /\ Py.isinstance_dict item = false
    /\ create_summary Worlds.offline
         (PDict [ ("news_data", PList [ PDict []; PStr "headline" ]) ])
       = _create_error_summary Worlds.offline
           (str_exn Worlds.offline (AttributeError (Py.type_name item) "get")).
Proof.
  apply (non_record_item_is_an_error Worlds.offline
           [ ("news_data", PList [ PDict []; PStr "headline" ]) ]); reflexivity.
Defined.

End SummaryNews.

(** ** The bundle of the translating agent *)

Module TranslationBundle.

Import PyStr Spec TranslatingAgent.

(** The extractor yields nothing or a non-empty record. *)
Lemma translating_extract_cases (context : PyVal) :
  _extract_formatted_data context = PNone
  \/ exists d, _extract_formatted_data context = PDict d /\ Py.truthy (PDict d) = true.
Proof.
  unfold _extract_formatted_data.
  destruct (Py.truthy context) eqn:Ht; [|now left]. cbn [negb].
  destruct context as [| b | z | s | items | d]; try (now left).
  - destruct (find _ items) as [item|] eqn:Hfind; [|now left].
    apply find_some in Hfind as [_ Hitem].
    destruct item as [| | | | |d]; try discriminate.
    right. exists d. split; [reflexivity|].
    simpl in Hitem. now destruct d.
  - right. now exists d.
Qed.

(** The stage on whatever the extractor yields. *)
Lemma translate_content_cases (W : World) (context : PyVal) :
  translate_content W context = _create_fallback_translations W
  \/ exists d,
       _extract_formatted_data context = PDict d
       /\ translate_content W context
          = let formatted_summary :=
              match Py.lookup "formatted_summary" d with Some x => x | None => PStr "" end in
            let images :=
              match Py.lookup "images" d with Some x => x | None => PList [] end in
            PDict [ ("original_content", formatted_summary);
                    ("translations", PDict (translated_entries W formatted_summary images));
                    ("timestamp", PStr (now_isoformat W));
                    ("images", images) ].
Proof.
  unfold translate_content.
  destruct (translating_extract_cases context) as [-> | (d & -> & Ht)].
  - now left.
  - right. exists d. split; [reflexivity|]. rewrite Ht. reflexivity.
Qed.

(** X12: the translation stage never returns its error payload: whatever
    the context and whatever the translation service does, the bundle has
    no [error] field and its status is not "error"; the three languages are
    always there, in the order hindi, arabic, hebrew. *)
Theorem translation_never_errors (W : World) (context : PyVal) :
  Py.has_key "error" (translate_content W context) = false
  /\ Py.get (translate_content W context) "status" PNone <> Ok (PStr "error")
  /\ exists entries,
       Py.get (translate_content W context) "translations" PNone = Ok (PDict entries)
       /\ map fst entries = [ "hindi"; "arabic"; "hebrew" ]
       /\ Forall (fun entry => Py.has_key "error" (snd entry) = false) entries.
Proof.
  destruct (translate_content_cases W context) as [-> | (d & _ & ->)].
  - split; [reflexivity|]. split; [discriminate|].
    eexists. split; [reflexivity|]. split; [reflexivity|].
    repeat constructor.
  - split; [reflexivity|]. split; [discriminate|].
    eexists. split; [reflexivity|]. split; [reflexivity|].
    repeat constructor.
Qed.

(** X13: when the translation service gives no text, the bundle of a
    non-empty record carries for each language the notice written in that
    language, found under the name of the language, then the marker of the
    original content and the formatted summary unchanged; each entry has
    the images of the record. *)
Theorem service_down_keeps_original (W : World) (d : list (string * PyVal)) :
  d <> [] ->
  (forall content code name s, llm_translate W content code name <> Ok (PStr s)) ->
  let formatted_summary :=
    match Py.lookup "formatted_summary" d with Some x => x | None => PStr "" end in
  let images :=
    match Py.lookup "images" d with Some x => x | None => PList [] end in
  exists entries,
    Py.get (translate_content W (PDict d)) "translations" PNone = Ok (PDict entries)
    /\ Forall2
         (fun language entry =>
            fst entry = fst language
            /\ exists notice,
                 In (snd language, notice) fallback_messages
                 /\ snd entry
                    = PDict [ ("language", PStr (snd language));
                              ("content",
                               PStr (notice ++ NLNL ++ "[Original Content]" ++ NL
                                     ++ py_str W formatted_summary));
                              ("images", images) ])
         target_languages entries.
Proof.
  intros Hne Hdown formatted_summary images.
  assert (Ht : Py.truthy (PDict d) = true) by (destruct d; [now elim Hne | reflexivity]).
  assert (Hlang : forall code name,
             _translate_to_language W formatted_summary code name
             = _create_fallback_translation W formatted_summary name).
  { intros code name. unfold _translate_to_language, try_except, bind.
    destruct (llm_translate W (py_str W formatted_summary) code name) as [answer|] eqn:E;
      [|reflexivity].
    destruct answer; try reflexivity. now elim (Hdown _ _ _ _ E). }
  unfold translate_content, _extract_formatted_data.
  rewrite Ht. cbn [negb]. cbv iota. rewrite Ht. cbn [negb]. cbv iota.
  cbn [Py.get bind try_except Py.lookup].
  fold formatted_summary. fold images.
  change (String.eqb "translations" "original_content") with false.
  change (String.eqb "translations" "translations") with true. cbv iota.
  eexists. split; [reflexivity|].
  unfold translated_entries, target_languages. cbn [map fst snd].
  rewrite !Hlang. unfold _create_fallback_translation.
  repeat (constructor; [split; [reflexivity|]; eexists; split; [|reflexivity] |]).
  - left. reflexivity.
  - right. left. reflexivity.
  - right. right. left. reflexivity.
  - constructor.
Qed.

Lemma service_down_keeps_original_witness :
  exists entries,
    Py.get (translate_content Worlds.offline
              (PDict [ ("formatted_summary", PStr "Stocks rose.") ]))
           "translations" PNone
    = Ok (PDict entries)
    /\ List.length entries = 3.
Proof.
  destruct (service_down_keeps_original Worlds.offline
              [ ("formatted_summary", PStr "Stocks rose.") ]
              ltac:(discriminate)
              ltac:(intros content code name s; discriminate))
    as (entries & Hentries & Hall).
  exists entries. split; [exact Hentries|].
  apply Forall2_length in Hall. symmetry. exact Hall.
Defined.

End TranslationBundle.

(** ** The segments and the paragraphs of the document *)

Module Segments.

Import PyStr Spec SpecX PyStrFacts PDFGenerator.





Lemma endswith_append (p a b : string) :
  endswith p b = true -> endswith p (a ++ b) = true.
Proof.
  intros H. induction a as [|c a IH]; [exact H|].
  cbn [append endswith]. rewrite IH. apply orb_true_r.
Qed.

Lemma marker_tail_closed (s m rest : string) :
  marker_tail s = Some (m, rest) ->
  endswith "]" m = true /\ single_line m = true.
Proof.
  revert m; induction s as [|c s IH]; intros m; cbn [marker_tail]; [discriminate|].
  destruct (Ascii.eqb c "]") eqn:Hc.
  - intros [= <- <-]. split; reflexivity.
  - destruct (Ascii.eqb c nl) eqn:Hn; [discriminate|].
    destruct (marker_tail s) as [[m' rest']|]; [|discriminate].
    intros [= <- <-]. destruct (IH m' eq_refl) as [He Hl].
    split.
    + cbn [endswith]. rewrite He. apply orb_true_r.
    + cbn [single_line]. now rewrite Hn, Hl.
Qed.

Lemma match_marker_is_marker (s m rest : string) :
  match_marker s = Some (m, rest) -> is_marker m = true.
Proof.
  unfold match_marker. destruct (startswith "[Chart:" s); [|discriminate].
  destruct (marker_tail (drop 7 s)) as [[m' rest']|] eqn:Htail; [|discriminate].
  destruct (marker_tail_closed _ _ _ Htail) as [He Hl].
  assert (Hmarker : is_marker ("[Chart:" ++ m') = true).
  { unfold is_marker.
    rewrite (endswith_append "]" "[Chart:" m' He).
    rewrite InsertionOrder.startswith_append.
    rewrite SummaryNews.single_line_append, Hl. reflexivity. }
  intros [= <- <-]. exact Hmarker.
Qed.

Lemma re_split_aux_alternating (s : string) (skip : nat) (cur : string) :
  alternating (re_split_aux skip cur s) = true.
Proof.
  revert skip cur; induction s as [|c s IH]; intros skip cur; [reflexivity|].
  destruct skip as [|k]; cbn [re_split_aux]; [|apply IH].
  destruct (match_marker (String c s)) as [[m rest]|] eqn:Hm; [|apply IH].
  cbn [alternating]. rewrite (match_marker_is_marker _ _ _ Hm). apply IH.
Qed.

(** X15: the split at the chart markers gives prose and markers in turn:
    an odd number of segments, prose first and last, and every second
    segment is a marker that opens with the bracket and the word "Chart:",
    ends with a closing bracket and contains no newline. *)
Theorem split_alternates_prose_and_markers (content : string) :
  alternating (re_split content) = true.
Proof. apply re_split_aux_alternating. Qed.

(** *** Paragraphs *)

Lemma rstrip_idempotent (s : string) : rstrip (rstrip s) = rstrip s.
Proof.
  induction s as [|c s IH]; [reflexivity|].
  cbn [rstrip]. destruct (rstrip s) as [|a r] eqn:E.
  - destruct (is_space c) eqn:Hc; [reflexivity|].
    cbn [rstrip]. now rewrite Hc.
  - cbn [rstrip]. cbn [rstrip] in IH. rewrite IH. reflexivity.
Qed.

Lemma lstrip_head (s : string) :
  lstrip s = "" \/ exists c r, lstrip s = String c r /\ is_space c = false.
Proof.
  induction s as [|c s IH]; [now left|].
  cbn [lstrip]. destruct (is_space c) eqn:Hc; [exact IH|].
  right. now exists c, s.
Qed.

Lemma rstrip_head (c : ascii) (r : string) :
  is_space c = false -> exists r', rstrip (String c r) = String c r'.
Proof.
  intros Hc. cbn [rstrip]. destruct (rstrip r); [rewrite Hc|]; eauto.
Qed.

(** [strip] leaves a stripped text as it is. *)
Lemma strip_idempotent (s : string) : strip (strip s) = strip s.
Proof.
  unfold strip. destruct (lstrip_head s) as [-> | (c & r & -> & Hc)]; [reflexivity|].
  destruct (rstrip_head c r Hc) as [r' E].
  rewrite E. cbn [lstrip]. rewrite Hc. rewrite <- E. apply rstrip_idempotent.
Qed.

Lemma strip_clean (p : string) :
  negb (String.eqb (strip p) "") = true -> clean (strip p) = true.
Proof.
  intros H. unfold clean. now rewrite strip_idempotent, String.eqb_refl, H.
Qed.

Lemma forallb_clean_app (a b : list string) :
  forallb clean (a ++ b)%list = forallb clean a && forallb clean b.
Proof. apply forallb_app. Qed.

Lemma add_paragraphs_clean (paragraphs : list string) (story : list Flowable) :
  forallb clean (body_paragraphs story) = true ->
  forallb clean (body_paragraphs (add_paragraphs story paragraphs)) = true.
Proof.
  revert story; induction paragraphs as [|para rest IH]; intros story H; [exact H|].
  cbn [add_paragraphs].
  destruct (negb (String.eqb (strip para) "")) eqn:Hp; [|now apply IH].
  apply IH. rewrite Assembler.body_paragraphs_app, forallb_app, H.
  cbn [body_paragraphs forallb]. now rewrite (strip_clean para Hp).
Qed.

Lemma add_parts_clean (content_parts : list string) (story : list Flowable) :
  forallb clean (body_paragraphs story) = true ->
  forallb clean (body_paragraphs (add_parts story content_parts)) = true.
Proof.
  revert story; induction content_parts as [|part rest IH]; intros story H; [exact H|].
  cbn [add_parts].
  destruct (startswith "[Chart:" part).
  - apply IH. unfold _add_image_placeholder.
    now rewrite Assembler.body_paragraphs_app, forallb_app, H.
  - destruct (negb (String.eqb (strip part) "")); [|now apply IH].
    apply IH. now apply add_paragraphs_clean.
Qed.

(** X16: the assembler keeps the body paragraphs clean: when those of the
    story are, those of the story with the formatted content added are as
    well; so no body paragraph of the document is empty or carries white
    space at either end. *)
Theorem body_paragraphs_stay_clean (W : World) (story story' : list Flowable)
  (pdf_data : PyVal) :
  forallb clean (body_paragraphs story) = true ->
  _add_formatted_content W story pdf_data = Ok story' ->
  forallb clean (body_paragraphs story') = true.
Proof.
  intros Hstory. unfold _add_formatted_content, bind.
  destruct (Py.get pdf_data "formatted_summary" _) as [formatted_summary|];
    [|intros H; discriminate H].
  set (headed := (story ++ _)%list).
  assert (Hheaded : forallb clean (body_paragraphs headed) = true).
  { unfold headed. now rewrite Assembler.body_paragraphs_app, forallb_app, Hstory. }
  clearbody headed.
  assert (Hparts : forall with_parts,
             (if Py.truthy formatted_summary
              then match formatted_summary with
                   | PStr s => Ok (add_parts headed (_split_content_by_images s))
                   | _ => Raise (TypeError "expected string or bytes-like object")
                   end
              else Ok headed) = Ok with_parts ->
             forallb clean (body_paragraphs with_parts) = true).
  { intros with_parts. destruct (Py.truthy formatted_summary).
    - destruct formatted_summary; try discriminate.
      intros [= <-]. now apply add_parts_clean.
    - now intros [= <-]. }
  destruct (if Py.truthy formatted_summary then _ else _) as [with_parts|];
    [|intros H; discriminate H].
  specialize (Hparts with_parts eq_refl).
  destruct (Py.get pdf_data "images" _) as [images|]; [|intros H; discriminate H].
  destruct (Py.truthy images); [|now intros [= <-]].
  destruct (Py.iter images) as [items|]; [|intros H; discriminate H].
  intros H. apply Assembler.add_images_extends in H as (tail & -> & Htail).
  rewrite !Assembler.body_paragraphs_app, !forallb_app, Hparts, Htail.
  reflexivity.
Qed.

Lemma body_paragraphs_stay_clean_witness :
  forallb clean
    (body_paragraphs
       (add_parts [ Paragraph "ðŸ“ˆ Financial Market Summary" HeadingStyle; Spacer 1 20 ]
          (_split_content_by_images ("  Stocks rose. " ++ NLNL ++ "   " ++ NLNL ++ "Oil fell."))))
  = true.
Proof.
  apply (body_paragraphs_stay_clean Worlds.offline []
           (add_parts [ Paragraph "ðŸ“ˆ Financial Market Summary" HeadingStyle; Spacer 1 20 ]
              (_split_content_by_images
                 ("  Stocks rose. " ++ NLNL ++ "   " ++ NLNL ++ "Oil fell.")))
           (PDict [ ("formatted_summary",
                     PStr ("  Stocks rose. " ++ NLNL ++ "   " ++ NLNL ++ "Oil fell.")) ]));
    reflexivity.
Defined.

End Segments.

(** ** The pictures of the document and the report *)

Module Pictures.

Import PyStr Spec SpecX PyStrFacts PDFGenerator.


(** The test on the url made before anything is fetched. *)
Lemma placeholder_test (url : PyVal) :
  without_picture url = true ->
  (if negb (Py.truthy url) then Ok true
   else lowered <- Py.lower url ;; Ok (contains "placeholder" lowered))
  = Ok true.
Proof.
  unfold without_picture. destruct (negb (Py.truthy url)); [reflexivity|].
  cbn [orb]. destruct url; try discriminate. cbn [Py.lower bind]. now intros ->.
Qed.


(** An image without a picture gets its caption and nothing is fetched. *)
Lemma add_image_without_picture (W : World) (story : list Flowable)
  (d : list (string * PyVal)) :
  without_picture (image_url d) = true ->
  _add_image_to_story W story (PDict d)
  = Ok (story ++ [ caption W d " (Chart not available)"; Spacer 1 15 ])%list.
Proof.
  intros H. unfold _add_image_to_story. cbn [Py.get]. fold (image_url d) (image_title d).
  unfold bind at 1 2 3. rewrite (placeholder_test _ H). reflexivity.
Qed.




(** *** From the formatter to the document *)

Lemma find_financial_images_unconfigured (W : World) (summary_text : PyVal) :
  configured (serper_api_key W) = false ->
  configured (tavily_api_key W) = false ->
  FormattingAgent._find_financial_images W summary_text
  = FormattingAgent._get_fallback_images.
Proof.
  intros Hs Ht. unfold FormattingAgent._find_financial_images. rewrite Hs, Ht.
  destruct (FormattingAgent._extract_search_terms summary_text); reflexivity.
Qed.

(** X18: without the keys of the two image providers the formatter gives
    the two static descriptors for every summary, and the assembler, in
    any world, fetches nothing for them: each gets its caption with the
    note "(Chart not available)". *)
Theorem static_images_are_never_fetched (W W' : World) (summary_text : PyVal) :
  configured (serper_api_key W) = false ->
  configured (tavily_api_key W) = false ->
  List.length (FormattingAgent._find_financial_images W summary_text) = 2
  /\ Forall
       (fun image =>
          exists d,
            image = PDict d
            /\ forall story,
                 _add_image_to_story W' story image
                 = Ok (story ++ [ caption W' d " (Chart not available)"; Spacer 1 15 ])%list)
       (FormattingAgent._find_financial_images W summary_text).
Proof.
  intros Hs Ht. rewrite (find_financial_images_unconfigured W summary_text Hs Ht).
  split; [reflexivity|].
  unfold FormattingAgent._get_fallback_images.
  repeat constructor; eexists; (split; [reflexivity|]); intros story;
    now apply add_image_without_picture.
Qed.

Lemma static_images_are_never_fetched_witness :
  List.length (FormattingAgent._find_financial_images Worlds.offline (PStr "Stocks rose.")) = 2.
Proof.
  apply (static_images_are_never_fetched Worlds.offline Worlds.offline (PStr "Stocks rose."));
    reflexivity.
Defined.

(** *** The report *)



(** The report of the data the send agent hands over. *)
Lemma create_report_pdf_data (W : World) (title timestamp : string)
  (formatted_summary images : PyVal) :
  let pdf_data := PDict [ ("title", PStr title);
                          ("formatted_summary", formatted_summary);
                          ("images", images);
                          ("timestamp", PStr timestamp) ] in
  create_report W pdf_data
  = (story <- _add_formatted_content W
                [ Paragraph title TitleStyle; Spacer 1 20;
                  Paragraph ("Generated: " ++ now_generated W) SheetNormal;
                  Spacer 1 30 ] pdf_data ;;
     _ <- doc_build W ("output/financial_market_summary_" ++ timestamp ++ ".pdf") story ;;
     Ok ("output/financial_market_summary_" ++ timestamp ++ ".pdf")).
Proof. reflexivity. Qed.







End Pictures.

(** ** The requests to the channel and the report of the distribution *)

Module Channel.

Import PyStr Spec SpecX PyStrFacts SendAgent.

Lemma send_telegram_image_requests (W : World) (image : PyVal) :
  fst (_send_telegram_image W image) = photo_requests image.
Proof.
  unfold _send_telegram_image.
  destruct image as [| | | | |d]; try reflexivity.
  cbn [Py.get photo_requests]. rewrite !Distribution.io_bind_lift_ok. cbv beta.
  unfold io_call, io_bind, io_lift, io_try.
  destruct (telegram_sendPhoto W _ _) as [answer|]; [|reflexivity].
  destruct (Py.get answer "ok" _); reflexivity.
Qed.

(** The loop over the images makes the request of each, in order. *)
Lemma send_images_requests (W : World) (images : list PyVal) :
  send_images W images = (flat_map photo_requests images, Ok tt).
Proof.
  induction images as [|image rest IH]; [reflexivity|].
  cbn [send_images flat_map]. rewrite Stages.io_bind_total, IH.
  cbn [fst snd]. now rewrite send_telegram_image_requests.
Qed.

Lemma Some_inj {A : Type} (a b : A) : Some a = Some b -> a = b.
Proof. now intros [= ->]. Qed.

Lemma take_length (n : nat) (s : string) : String.length (take n s) <= n.
Proof.
  revert s; induction n as [|n IH]; intros [|c s]; cbn [take String.length]; try lia.
  specialize (IH s). lia.
Qed.

(** The text of the message is the header and at most 2005 characters. *)
Lemma telegram_text_bound (W : World) (v : PyVal) (m : string) :
  telegram_text W v = Some m ->
  exists s,
    v = PStr s
    /\ m = message_header W
           ++ (if 2000 <? String.length s then take 2000 s ++ "..." ++ NLNL else s ++ NLNL)
    /\ String.length m <= String.length (message_header W) + 2005
    /\ startswith (message_header W) m = true.
Proof.
  destruct v as [| | | s | |]; try discriminate. cbn [telegram_text].
  intros H. apply Some_inj in H. subst m. exists s. split; [reflexivity|]. split; [reflexivity|].
  split; [|apply InsertionOrder.startswith_append].
  rewrite length_append. apply Nat.add_le_mono_l.
  destruct (2000 <? String.length s) eqn:Hlong.
  - rewrite length_append. pose proof (take_length 2000 s).
    change (String.length ("..." ++ NLNL)) with 5. lia.
  - apply Nat.ltb_ge in Hlong. rewrite length_append.
    change (String.length NLNL) with 2. lia.
Qed.

(** The requests of a run are those of [_send_to_telegram]. *)
Lemma distribute_report_requests (W : World) (context : PyVal) :
  fst (distribute_report W context)
  = match _extract_formatted_data context with
    | PDict d => fst (_send_to_telegram W (PDict d))
    | _ => []
    end.
Proof.
  destruct (Distribution.extract_formatted_data_cases context)
    as [Hnone | (d & Hext & Htruthy)].
  - unfold distribute_report. now rewrite Hnone.
  - destruct (Distribution.distribute_report_run W context d Hext Htruthy)
      as (photos & Hcalls & _).
    destruct (Distribution.send_to_telegram_run W d) as (photos' & Hcalls' & _).
    rewrite Hext.
    unfold distribute_report. rewrite Hext, Htruthy. cbn [negb]. cbv iota zeta.
    rewrite Stages.io_bind_total.
    destruct (Distribution.send_to_telegram_run W d) as (p & _ & _ & _ & _ & r & Hr).
    destruct (Distribution.create_pdf_report_record W (PDict d) (now_file_stamp W)) as [q Hq].
    rewrite Hq, Hr. cbn [Py.get]. rewrite !Distribution.io_bind_lift_ok. cbv beta.
    destruct (Py.len _); cbn [io_lift io_bind io_ret io_try fst snd];
      now rewrite ?app_nil_r.
Qed.



(** X22: after the text message the stage asks for one photo for each of
    the first two images that are records, in their order, with the url
    and the title of the record or their defaults; images that are not
    records are passed over and no other request is made. *)
Theorem photos_are_the_first_two_images (W : World) (d : list (string * PyVal))
  (images : list PyVal) (text : string) :
  main_text W (PDict d) = Some text ->
  Py.lookup "images" d = Some (PList images) ->
  fst (distribute_report W (PDict d))
  = SendMessage text :: flat_map photo_requests (firstn 2 images).
Proof.
  intros Htext Himages.
  assert (Hd : _extract_formatted_data (PDict d) = PDict d).
  { unfold _extract_formatted_data. destruct d; [discriminate Himages | reflexivity]. }
  rewrite distribute_report_requests, Hd.
  unfold main_text in Htext. unfold _send_to_telegram.
  rewrite <- negb_andb.
  destruct (configured (telegram_token W) && configured (telegram_chat_id W));
    [|discriminate Htext].
  cbn [negb]. cbv iota.
  cbn [Py.get] in Htext |- *. rewrite !Distribution.io_bind_lift_ok. cbv beta.
  rewrite Himages.
  set (v := match Py.lookup "formatted_summary" d with Some x => x | None => PStr "" end)
    in Htext |- *.
  destruct (telegram_text_bound W v text Htext) as (s & Hv & _).
  clearbody v. subst v.
  pose proof (Distribution.message_block W (PStr s) (String.length s) eq_refl) as Hblock.
  cbn [Py.len]. rewrite Distribution.io_bind_lift_ok. cbv beta.
  match type of Hblock with
  | match ?b with Ok _ => _ | Raise _ => _ end =>
      destruct b as [m|];
      [|rewrite Hblock in Htext; discriminate Htext]
  end.
  rewrite Hblock in Htext. apply Some_inj in Htext. subst m.
  rewrite Distribution.io_bind_lift_ok. cbv beta.
  rewrite Stages.io_bind_total.
  destruct (Distribution.send_telegram_message_run W text) as (Hcalls & Hsuccess & mid & Hmid).
  rewrite Hcalls.
  cbn [Py.slice_to]. rewrite Distribution.io_bind_lift_ok. cbv beta.
  cbn [Py.iter]. rewrite Distribution.io_bind_lift_ok. cbv beta.
  rewrite send_images_requests, Distribution.io_bind_ok.
  rewrite Hsuccess, Distribution.io_bind_lift_ok. cbv beta.
  rewrite Hmid, Distribution.io_bind_lift_ok. cbv beta.
  cbn [io_ret io_try fst snd app]. now rewrite app_nil_r.
Qed.

Lemma photos_are_the_first_two_images_witness :
  let W := Worlds.with_telegram Worlds.offline in
  fst (distribute_report W
         (PDict [ ("formatted_summary", PStr "Stocks rose.");
                  ("images", PList [ PDict [ ("url", PStr "http://x/a.png") ];
                                     PStr "http://x/b.png";
                                     PDict [ ("url", PStr "http://x/c.png") ] ]) ]))
  = [ SendMessage (message_header W ++ "Stocks rose." ++ NLNL);
      SendPhoto (PStr "http://x/a.png") (PStr "Financial Chart") ].
Proof.
  intros W.
  exact (photos_are_the_first_two_images W
           [ ("formatted_summary", PStr "Stocks rose.");
             ("images", PList [ PDict [ ("url", PStr "http://x/a.png") ];
                                PStr "http://x/b.png";
                                PDict [ ("url", PStr "http://x/c.png") ] ]) ]
           [ PDict [ ("url", PStr "http://x/a.png") ];
             PStr "http://x/b.png";
             PDict [ ("url", PStr "http://x/c.png") ] ]
           (message_header W ++ "Stocks rose." ++ NLNL)
           eq_refl eq_refl).
Defined.

(** The two results of the document step. *)
Lemma create_pdf_report_cases (W : World) (formatted_data : PyVal) (timestamp : string) :
  _create_pdf_report W formatted_data timestamp
  = PDict [ ("success", PBool true);
            ("file_path", PStr ("output/financial_market_summary_" ++ timestamp ++ ".pdf"));
            ("message", PStr "PDF report created successfully") ]
  \/ exists e,
       _create_pdf_report W formatted_data timestamp
       = PDict [ ("success", PBool false);
                 ("file_path", PStr "");
                 ("error", PStr (str_exn W e));
                 ("message", PStr "PDF creation failed") ].
Proof.
  unfold _create_pdf_report.
  destruct (Py.get formatted_data "formatted_summary" _) as [summary|]; [|right; eexists; reflexivity].
  destruct (Py.get formatted_data "images" _) as [images|]; [|right; eexists; reflexivity].
  cbn [bind]. rewrite Pictures.create_report_pdf_data. cbv zeta.
  destruct (PDFGenerator._add_formatted_content W _ _) as [story|]; [|right; eexists; reflexivity].
  cbn [bind]. destruct (doc_build W _ story); [left; reflexivity | right; eexists; reflexivity].
Qed.

(** X23: the report of a run says of the document either that it was
    created, with the path output/financial_market_summary_<stamp>.pdf of
    the time of the run, or that it was not, with an empty path; this holds
    for every context, also when the stage ends in its fallback or its
    error payload. *)
Theorem pdf_path_follows_pdf_created (W : World) (context : PyVal) :
  (Py.get (snd (distribute_report W context)) "pdf_created" PNone = Ok (PBool true)
   /\ Py.get (snd (distribute_report W context)) "pdf_path" PNone
      = Ok (PStr (report_path W)))
  \/ (Py.get (snd (distribute_report W context)) "pdf_created" PNone = Ok (PBool false)
      /\ Py.get (snd (distribute_report W context)) "pdf_path" PNone = Ok (PStr "")).
Proof.
  destruct (Distribution.extract_formatted_data_cases context)
    as [Hnone | (d & Hext & Htruthy)].
  - right. unfold distribute_report. rewrite Hnone. split; reflexivity.
  - unfold distribute_report. rewrite Hext, Htruthy. cbn [negb]. cbv iota zeta.
    rewrite Stages.io_bind_total.
    destruct (Distribution.send_to_telegram_run W d) as (p & _ & _ & _ & _ & r & Hr).
    rewrite Hr.
    destruct (create_pdf_report_cases W (PDict d) (now_file_stamp W)) as [-> | [e ->]];
      cbn [Py.get Py.lookup];
      change (String.eqb "success" "success") with true;
      change (String.eqb "file_path" "success") with false;
      change (String.eqb "file_path" "file_path") with true; cbv iota;
      rewrite !Distribution.io_bind_lift_ok; cbv beta;
      (destruct (Py.len _);
       cbn [io_lift io_bind io_ret io_try fst snd];
       [|right; split; reflexivity]).
    + left. split; reflexivity.
    + right. split; reflexivity.
Qed.

(** X24: without the token or without the chat identifier nothing is
    requested from the channel and the report says that nothing was sent,
    whatever the context is. *)
Theorem nothing_is_sent_without_credentials (W : World) (context : PyVal) :
  configured (telegram_token W) && configured (telegram_chat_id W) = false ->
  fst (distribute_report W context) = []
  /\ Py.get (snd (distribute_report W context)) "telegram_sent" PNone = Ok (PBool false)
  /\ Py.get (snd (distribute_report W context)) "telegram_message_id" PNone = Ok (PStr "").
Proof.
  intros Hc.
  assert (Hsend : forall d,
             _send_to_telegram W (PDict d)
             = ([], PDict [ ("success", PBool false);
                            ("message", PStr "Telegram credentials not configured");
                            ("message_id", PStr "") ])).
  { intros d. unfold _send_to_telegram. rewrite <- negb_andb, Hc. reflexivity. }
  destruct (Distribution.extract_formatted_data_cases context)
    as [Hnone | (d & Hext & Htruthy)].
  - unfold distribute_report. rewrite Hnone. repeat split.
  - unfold distribute_report. rewrite Hext, Htruthy. cbn [negb]. cbv iota zeta.
    rewrite Stages.io_bind_total, Hsend. cbn [fst snd].
    destruct (Distribution.create_pdf_report_record W (PDict d) (now_file_stamp W)) as [q ->].
    cbn [Py.get]. rewrite !Distribution.io_bind_lift_ok. cbv beta.
    destruct (Py.len _); cbn [io_lift io_bind io_ret io_try fst snd];
      repeat split.
Qed.

Lemma nothing_is_sent_without_credentials_witness :
  fst (distribute_report Worlds.offline
         (PDict [ ("formatted_summary", PStr "Stocks rose.") ]))
  = [].
Proof.
  apply (nothing_is_sent_without_credentials Worlds.offline
           (PDict [ ("formatted_summary", PStr "Stocks rose.") ])).
  reflexivity.
Defined.

End Channel.

(** ** The news search *)

Module NewsSearch.

Import PyStr Spec SpecX PyStrFacts SearchAgent.

Lemma tavily_items_sources (results items : list PyVal) :
  tavily_items results = Ok items ->
  forallb (from_source "Tavily") items = true
  /\ List.length items = List.length results.
Proof.
  revert items; induction results as [|res rest IH]; intros items.
  - intros [= <-]. split; reflexivity.
  - cbn [tavily_items]. unfold bind.
    destruct (Py.get res "title" _); [|discriminate].
    destruct (Py.get res "content" _); [|discriminate].
    destruct (Py.get res "url" _); [|discriminate].
    destruct (Py.get res "published_date" _); [|discriminate].
    destruct (tavily_items rest) as [items'|]; [|discriminate].
    intros [= <-]. destruct (IH items' eq_refl) as [Hall Hlen].
    split; [|cbn [List.length]; now rewrite Hlen].
    cbn [forallb]. rewrite Hall. reflexivity.
Qed.

Lemma serper_items_sources (results items : list PyVal) :
  serper_items results = Ok items ->
  forallb (from_source "Serper") items = true
  /\ List.length items = List.length results.
Proof.
  revert items; induction results as [|res rest IH]; intros items.
  - intros [= <-]. split; reflexivity.
  - cbn [serper_items]. unfold bind.
    destruct (Py.get res "title" _); [|discriminate].
    destruct (Py.get res "snippet" _); [|discriminate].
    destruct (Py.get res "link" _); [|discriminate].
    destruct (Py.get res "date" _); [|discriminate].
    destruct (serper_items rest) as [items'|]; [|discriminate].
    intros [= <-]. destruct (IH items' eq_refl) as [Hall Hlen].
    split; [|cbn [List.length]; now rewrite Hlen].
    cbn [forallb]. rewrite Hall. reflexivity.
Qed.

Lemma search_tavily_sources (N : NewsWorld) :
  forallb (from_source "Tavily") (_search_tavily N) = true.
Proof.
  unfold _search_tavily, try_except, bind.
  destruct (tavily_news N) as [data|]; [|reflexivity].
  destruct (Py.get data "results" _) as [found|]; [|reflexivity].
  destruct (Py.iter found) as [results|]; [|reflexivity].
  destruct (tavily_items results) as [items|] eqn:E; [|reflexivity].
  now apply tavily_items_sources in E.
Qed.

Lemma search_serper_sources (N : NewsWorld) :
  forallb (from_source "Serper") (_search_serper N) = true.
Proof.
  unfold _search_serper, try_except, bind.
  destruct (serper_news N) as [data|]; [|reflexivity].
  destruct (Py.get data "news" _) as [found|]; [|reflexivity].
  destruct (Py.iter found) as [results|]; [|reflexivity].
  destruct (serper_items results) as [items|] eqn:E; [|reflexivity].
  now apply serper_items_sources in E.
Qed.

(** The analysis is one more item at the end, or nothing. *)
Lemma enhance_with_groq_appends (N : NewsWorld) (news_data : list PyVal) :
  exists analysis,
    _enhance_with_groq N news_data = (news_data ++ analysis)%list
    /\ forallb (from_source "Groq AI") analysis = true
    /\ List.length analysis <= 1.
Proof.
  unfold _enhance_with_groq, try_except, bind.
  destruct (news_blocks (world N) (firstn 5 news_data)) as [blocks|].
  - destruct (groq_analysis N (join NLNL blocks)) as [enhanced_summary|].
    + eexists. split; [reflexivity|]. split; [reflexivity | apply le_n].
    + exists []. split; [now rewrite app_nil_r|]. split; [reflexivity | apply Nat.le_0_l].
  - exists []. split; [now rewrite app_nil_r|]. split; [reflexivity | apply Nat.le_0_l].
Qed.

(** The news gathered, before the record is built. *)
Lemma execute_search_news (N : NewsWorld) :
  exists tavily serper analysis,
    execute_search N
    = PDict [ ("news_data", PList (tavily ++ serper ++ analysis)%list);
              ("timestamp", PStr (now_isoformat (world N)));
              ("search_summary",
               PStr ("Found "
                     ++ Py.str_of_nat (List.length (tavily ++ serper ++ analysis)%list)
                     ++ " relevant financial news items")) ]
    /\ forallb (from_source "Tavily") tavily = true
    /\ forallb (from_source "Serper") serper = true
    /\ forallb (from_source "Groq AI") analysis = true
    /\ List.length analysis <= 1
    /\ (analysis <> [] -> (tavily ++ serper)%list <> []).
Proof.
  unfold execute_search. cbn [try_except app].
  set (found_1 := if configured (tavily_api_key (world N)) then _search_tavily N else []).
  assert (H1 : forallb (from_source "Tavily") found_1 = true).
  { unfold found_1. destruct (configured _); [apply search_tavily_sources | reflexivity]. }
  clearbody found_1.
  set (found_2 := if configured (serper_api_key (world N)) && (List.length found_1 <? 10)
                  then _search_serper N else []).
  assert (H2 : forallb (from_source "Serper") found_2 = true).
  { unfold found_2. destruct (_ && _); [apply search_serper_sources | reflexivity]. }
  assert (E2 : (if configured (serper_api_key (world N)) && (List.length found_1 <? 10)
                then (found_1 ++ _search_serper N)%list else found_1)
               = (found_1 ++ found_2)%list).
  { unfold found_2. destruct (_ && _); [reflexivity | now rewrite app_nil_r]. }
  rewrite E2. clearbody found_2.
  destruct (configured (groq_api_key N) && Py.truthy (PList (found_1 ++ found_2)%list))
    eqn:Hgroq.
  - destruct (enhance_with_groq_appends N (found_1 ++ found_2)%list)
      as (analysis & -> & H3 & Hlen).
    exists found_1, found_2, analysis. rewrite <- app_assoc.
    split; [reflexivity|]. repeat (split; [assumption|]).
    intros _ Hempty. rewrite Hempty in Hgroq. now rewrite andb_false_r in Hgroq.
  - exists found_1, found_2, []. rewrite !app_nil_r.
    split; [reflexivity|]. repeat (split; [assumption|]).
    split; [reflexivity|]. split; [apply Nat.le_0_l | intros H; now elim H].
Qed.


(** X26: the second provider is asked only when the first one gave fewer
    than ten items: with the key of the first provider and ten items or
    more from it, the result is the same whatever the second provider
    would answer. *)
Theorem second_provider_only_when_short (N : NewsWorld) (answer : result PyVal) :
  configured (tavily_api_key (world N)) = true ->
  10 <= List.length (_search_tavily N) ->
  execute_search (with_serper_news answer N) = execute_search N.
Proof.
  intros Hkey Hlen. unfold execute_search.
  change (world (with_serper_news answer N)) with (world N).
  change (groq_api_key (with_serper_news answer N)) with (groq_api_key N).
  change (_search_tavily (with_serper_news answer N)) with (_search_tavily N).
  rewrite Hkey. cbn [app].
  assert (E : (List.length (_search_tavily N) <? 10) = false) by now apply Nat.ltb_ge.
  rewrite E, andb_false_r. reflexivity.
Qed.

Lemma second_provider_only_when_short_witness :
  execute_search (with_serper_news (Raise (ExternalError "down")) (both_keys 10))
  = execute_search (both_keys 10).
Proof.
  apply (second_provider_only_when_short (both_keys 10) (Raise (ExternalError "down"))).
  - reflexivity.
  - vm_compute. lia.
Defined.

Lemma search_tavily_silent (N : NewsWorld) (e : exn) :
  tavily_news N = Raise e -> _search_tavily N = [].
Proof. intros H. unfold _search_tavily. now rewrite H. Qed.

Lemma search_serper_silent (N : NewsWorld) (e : exn) :
  serper_news N = Raise e -> _search_serper N = [].
Proof. intros H. unfold _search_serper. now rewrite H. Qed.

(** X27: when each news provider is without a key or fails, the search
    still returns its normal record, with no news and the sentence
    "Found 0 relevant financial news items", and the analysis service is
    not asked: the result does not depend on its answer. *)
Theorem no_news_without_providers (N : NewsWorld) (answer : string -> result PyVal) :
  silent (tavily_api_key (world N)) (tavily_news N) ->
  silent (serper_api_key (world N)) (serper_news N) ->
  execute_search (with_groq_analysis answer N)
  = PDict [ ("news_data", PList []);
            ("timestamp", PStr (now_isoformat (world N)));
            ("search_summary", PStr "Found 0 relevant financial news items") ].
Proof.
  intros Htavily Hserper. unfold execute_search.
  change (world (with_groq_analysis answer N)) with (world N).
  change (_search_tavily (with_groq_analysis answer N)) with (_search_tavily N).
  change (_search_serper (with_groq_analysis answer N)) with (_search_serper N).
  cbn [app].
  assert (E1 : (if configured (tavily_api_key (world N)) then _search_tavily N else [])
               = []).
  { destruct Htavily as [-> | [e He]]; [reflexivity|].
    rewrite (search_tavily_silent N e He). now destruct (configured _). }
  rewrite E1. cbn [List.length app].
  assert (E2 : (if configured (serper_api_key (world N)) && (0 <? 10)
                then _search_serper N else [])
               = []).
  { destruct Hserper as [-> | [e He]]; [reflexivity|].
    rewrite (search_serper_silent N e He). now destruct (_ && _). }
  rewrite E2. cbn [Py.truthy]. rewrite andb_false_r. reflexivity.
Qed.

Lemma no_news_without_providers_witness :
  execute_search (with_groq_analysis (fun _ => Ok (PStr "analysis")) no_keys)
  = PDict [ ("news_data", PList []);
            ("timestamp", PStr (now_isoformat (world no_keys)));
            ("search_summary", PStr "Found 0 relevant financial news items") ].
Proof.
  apply (no_news_without_providers no_keys (fun _ => Ok (PStr "analysis")));
    left; reflexivity.
Defined.

(** *** From the search to the summary *)

Lemma from_source_record (name : string) (v : PyVal) :
  from_source name v = true -> Py.isinstance_dict v = true.
Proof. destruct v; try discriminate. reflexivity. Qed.

Lemma forallb_from_source_records (name : string) (items : list PyVal) :
  forallb (from_source name) items = true ->
  forallb Py.isinstance_dict items = true.
Proof.
  induction items as [|item rest IH]; [reflexivity|].
  cbn [forallb]. intros H. apply andb_prop in H as [Hitem Hrest].
  now rewrite (from_source_record name item Hitem), IH.
Qed.

Lemma forallb_firstn {A : Type} (f : A -> bool) (n : nat) (l : list A) :
  forallb f l = true -> forallb f (firstn n l) = true.
Proof.
  revert n; induction l as [|x l IH]; intros [|n]; try reflexivity.
  cbn [forallb firstn]. intros H. apply andb_prop in H as [Hx Hl].
  now rewrite Hx, IH.
Qed.

(** X28: the summary stage takes the result of the search as it is: for
    every outcome of the search, also one without news, the payload is
    neither the fallback nor the error payload, and its source count is
    the number of the news items found. *)
Theorem summary_of_search_result (N : NewsWorld) :
  exists items,
    Py.get (execute_search N) "news_data" PNone = Ok (PList items)
    /\ Py.get (SummaryAgent.create_summary (world N) (execute_search N)) "source_count" PNone
       = Ok (PInt (Z.of_nat (List.length items)))
    /\ Py.has_key "status" (SummaryAgent.create_summary (world N) (execute_search N)) = false.
Proof.
  destruct (execute_search_news N)
    as (tavily & serper & analysis & -> & Ht & Hs & Ha & _).
  exists (tavily ++ serper ++ analysis)%list. split; [reflexivity|].
  assert (Hrec : forallb Py.isinstance_dict
                   (firstn 10 (tavily ++ serper ++ analysis)%list) = true).
  { apply forallb_firstn. rewrite !forallb_app.
    rewrite (forallb_from_source_records _ _ Ht), (forallb_from_source_records _ _ Hs).
    now rewrite (forallb_from_source_records _ _ Ha). }
  destruct (SummaryNews.news_parts_records (world N) _ 1 Hrec) as [parts Hparts].
  rewrite SummaryNews.create_summary_record by reflexivity.
  destruct (tavily ++ serper ++ analysis)%list as [|item rest] eqn:E.
  - split; reflexivity.
  - match goal with
    | |- context [SummaryAgent._prepare_news_content ?W (PDict ?d)] =>
        rewrite (SummaryNews.prepare_news_content_items W d item rest eq_refl)
    end.
    rewrite Hparts. split; reflexivity.
Qed.

End NewsSearch.
